(* ===== verification/_CoqProject ===== *)
-Q . S2P
Prelude.v
PyModel.v
ConfigNode.v
Merge.v
WellFormed.v
Contents.v
Validation.v
Paths.v
Copy.v
AbstractStore.v
Bootstrap.v
Logger.v
Frontend.v
Workflows.v
WorkflowMachine.v
FrontendMain.v
