(* ===== verification/Prelude.v ===== *)
(** * A verification development of [veles/config.py] and its front-end generator

    [src/veles/config.py] is the global configuration of VELES: a tree
    of [Config] nodes rooted at the module global [root], created
    lazily by attribute lookup, filled by deep merges ([Config.update]),
    partly frozen by [Config.protect] through the module global
    [__protected__], and read by the rest of the system, which may call
    [validate_kwargs] to warn about settings that were never set.
    Importing the module builds the tree: the root, the built-in
    defaults, the override modules [veles.site_config] and
    [site_config] (searched in three directories), the derived setting
    [web.templates], the directory checks and the final [protect] calls.
    [src/veles/scripts/generate_frontend.py] turns the [argparse]
    actions of the command line into the HTML form of the web front
    end; it reads the actions and mutates them in place.

    ** Files and what they model

    - [Prelude] (this file): the monad [PyM S E A = S -> S * (E + A)] of
      Python statements (an exception keeps the writes done before it),
      its [for] loops ([iter_items], [iter_list], [map_items]),
      insertion-ordered dicts as association lists ([assoc_get],
      [assoc_set], [assoc_del]), two ways of stating properties of
      actions ([respects R m]: the final state is [R]-related to the
      first; [hoare P m Q Qe]: pre- and postconditions, also on the
      raising path), the hint database [py] and the tactics
      [run_step], [inv_bind], [solve_respects], [vm_decide].
    - [PyModel]: Python values ([val]: leaves, dicts, references to
      [Config] objects), exceptions, truth values, and the interpreter
      state [state]: the heap of instance dicts ([__dict__] of each
      [Config]), [__protected__] as a [gmap] from objects to [gset]s of
      names, the global [root], and the log of [caller.warning] calls.
    - [ConfigNode] (Module [Config]): the class [Config] (lines 52-149):
      Python's attribute lookup around [__getattr__] ([getattr],
      [getattr_hook]), [__setattr__] with its protection check
      ([setattr], [object_setattr]), [__init__] ([init]), [protect],
      [__content__], [__iter__], [__getitem__], [fix_contents].
    - [Merge] (Module [Merge]): [Config.update] and [Config.__update__]
      (lines 70-99): [update], [update_], [update_item].
    - [WellFormed]: the well-formedness invariant of the state and the
      specification of every operation above in [hoare] form.
    - [Contents]: termination and non-termination of [fix_contents].
    - [Validation] (Module [Validation]): [get] and [validate_kwargs]
      (lines 157-176).
    - [Bootstrap] (Module [Bootstrap]): the module body (lines 152-154,
      178-321) as [config_module E veles_site finder], where [E] is the
      process environment the defaults read, [veles_site] the optional
      [veles.site_config] module and [finder] what [__import__] finds on
      [sys.path] with a given directory in front; an override module's
      [update] is an arbitrary action on the state.
    - [Paths] (Module [Paths]): attribute chains [root.a.b] as
      [lookup_path], one lookup per name.
    - [Copy] (Module [Copy]): the copy protocol of [Config]
      ([__getstate__], [__setstate__], [__getnewargs__] and the
      [__deepcopy__] guard of [__getattr__]) driven by Python's
      [copy.copy] and [copy.deepcopy], with the memo of [deepcopy]
      threaded explicitly.
    - [AbstractStore] (Module [AbstractStore]): the node store the
      specification describes (path, children and protected names per
      node, its operations [setChild], [child], [protect] with
      [ProtectedWriteError] as a value) and the abstraction [alpha] of a
      concrete state into it.
    - [Logger] (Module [Logger]): [src/src/logger.py], the [Logger]
      mixin, over logging's manager dict and the instances.
    - [Frontend] (Module [Frontend]): [generate_opts], [convert_argument]
      and the argument pipeline of [main] in [generate_frontend.py], in
      the exception monad [sum fexn] with the actions as a store that
      both functions mutate.
    - [Workflows] (Module [Workflows]): [scan_workflows] of
      [generate_frontend.py], its two loops over the directories of
      [os.walk] and their files, with the walk, the import of a file
      and the iteration order of a [set] as parameters.
    - [WorkflowMachine] (Module [WorkflowMachine]): the same two loops
      as a transition relation [scan_step] on the program points of the
      loops ([sstate]), one step per loop test or file iteration.
    - [FrontendMain] (Module [FrontendMain]): [main] of
      [generate_frontend.py], the scan and the argument pipeline
      composed into the values the page template receives ([page]).

    The components interact only through the state: [Merge] calls the
    lookup and assignment of [Config]; [Validation] reads the tree
    through [root]; [Bootstrap] calls all of them in the order of the
    module body.  [Frontend] shares only the Python values of
    [PyModel] with them; [Workflows] uses its exceptions and
    [os.path.join], and [FrontendMain] runs [Workflows] and then
    [Frontend] in the order of [main].

    ** What the theorems show

    - Protection (C1, C2): [__setattr__] refuses a protected name and
      leaves the heap unchanged; every operation, and hence every merge,
      whether it returns or raises halfway, respects the preorder
      [guarded] (protected entries keep their value, protections only
      grow, no object disappears).
    - Lazy creation (C3, C4), the merge algorithm (C5-C9), validation
      (C10), the bootstrap on every environment (C11), termination of
      [fix_contents] on acyclic trees (C12).
    - Divergences between the code and its intent: the registry keeps
      every node alive (C14), a protected but unset name cannot be read
      (C15), layered override files do not layer (C16) and their
      protection errors are swallowed (C17), protected directories can
      be relocated through their parent (C18), an unset trace flag
      enables tracing and a leaf [trace] makes validation raise (C19,
      C20), falsy markers and dicts over leaves or method names (C21,
      C22), copies of nodes turn opaque dict leaves into nodes (C24),
      and cyclic trees make [fix_contents] raise (C25).
    - The front-end generator (C26-C29): what [generate_opts] computes
      on well-formed actions, by a loop invariant; mandatory panels
      sorted first; the rewriting of help texts; and the inputs on
      which [generate_opts] crashes.
    - Reading an unset path (C30); [copy.deepcopy] copies the graph
      below a node, isomorphically and without its protections (C31);
      [copy.copy] round-trips the state of a node (C32); [Config]
      refines the specification's node store (C33); [Logger] instances
      share a logger exactly when their class names agree (C34).
    - The workflow scan (C35): [scan_workflows] returns exactly the
      [.py] files, outside the blacklists, whose module has
      [run(load, main)], whatever the order of set iteration.
    - Liveness of the scan (C13): from every state a run of its loops
      passes through, each workflow is eventually in the list the scan
      builds and stays there.
    - Composition (C23): [main] returns 0 with the workflows of the
      scan, one panel per action and the options of the parser's
      original actions, on inputs both parts handle.

    ** Bounds and fuel

    Integers are unbounded Python integers ([Z]).  The only recursion
    without a structural measure is [fix_contents]; its fuel counts
    nesting levels, one unit per level, which bounds what Python's
    recursion limit allows (CPython spends two frames per level, the
    function and the [__content__] getter, plus the caller's).  C12
    shows that fuel above the rank of a node in an acyclic tree
    suffices, C25 that a cycle exhausts any fuel, hence any recursion
    limit.  [copy.deepcopy] has fuel for the nesting of nodes; C31
    shows that the number of objects suffices, since each nested call
    first records one more original object in the memo.  The merge
    recursion is structural on the source dict, and the loops of
    [generate_frontend.py] on the list of actions and the walk.  The
    machine of [WorkflowMachine] needs no fuel: each step lowers
    [steps_left] (two per directory, one per file visited, one to leave
    the walk), so no run of it is infinite.

    ** Not modelled

    [Config.print_] and [__repr__] only format output.  [__del__] is
    modelled ([config_del]) but no operation calls it: CPython runs it
    only on an object nothing refers to, and on such an object its
    deleting branch is dead ([config_del_unreferenced]; C14 shows every
    node is a registry key from its creation).  [os.makedirs],
    [veles.check_root()] and the stack trace of [validate_kwargs] are
    effects outside the configuration (the trace is one opaque log
    entry).  In [generate_frontend.py], the HTML text of the panels and
    of the page, [json.dumps] and the writing of the page are I/O and
    are not modelled (the page is the record of the template's
    arguments); the parser [CommandLineBase.init_parser] and its
    [SPECIAL_OPTS] live outside the three files and are parameters; the file
    system walk and the imports of [scan_workflows] are parameters of
    its model, and its debug output, [warnings], [gc] and thread check
    only print.
    The handlers and output of the loggers [src/src/logger.py] returns
    belong to [logging] and are not modelled. *)

From stdpp Require Import base list strings.

Set Warnings "-register-all -clear-no-such-hyp".

(** ** The effect monad of Python code

    A Python statement reads and writes the interpreter state and may
    raise.  An exception does not roll back the writes done before it,
    so the monad keeps the final state on both outcomes:
    [PyM S E A = S -> S * (E + A)]. *)

Declare Scope py_scope.
Delimit Scope py_scope with py.

Definition PyM (S E A : Type) : Type := S -> S * (E + A).

Definition pret {S E A} (a : A) : PyM S E A := fun s => (s, inr a).

Definition pbind {S E A B} (m : PyM S E A) (k : A -> PyM S E B) : PyM S E B :=
  fun s => match m s with
           | (s', inl e) => (s', inl e)
           | (s', inr a) => k a s'
           end.

Definition praise {S E A} (e : E) : PyM S E A := fun s => (s, inl e).

Definition pget {S E} : PyM S E S := fun s => (s, inr s).

Definition pmodify {S E} (f : S -> S) : PyM S E unit := fun s => (f s, inr tt).

(** [try: m except: h] : the handler sees the state left by [m]. *)
Definition ptry {S E A} (m : PyM S E A) (h : E -> PyM S E A) : PyM S E A :=
  fun s => match m s with
           | (s', inl e) => h e s'
           | r => r
           end.

Notation "x <- m ;; k" := (pbind m (fun x => k))
  (at level 100, m at next level, right associativity) : py_scope.
Notation "m ;; k" := (pbind m (fun _ => k))
  (at level 100, right associativity) : py_scope.

Open Scope py_scope.

(** [for k, v in items: f(k, v)] *)
Fixpoint iter_items {S E K V} (f : K -> V -> PyM S E unit)
    (items : list (K * V)) : PyM S E unit :=
  match items with
  | [] => pret tt
  | (k, v) :: rest => f k v ;; iter_items f rest
  end.

(** [for x in xs: f(x)] *)
Fixpoint iter_list {S E X} (f : X -> PyM S E unit) (xs : list X) : PyM S E unit :=
  match xs with
  | [] => pret tt
  | x :: rest => f x ;; iter_list f rest
  end.

(** [{k: f(k, v) for k, v in items}], keeping the keys in place. *)
Fixpoint map_items {S E K V} (f : K -> V -> PyM S E V)
    (items : list (K * V)) : PyM S E (list (K * V)) :=
  match items with
  | [] => pret []
  | (k, v) :: rest =>
      v' <- f k v ;; rest' <- map_items f rest ;; pret ((k, v') :: rest')
  end.

(** ** Insertion-ordered dictionaries as association lists

    A Python [dict] keeps its keys in insertion order; assigning an
    existing key keeps its position, a new key goes last.  [tree.items()]
    iterates in that order, which matters when an exception stops the
    iteration halfway. *)

Section Assoc.
Context {K V : Type} `{EqDecision K}.
Implicit Types (d : list (K * V)) (k : K) (v : V).

Fixpoint assoc_get k d : option V :=
  match d with
  | [] => None
  | (k', v') :: rest => if decide (k = k') then Some v' else assoc_get k rest
  end.

Fixpoint assoc_set k v d : list (K * V) :=
  match d with
  | [] => [(k, v)]
  | (k', v') :: rest =>
      if decide (k = k') then (k, v) :: rest else (k', v') :: assoc_set k v rest
  end.

Fixpoint assoc_del k d : list (K * V) :=
  match d with
  | [] => []
  | (k', v') :: rest =>
      if decide (k = k') then assoc_del k rest else (k', v') :: assoc_del k rest
  end.

Definition assoc_mem k d : bool := bool_decide (is_Some (assoc_get k d)).
End Assoc.

(** ** Actions that respect a preorder on states

    The protection guarantee of the configuration tree is a preorder
    between states (protected settings keep their value, the protected
    sets only grow).  An action [m] respects a preorder [R] when its
    final state is related to its start state, whether it returns or
    raises.  The combinators of the monad preserve this, so the property
    of a whole handler follows from the property of its primitive
    writes. *)

Definition respects {S E A} (R : S -> S -> Prop) (m : PyM S E A) : Prop :=
  forall s, R s (fst (m s)).

(** ** Pre- and postconditions

    [hoare P m Q Qe]: from a state satisfying [P], the action [m] either
    returns [a] in a state satisfying [Q a] or raises in a state
    satisfying [Qe].  Invariants that depend on the arguments of an
    action (a location must exist, a stored value must only refer to
    existing objects) are stated this way. *)
Definition hoare {S E A} (P : S -> Prop) (m : PyM S E A) (Q : A -> S -> Prop)
    (Qe : S -> Prop) : Prop :=
  forall s, P s -> match m s with
                   | (s', inr a) => Q a s'
                   | (s', inl _) => Qe s'
                   end.

(** ** Running the monad *)

Section Run.
Context {S E : Type}.

Lemma run_bind_ok {A B} (m : PyM S E A) (k : A -> PyM S E B) s s' a :
  m s = (s', inr a) -> pbind m k s = k a s'.
Proof. unfold pbind. intros ->. reflexivity. Qed.

Lemma run_bind_err {A B} (m : PyM S E A) (k : A -> PyM S E B) s s' e :
  m s = (s', inl e) -> pbind m k s = (s', inl e).
Proof. unfold pbind. intros ->. reflexivity. Qed.

Lemma bind_ret_l {A B} (a : A) (k : A -> PyM S E B) s :
  pbind (pret a) k s = k a s.
Proof. reflexivity. Qed.

Lemma bind_assoc {A B C} (m : PyM S E A) (k : A -> PyM S E B)
    (j : B -> PyM S E C) s :
  pbind (pbind m k) j s = pbind m (fun a => pbind (k a) j) s.
Proof. unfold pbind. destruct (m s) as [s' [e|a]]; reflexivity. Qed.

Lemma run_bind_inv {A B} (m : PyM S E A) (k : A -> PyM S E B) s s' r :
  pbind m k s = (s', r) ->
  (exists s1 a, m s = (s1, inr a) /\ k a s1 = (s', r)) \/
  (exists e, m s = (s', inl e) /\ r = inl e).
Proof.
  unfold pbind. destruct (m s) as [s1 [e|a]]; intros H.
  - right. injection H as -> <-. eauto.
  - left. eauto.
Qed.

End Run.

(** Run the first action of a (possibly nested) bind with a known run. *)
Ltac run_step H :=
  first [ rewrite (run_bind_ok _ _ _ _ _ H)
        | rewrite (run_bind_err _ _ _ _ _ H)
        | rewrite bind_assoc; run_step H ].

(** Split a hypothesis [pbind m k s = (s', r)] into the run of [m] and
    the run of [k]; an [inl]/[inr] mismatch closes the goal. *)
Ltac inv_bind H :=
  let s1 := fresh "s" in let a := fresh "a" in
  let H1 := fresh "Hrun" in let e := fresh "e" in
  apply run_bind_inv in H as [(s1 & a & H1 & H) | (e & H1 & H)];
  try discriminate.

(** ** Combinators preserve [respects] *)

Section Respects.
Context {S E : Type} (R : S -> S -> Prop) `{!PreOrder R}.

Lemma respects_ret {A} (a : A) : @respects S E _ R (pret a).
Proof. intros s. simpl. reflexivity. Qed.

Lemma respects_raise {A} (e : E) : @respects S E A R (praise e).
Proof. intros s. simpl. reflexivity. Qed.

Lemma respects_get : @respects S E _ R pget.
Proof. intros s. simpl. reflexivity. Qed.

Lemma respects_bind {A B} (m : PyM S E A) (k : A -> PyM S E B) :
  @respects S E _ R m -> (forall a, @respects S E _ R (k a)) -> @respects S E _ R (pbind m k).
Proof.
  intros Hm Hk s. unfold pbind. specialize (Hm s).
  destruct (m s) as [s' [e|a]]; simpl in *; [done|].
  etrans; [exact Hm | apply Hk].
Qed.

Lemma respects_try {A} (m : PyM S E A) (h : E -> PyM S E A) :
  @respects S E _ R m -> (forall e, @respects S E _ R (h e)) -> @respects S E _ R (ptry m h).
Proof.
  intros Hm Hh s. unfold ptry. specialize (Hm s).
  destruct (m s) as [s' [e|a]]; simpl in *; [|done].
  etrans; [exact Hm | apply Hh].
Qed.

Lemma respects_iter_items {K V} (f : K -> V -> PyM S E unit) items :
  (forall k v, @respects S E _ R (f k v)) -> @respects S E _ R (iter_items f items).
Proof.
  intros Hf. induction items as [|[k v] rest IH]; simpl.
  - apply respects_ret.
  - apply respects_bind; auto.
Qed.

Lemma respects_iter_items_Forall {K V} (f : K -> V -> PyM S E unit) items :
  Forall (fun kv => @respects S E _ R (f kv.1 kv.2)) items -> @respects S E _ R (iter_items f items).
Proof.
  induction 1 as [|[k v] rest Hkv _ IH]; simpl.
  - apply respects_ret.
  - apply respects_bind; auto.
Qed.

Lemma respects_iter_list {X} (f : X -> PyM S E unit) xs :
  (forall x, @respects S E _ R (f x)) -> @respects S E _ R (iter_list f xs).
Proof.
  intros Hf. induction xs as [|x rest IH]; simpl.
  - apply respects_ret.
  - apply respects_bind; auto.
Qed.

Lemma respects_map_items {K V} (f : K -> V -> PyM S E V) items :
  (forall k v, @respects S E _ R (f k v)) -> @respects S E _ R (map_items f items).
Proof.
  intros Hf. induction items as [|[k v] rest IH]; simpl.
  - apply respects_ret.
  - repeat (apply respects_bind; intros); auto using respects_ret.
Qed.

Lemma respects_match_option {A X} (o : option X) (m1 : X -> PyM S E A)
    (m2 : PyM S E A) :
  (forall x, @respects S E _ R (m1 x)) -> @respects S E _ R m2 ->
  @respects S E _ R (match o with Some x => m1 x | None => m2 end).
Proof. destruct o; auto. Qed.

Lemma respects_if {A} (b : bool) (m1 m2 : PyM S E A) :
  @respects S E _ R m1 -> @respects S E _ R m2 -> @respects S E _ R (if b then m1 else m2).
Proof. destruct b; auto. Qed.
End Respects.

(** ** Rules for [hoare] *)

Section Hoare.
Context {S E : Type}.
Implicit Types (P : S -> Prop) (Qe : S -> Prop).

Lemma hoare_ret {A} P (a : A) (Q : A -> S -> Prop) Qe :
  (forall s, P s -> Q a s) -> @hoare S E A P (pret a) Q Qe.
Proof. intros H s Hs. simpl. auto. Qed.

Lemma hoare_raise {A} P (e : E) (Q : A -> S -> Prop) Qe :
  (forall s, P s -> Qe s) -> hoare P (praise e) Q Qe.
Proof. intros H s Hs. simpl. auto. Qed.

Lemma hoare_get P Q Qe :
  (forall s, P s -> Q s s) -> @hoare S E S P pget Q Qe.
Proof. intros H s Hs. simpl. auto. Qed.

Lemma hoare_modify P f Q Qe :
  (forall s, P s -> Q tt (f s)) -> @hoare S E unit P (pmodify f) Q Qe.
Proof. intros H s Hs. simpl. auto. Qed.

Lemma hoare_bind {A B} P (m : PyM S E A) (k : A -> PyM S E B) Q R Qe :
  hoare P m Q Qe -> (forall a, hoare (Q a) (k a) R Qe) -> hoare P (pbind m k) R Qe.
Proof.
  intros Hm Hk s Hs. unfold pbind. specialize (Hm s Hs).
  destruct (m s) as [s' [e|a]]; [done|]. by apply Hk.
Qed.

Lemma hoare_conseq {A} P P' (m : PyM S E A) Q Q' Qe Qe' :
  hoare P m Q Qe -> (forall s, P' s -> P s) -> (forall a s, Q a s -> Q' a s) ->
  (forall s, Qe s -> Qe' s) -> hoare P' m Q' Qe'.
Proof.
  intros Hm HP HQ HQe s Hs. specialize (Hm s (HP s Hs)).
  destruct (m s) as [s' [e|a]]; auto.
Qed.

(** A precondition may depend on the start state. *)
Lemma hoare_intro {A} P (m : PyM S E A) Q Qe :
  (forall s0, P s0 -> hoare (fun s => s = s0) m Q Qe) -> hoare P m Q Qe.
Proof. intros H s Hs. by apply (H s Hs). Qed.

Lemma hoare_iter_items {K V} (Inv : S -> Prop) (f : K -> V -> PyM S E unit) items Qe :
  Forall (fun kv => hoare Inv (f kv.1 kv.2) (fun _ => Inv) Qe) items ->
  hoare Inv (iter_items f items) (fun _ => Inv) Qe.
Proof.
  induction 1 as [|[k v] rest Hkv _ IH]; simpl.
  - by apply hoare_ret.
  - eapply hoare_bind; [exact Hkv|]. intros []. exact IH.
Qed.
End Hoare.

Create HintDb py discriminated.
#[export] Hint Resolve respects_ret respects_raise respects_get respects_bind
  respects_try respects_iter_items respects_iter_list respects_map_items
  respects_if : py.
#[export] Hint Extern 1 (PreOrder _) => apply _ : py.

(** Close a [respects] goal by decomposing the action structurally. *)
Ltac solve_respects :=
  repeat match goal with
    | |- forall _, _ => intro
    | |- PreOrder _ => apply _
    | |- respects _ ((fun _ => _) _) => cbv beta
    | |- respects _ (map_items _ _) => apply respects_map_items
    | |- respects _ (iter_items _ _) => apply respects_iter_items
    | |- respects _ (iter_list _ _) => apply respects_iter_list
    | |- respects _ (ptry _ _) => apply respects_try
    | |- respects _ (match ?o with Some _ => _ | None => _ end) => destruct o
    | |- respects _ (match ?v with _ => _ end) => destruct v
    | |- _ => solve [eauto with py]
    | |- respects _ (pbind _ _) => apply respects_bind
    end.

(** A decidable proposition on closed data, by evaluation. *)
Ltac vm_decide :=
  match goal with |- ?P => apply (bool_decide_eq_true_1 P); vm_compute; reflexivity end.

Section AssocLemmas.
Context {K V : Type} `{EqDecision K}.
Implicit Types (d : list (K * V)) (k : K) (v : V).

Ltac assoc_cases :=
  repeat (simpl in *; first [case_decide; subst; try congruence | done]).

Lemma assoc_get_set_eq k v d : assoc_get k (assoc_set k v d) = Some v.
Proof. induction d as [|[k' v'] rest IH]; assoc_cases. Qed.

Lemma assoc_get_set_ne k k' v d :
  k <> k' -> assoc_get k' (assoc_set k v d) = assoc_get k' d.
Proof. intros Hne. induction d as [|[k0 v0] rest IH]; assoc_cases. Qed.

Lemma assoc_get_del_eq k d : assoc_get k (assoc_del k d) = None.
Proof. induction d as [|[k' v'] rest IH]; assoc_cases. Qed.

Lemma assoc_get_del_ne k k' d :
  k <> k' -> assoc_get k' (assoc_del k d) = assoc_get k' d.
Proof. intros Hne. induction d as [|[k0 v0] rest IH]; assoc_cases. Qed.

Lemma assoc_del_nil_inv k d :
  assoc_del k d = [] -> forall k', k' <> k -> assoc_get k' d = None.
Proof.
  intros Hd k' Hne. rewrite <- (assoc_get_del_ne k k'), Hd by auto. done.
Qed.
Lemma elem_of_assoc_del x k d : x ∈ assoc_del k d -> x ∈ d.
Proof.
  induction d as [|[k' v'] rest IH]; simpl; [done|].
  case_decide; rewrite ?elem_of_cons; intros; [right; auto|]. destruct H0; auto.
Qed.
End AssocLemmas.

Create Rewrite HintDb py_rw.
#[export] Hint Rewrite @assoc_get_set_eq @assoc_get_del_eq : py_rw.

(** ** Lists related element-wise *)

(** Projections and filters that cannot tell related elements apart
    give the same list on element-wise related lists. *)
Lemma map_filter_Forall2 {A B} (R : A -> A -> Prop) (P : A -> Prop) `{!forall x, Decision (P x)}
    (f : A -> B) l l' :
  Forall2 R l l' -> (forall a b, R a b -> f a = f b /\ (P a <-> P b)) ->
  map f (filter P l) = map f (filter P l').
Proof.
  intros HR Hf. induction HR as [|a b l l' Hab _ IH]; [done|].
  destruct (Hf a b Hab) as [Heq HP]. rewrite !filter_cons.
  destruct (decide (P a)), (decide (P b)); simpl; try tauto; by rewrite ?Heq, IH.
Qed.

Lemma forallb_Forall2 {A} (R : A -> A -> Prop) (g : A -> bool) l l' :
  Forall2 R l l' -> (forall a b, R a b -> g a = g b) -> forallb g l = forallb g l'.
Proof. intros HR Hg. induction HR as [|a b l l' Hab _ IH]; simpl; [done|]. by rewrite (Hg a b Hab), IH. Qed.
