(* ===== verification/PyModel.v ===== *)
(** * Python values, exceptions and the interpreter state

    The configuration code of [veles/config.py] manipulates Python
    objects: [Config] instances (mutable, compared and hashed by
    identity), plain dicts used as merge sources, and leaf values of any
    other type.  This file fixes how they are represented:

    - a [Config] instance is a location [l] of a heap; the heap maps it
      to the instance's [__dict__], an insertion-ordered dict that holds
      ["__path__"] and every child set on the node;
    - the module global [__protected__] (a [defaultdict(set)] keyed by
      [Config] instances) is a finite map from locations to sets of
      names;
    - the module global [root] is an optional location ([None] before
      line 152 of config.py runs);
    - calls to [caller.warning] are recorded in an output log.

    Dicts passed as merge sources are immutable values here: the code
    builds them as literals at the call site (or as a fresh copy,
    [__content__]), and the one mutation it performs on them, the
    deletion of the ["dict"] marker, is modelled on the value that is
    stored. *)

From stdpp Require Import base list strings gmap.
From Stdlib Require Import ZArith.
From S2P Require Import Prelude.

Set Warnings "-register-all -clear-no-such-hyp".

Abbreviation loc := nat.

(** Leaf values.  [AOther] stands for the leaves the code stores whose
    type the configuration code never inspects (tuples, lists, sets,
    lambdas): only their truth value can matter. *)
Inductive atom :=
| ANone
| ABool (b : bool)
| AInt (z : Z)
| AStr (s : string)
| AOther (repr : string) (truth : bool).

#[export] Instance atom_eq_dec : EqDecision atom.
Proof. solve_decision. Defined.

Inductive val :=
| VAtom (a : atom)
| VDict (kvs : list (string * val))
| VRef (l : loc).

Abbreviation dict := (list (string * val)).

(** Structural induction through the entries of a dict. *)
Definition val_ind' (P : val -> Prop)
    (Ha : forall a, P (VAtom a))
    (Hd : forall kvs, Forall (fun kv => P kv.2) kvs -> P (VDict kvs))
    (Hr : forall l, P (VRef l)) : forall v, P v :=
  fix IH v :=
    match v with
    | VAtom a => Ha a
    | VDict kvs =>
        Hd kvs ((fix go (kvs : dict) : Forall (fun kv => P kv.2) kvs :=
                   match kvs return Forall (fun kv => P kv.2) kvs with
                   | [] => List.Forall_nil _
                   | (k, x) :: r => List.Forall_cons _ (k, x) r (IH x) (go r)
                   end) kvs)
    | VRef l => Hr l
    end.

(** The exceptions the code raises.  [Unsupported] marks the corners of
    Python's object protocol the development does not model (assigning
    [__dict__] or [__class__], formatting a non-string [__path__]);
    [RecursionError] is Python's recursion limit, modelled by fuel;
    [Dangling] is a location outside the heap, which the well-formedness
    invariant of [ConfigNode] rules out. *)
Inductive exn :=
| AttributeError (msg : string)
| ValueError (msg : string)
| TypeError (msg : string)
| ImportError (msg : string)
| RecursionError
| Unsupported (what : string)
| Dangling (l : loc).

(** [bool(v)]: [None], [False], [0], [""] and the empty dict are false;
    a [Config] instance is true, since its class defines neither
    [__bool__] nor [__len__]. *)
Definition truthy (v : val) : bool :=
  match v with
  | VAtom ANone => false
  | VAtom (ABool b) => b
  | VAtom (AInt z) => negb (Z.eqb z 0)
  | VAtom (AStr s) => negb (String.eqb s "")
  | VAtom (AOther _ t) => t
  | VDict kvs => negb (bool_decide (kvs = []))
  | VRef _ => true
  end.

(** [d.get(k, default)] *)
Definition dict_get (k : string) (d : dict) (default : val) : val :=
  match assoc_get k d with Some v => v | None => default end.

(** [k in d] *)
Definition dict_contains (k : string) (d : dict) : bool := assoc_mem k d.

(** What [caller.warning(...)] receives. *)
Inductive entry :=
| LWarning (msg : string)
| LKwargs (kwargs : dict)
| LStack.

Record state := mk_state {
  heap : list dict;
  prot : gmap loc (gset string);
  root : option loc;
  log : list (string * entry)
}.

Definition set_heap (h : list dict) (st : state) : state :=
  mk_state h (prot st) (root st) (log st).
Definition set_prot (p : gmap loc (gset string)) (st : state) : state :=
  mk_state (heap st) p (root st) (log st).
Definition set_root (r : option loc) (st : state) : state :=
  mk_state (heap st) (prot st) r (log st).
Definition set_log (lg : list (string * entry)) (st : state) : state :=
  mk_state (heap st) (prot st) (root st) lg.

Abbreviation M := (PyM state exn).

(** The empty interpreter state: no object allocated, [root = None]
    (config.py line 48), [__protected__] empty (line 49). *)
Definition init_state : state := mk_state [] ∅ None [].

(** Reading and writing the [__dict__] of an instance. *)
Definition load (l : loc) : M dict :=
  fun st => match heap st !! l with
            | Some d => (st, inr d)
            | None => (st, inl (Dangling l))
            end.

Definition store (l : loc) (d : dict) : M unit :=
  pmodify (fun st => set_heap (<[l := d]> (heap st)) st).

(** A new object gets the next location. *)
Definition alloc (d : dict) : M loc :=
  fun st => (set_heap (heap st ++ [d]) st, inr (length (heap st))).

Definition warn (caller : string) (e : entry) : M unit :=
  pmodify (fun st => set_log (log st ++ [(caller, e)]) st).

(** The result of an attribute lookup: a value, or a bound method of a
    receiver. *)
Inductive attr :=
| AVal (v : val)
| ABound (recv : val) (name : string).

Definition attr_truthy (a : attr) : bool :=
  match a with AVal v => truthy v | ABound _ _ => true end.

(** ** Lemmas on the primitive state operations *)

Lemma load_run l st :
  load l st = match heap st !! l with
              | Some d => (st, inr d)
              | None => (st, inl (Dangling l))
              end.
Proof. reflexivity. Qed.

Lemma store_run l d st :
  store l d st = (set_heap (<[l := d]> (heap st)) st, inr tt).
Proof. reflexivity. Qed.

Lemma alloc_run d st :
  alloc d st = (set_heap (heap st ++ [d]) st, inr (length (heap st))).
Proof. reflexivity. Qed.

Lemma alloc_lookup_new d st :
  (heap st ++ [d]) !! length (heap st) = Some d.
Proof. rewrite lookup_app_r, Nat.sub_diag by lia. reflexivity. Qed.

Lemma alloc_lookup_old d st l :
  l < length (heap st) -> (heap st ++ [d]) !! l = heap st !! l.
Proof. intros Hl. by apply lookup_app_l. Qed.

#[export] Hint Rewrite load_run store_run alloc_run alloc_lookup_new : py_rw.
