(* ===== verification/ConfigNode.v ===== *)
(** * The [Config] class of [veles/config.py] (lines 52-149)

    Module [Config] translates the methods of the class and Python's
    attribute protocol around them: lookup [getattr] (the type's data
    descriptors, then the instance [__dict__], then the class, then the
    [__getattr__] hook that creates a missing child), assignment
    [setattr] (the [__setattr__] override that consults [__protected__]),
    [protect], [__del__], [__content__], [__iter__], [__getitem__] and
    the module function [fix_contents].  The theorems show lazy creation and its
    idempotence, the protection guarantee as a preorder every operation
    respects, the registry's hold on every node, and the write frame of
    each operation; the well-formedness invariant is in [WellFormed]. *)

From stdpp Require Import base list strings gmap.
From S2P Require Import Prelude PyModel.

Set Warnings "-register-all -clear-no-such-hyp".

Module Config.

(** ** Data of the class *)

(** Attributes of [type(Config)] that the lookup finds after the instance
    dict: what the class body defines (lines 60-149, Python 3 branch) and
    what [object] provides.  [__content__], [__dict__], [__class__] and
    [__weakref__] are data descriptors, looked up before the instance
    dict; they are listed in [data_descriptors]. *)
Definition class_attrs : list string :=
  ["__module__"; "__doc__"; "__init__"; "__del__"; "update"; "protect";
   "print_"; "__update__"; "__getattr__"; "__setattr__"; "__repr__";
   "__getstate__"; "__setstate__"; "__iter__"; "__getitem__";
   "__delattr__"; "__dir__"; "__eq__"; "__format__"; "__ge__";
   "__getattribute__"; "__gt__"; "__hash__"; "__init_subclass__"; "__le__";
   "__lt__"; "__ne__"; "__new__"; "__reduce__"; "__reduce_ex__";
   "__sizeof__"; "__str__"; "__subclasshook__"].

Definition data_descriptors : list string :=
  ["__content__"; "__dict__"; "__class__"; "__weakref__"].

(** ** Operations *)

(** [__protected__[self]] on the [defaultdict(set)] of line 49: a
    missing key is inserted with an empty set. *)
Definition protected_of (l : loc) : M (gset string) :=
  fun st => match prot st !! l with
            | Some ns => (st, inr ns)
            | None => (set_prot (<[l := ∅]> (prot st)) st, inr ∅)
            end.

(** [object.__setattr__] (line 115): a data descriptor without setter
    refuses the assignment, anything else goes to the instance dict. *)
Definition object_setattr (l : loc) (name : string) (v : val) : M unit :=
  if decide (name = "__content__") then praise (AttributeError "can't set attribute")
  else if decide (name ∈ data_descriptors) then
    praise (Unsupported ("assignment to " +:+ name))
  else d <- load l ;; store l (assoc_set name v d).

(** [self.__path__] as a string, as [%s] formats it. *)
Definition path_of (l : loc) : M string :=
  d <- load l ;;
  match assoc_get "__path__" d with
  | Some (VAtom (AStr p)) => pret p
  | _ => praise (Unsupported "__path__ that is not a string")
  end.

(** The message of line 113. *)
Definition protected_msg (p name : string) : string :=
  "Attempted to change the protected configuration setting " +:+ p +:+ "." +:+ name.

(** [Config.__setattr__] (lines 110-115). *)
Definition setattr (l : loc) (name : string) (v : val) : M unit :=
  ps <- protected_of l ;;
  if decide (name ∈ ps) then
    p <- path_of l ;;
    praise (AttributeError (protected_msg p name))
  else object_setattr l name v.

(** [Config(path)]: [__init__] (lines 63-64) on a new instance. *)
Definition init (path : string) : M loc :=
  l <- alloc [] ;;
  setattr l "__path__" (VAtom (AStr path)) ;;
  pret l.

(** The [__content__] property (lines 117-122). *)
Definition content (l : loc) : M dict :=
  d <- load l ;;
  pret (if dict_contains "__path__" d then assoc_del "__path__" d else d).

(** [Config.__getattr__] (lines 101-108), called when the normal lookup
    fails. *)
Definition getattr_hook (l : loc) (name : string) : M attr :=
  if decide (name = "__copy__" \/ name = "__deepcopy__") then
    praise (AttributeError "")
  else if decide (name = "keys" \/ name = "values") then
    c <- content l ;; pret (ABound (VDict c) name)
  else
    p <- path_of l ;;
    temp <- init (p +:+ "." +:+ name) ;;
    setattr l name (VRef temp) ;;
    pret (AVal (VRef temp)).

(** [getattr(self, name)]: data descriptors of the type, then the
    instance dict, then the class, then the hook. *)
Definition getattr (l : loc) (name : string) : M attr :=
  if decide (name = "__content__") then
    c <- content l ;; pret (AVal (VDict c))
  else if decide (name ∈ data_descriptors) then
    praise (Unsupported ("lookup of " +:+ name))
  else
    d <- load l ;;
    match assoc_get name d with
    | Some v => pret (AVal v)
    | None =>
        if decide (name ∈ class_attrs) then pret (ABound (VRef l) name)
        else getattr_hook l name
    end.

(** Attribute lookup on the result of a previous lookup, as in
    [root.common.trace.undefined_configs].  The names the code looks up
    this way ([__update__] and configuration keys) are attributes of no
    builtin type, so on anything but a [Config] the lookup raises. *)
Definition getattr_attr (a : attr) (name : string) : M attr :=
  match a with
  | AVal (VRef l) => getattr l name
  | _ => praise (AttributeError name)
  end.

(** [Config.protect] (lines 79-84). *)
Definition protect (l : loc) (names : list string) : M unit :=
  ps <- protected_of l ;;
  pmodify (fun st => set_prot (<[l := ps ∪ list_to_set names]> (prot st)) st).

(** [Config.__del__] (lines 66-68), which CPython runs once nothing
    refers to the object any more: [if __protected__ is not None and
    self in __protected__: del __protected__[self]].  The [in] test of a
    [defaultdict] inserts nothing; [__protected__] is [None] only while
    the interpreter tears the module down, which is not modelled. *)
Definition config_del (l : loc) : M unit :=
  pmodify (fun st => if decide (l ∈ dom (prot st)) then set_prot (delete l (prot st)) st else st).

(** The strong references CPython counts: a key of [__protected__],
    the global [root], or a value stored in an instance dict. *)
Definition referenced (st : state) (l : loc) : Prop :=
  l ∈ dom (prot st) \/ root st = Some l \/
  exists l' d k, heap st !! l' = Some d /\ (k, VRef l) ∈ d.

(** [Config.__iter__] (lines 141-142): the names of the children. *)
Definition iter (l : loc) : M (list string) :=
  c <- content l ;; pret (map fst c).

(** [Config.__getitem__] (lines 144-145). *)
Definition getitem (l : loc) (item : string) : M attr := getattr l item.

(** [fix_contents] (lines 52-57): the tree below [l] as nested dicts.
    Each nesting level costs one unit of [fuel]: a bound on the depth
    Python's recursion limit allows (CPython spends two frames per level,
    this function and the [__content__] getter). *)
Fixpoint fix_contents (fuel : nat) (l : loc) : M dict :=
  match fuel with
  | 0 => praise RecursionError
  | S n =>
      c <- content l ;;
      map_items (fun _ v => match v with
                            | VRef l' => d <- fix_contents n l' ;; pret (VDict d)
                            | _ => pret v
                            end) c
  end.

(** ** Reading the tree by path

    [path_val st ["a"; "b"]] is the value [root.a.b] has in [st] when
    every step finds an entry of an instance dict: a pure query, which
    (unlike [getattr]) creates nothing.  [protected_at st p n] says that
    the node at path [p] has [n] in its [__protected__] set. *)

Definition resolve (st : state) (v : option val) (name : string) : option val :=
  match v with
  | Some (VRef l) => heap st !! l ≫= assoc_get name
  | _ => None
  end.

Definition path_val (st : state) (names : list string) : option val :=
  fold_left (resolve st) names (VRef <$> root st).

Definition protected_at (st : state) (names : list string) (n : string) : Prop :=
  exists l, path_val st names = Some (VRef l) /\ n ∈ default ∅ (prot st !! l).

(** ** A sample tree

    [root] (location 0) with [root.common] (1), [root.common.engine] (2,
    with [port = 8080]), [root.common.trace] (3, empty) and
    [root.common.unset] (4, empty); ["pickles_compression"] is protected
    on [common] and ["port"] on [engine]. *)
Definition sample_tree : state :=
  mk_state
    [[("__path__", VAtom (AStr "root")); ("common", VRef 1)];
     [("__path__", VAtom (AStr "root.common")); ("engine", VRef 2); ("trace", VRef 3);
      ("unset", VRef 4)];
     [("__path__", VAtom (AStr "root.common.engine")); ("port", VAtom (AInt 8080))];
     [("__path__", VAtom (AStr "root.common.trace"))];
     [("__path__", VAtom (AStr "root.common.unset"))]]
    (<[4 := ∅]> (<[3 := ∅]> (<[2 := {["port"]}]> (<[1 := {["pickles_compression"]}]> (<[0 := ∅]> ∅)))))
    (Some 0) [].

(** ** The protection preorder

    [attr_of st l name] is the value [name] has in the [__dict__] of the
    instance [l]; [pnames st l] is [__protected__[l]].  A state [st']
    [guarded]-extends [st] when no protected name lost protection, no
    protected entry changed (an absent protected entry stays absent), and
    no object disappeared. *)

Definition attr_of (st : state) (l : loc) (name : string) : option val :=
  heap st !! l ≫= assoc_get name.

Definition pnames (st : state) (l : loc) : gset string :=
  default ∅ (prot st !! l).

Definition guarded (st st' : state) : Prop :=
  length (heap st) <= length (heap st') /\
  dom (prot st) ⊆ dom (prot st') /\
  (forall l, pnames st l ⊆ pnames st' l) /\
  (forall l name, name ∈ pnames st l -> attr_of st' l name = attr_of st l name).

#[export] Instance guarded_preorder : PreOrder guarded.
Proof.
  split.
  - intros st. split_and!; [lia | done | done | done].
  - intros s1 s2 s3 (Hl12 & Hd12 & Hp12 & Ha12) (Hl23 & Hd23 & Hp23 & Ha23).
    split_and!; [lia | set_solver | intros l; etrans; eauto |].
    intros l name Hn. rewrite Ha23 by (apply Hp12; done). auto.
Qed.

(** The state after [__protected__[l]] has been evaluated. *)
Definition touch (l : loc) (st : state) : state :=
  match prot st !! l with
  | Some _ => st
  | None => set_prot (<[l := ∅]> (prot st)) st
  end.

(** Names the [__getattr__] hook turns into new children. *)
Definition child_name (name : string) : Prop :=
  (name ∉ data_descriptors) /\ (name ∉ class_attrs) /\
  (name ∉ ["__copy__"; "__deepcopy__"; "keys"; "values"]).

#[export] Instance child_name_dec name : Decision (child_name name).
Proof. unfold child_name. apply _. Defined.

(** ** The write frame of an operation

    [frame K st st'] : no node disappeared, and on the nodes that existed
    in [st] only names in [K] may have changed.  Nodes allocated on the
    way are unconstrained. *)

Definition frame (K : list string) (st st' : state) : Prop :=
  length (heap st) <= length (heap st') /\
  forall l name, l < length (heap st) -> name ∉ K -> attr_of st' l name = attr_of st l name.

#[export] Instance frame_preorder K : PreOrder (frame K).
Proof.
  split.
  - intros st. split; [lia|done].
  - intros s1 s2 s3 [Hl12 Ha12] [Hl23 Ha23]. split; [lia|].
    intros l name Hl Hn. rewrite Ha23 by (lia || done). auto.
Qed.

(** ** Lemmas on the protection preorder *)

Lemma protected_of_run l st : protected_of l st = (touch l st, inr (pnames st l)).
Proof. unfold protected_of, touch, pnames. by destruct (prot st !! l). Qed.

Lemma touch_heap l st : heap (touch l st) = heap st.
Proof. unfold touch. by destruct (prot st !! l). Qed.

Lemma touch_root l st : root (touch l st) = root st.
Proof. unfold touch. by destruct (prot st !! l). Qed.

Lemma touch_log l st : log (touch l st) = log st.
Proof. unfold touch. by destruct (prot st !! l). Qed.

Lemma touch_pnames l l' st : pnames (touch l st) l' = pnames st l'.
Proof.
  unfold touch, pnames. destruct (prot st !! l) eqn:E; [done|]. simpl.
  destruct (decide (l = l')) as [->|Hne].
  - by rewrite lookup_insert_eq, E.
  - by rewrite lookup_insert_ne.
Qed.

Lemma touch_attr_of l l' name st : attr_of (touch l st) l' name = attr_of st l' name.
Proof. unfold attr_of. by rewrite touch_heap. Qed.

Lemma touch_dom l st : l ∈ dom (prot (touch l st)).
Proof.
  unfold touch. destruct (prot st !! l) eqn:E.
  - apply elem_of_dom. eauto.
  - simpl. rewrite dom_insert_L. set_solver.
Qed.

#[export] Hint Rewrite touch_heap touch_root touch_log touch_pnames touch_attr_of
  protected_of_run : py_rw.

Lemma guarded_same_heap st st' :
  heap st' = heap st -> dom (prot st) ⊆ dom (prot st') ->
  (forall l, pnames st l ⊆ pnames st' l) -> guarded st st'.
Proof.
  intros Hh Hd Hp. split_and!; [by rewrite Hh | done | done |].
  intros l name _. unfold attr_of. by rewrite Hh.
Qed.

Lemma touch_dom_mono l st : dom (prot st) ⊆ dom (prot (touch l st)).
Proof. unfold touch. destruct (prot st !! l); simpl; [done|]. rewrite dom_insert_L. set_solver. Qed.

Lemma guarded_touch l st : guarded st (touch l st).
Proof.
  apply guarded_same_heap;
    [apply touch_heap | apply touch_dom_mono | intros l'; by rewrite touch_pnames].
Qed.

Lemma guarded_store st l d name v :
  heap st !! l = Some d -> name ∉ pnames st l ->
  guarded st (set_heap (<[l := assoc_set name v d]> (heap st)) st).
Proof.
  intros Hl Hn. split_and!; simpl.
  - by rewrite length_insert.
  - done.
  - done.
  - intros l' name' Hp. unfold attr_of; simpl.
    destruct (decide (l = l')) as [<-|Hne].
    + rewrite list_lookup_insert_eq by (eapply lookup_lt_Some; eauto).
      rewrite Hl. simpl. apply assoc_get_set_ne. intros <-. contradiction.
    + by rewrite list_lookup_insert_ne.
Qed.

Lemma guarded_alloc_empty st : guarded st (set_heap (heap st ++ [[]]) st).
Proof.
  split_and!; simpl.
  - rewrite length_app. lia.
  - done.
  - done.
  - intros l name _. unfold attr_of; simpl.
    rewrite lookup_app. destruct (heap st !! l) eqn:E; [done|]. simpl.
    by destruct (l - length (heap st)).
Qed.

(** ** Every operation respects the protection preorder *)

Section Respects.

Lemma load_respects l : respects guarded (load l).
Proof. intros st. unfold load. by destruct (heap st !! l). Qed.

Lemma protected_of_respects l : respects guarded (protected_of l).
Proof. intros st. rewrite protected_of_run. apply guarded_touch. Qed.

Lemma alloc_respects : respects guarded (alloc []).
Proof. intros st. apply guarded_alloc_empty. Qed.

#[local] Hint Resolve load_respects protected_of_respects alloc_respects : py.

Lemma path_of_respects l : respects guarded (path_of l).
Proof. unfold path_of. solve_respects. Qed.

Lemma content_respects l : respects guarded (content l).
Proof. unfold content. solve_respects. Qed.

#[local] Hint Resolve path_of_respects content_respects : py.

Lemma setattr_respects l name v : respects guarded (setattr l name v).
Proof.
  intros st. unfold setattr. rewrite (run_bind_ok _ _ _ _ _ (protected_of_run l st)).
  etrans; [apply guarded_touch|]. case_decide as Hin.
  - apply (respects_bind _ _ _ (path_of_respects l)). solve_respects.
  - unfold object_setattr. repeat case_decide; simpl; try reflexivity.
    unfold pbind, load. destruct (heap (touch l st) !! l) as [d|] eqn:Hd;
      simpl; [|reflexivity].
    apply guarded_store; [done|]. by rewrite touch_pnames.
Qed.

#[local] Hint Resolve setattr_respects : py.

Lemma init_respects path : respects guarded (init path).
Proof. unfold init. solve_respects. Qed.

#[local] Hint Resolve init_respects : py.

Lemma getattr_respects l name : respects guarded (getattr l name).
Proof. unfold getattr, getattr_hook. solve_respects. Qed.

#[local] Hint Resolve getattr_respects : py.

Lemma getattr_attr_respects a name : respects guarded (getattr_attr a name).
Proof. unfold getattr_attr. solve_respects. Qed.

Lemma protect_respects l names : respects guarded (protect l names).
Proof.
  intros st. unfold protect. rewrite (run_bind_ok _ _ _ _ _ (protected_of_run l st)).
  unfold pmodify. cbn [fst]. apply guarded_same_heap; [exact (touch_heap l st)| |].
  { cbn [set_prot prot]. rewrite dom_insert_L.
    pose proof (touch_dom_mono l st). set_solver. }
  intros l'. unfold pnames. cbn [set_prot prot].
  destruct (decide (l = l')) as [<-|Hne].
  - rewrite lookup_insert_eq. simpl. set_solver.
  - rewrite lookup_insert_ne by done. fold (pnames (touch l st) l').
    by rewrite touch_pnames.
Qed.

Lemma fix_contents_respects fuel l : respects guarded (fix_contents fuel l).
Proof.
  revert l. induction fuel as [|n IH]; intros l; simpl; solve_respects.
Qed.
End Respects.

(** ** Functional behaviour of the primitive operations *)

Lemma content_is_descriptor : "__content__" ∈ data_descriptors.
Proof. set_solver. Qed.

(** Skip the data-descriptor tests of [getattr] for an ordinary name. *)
Ltac plain_lookup :=
  rewrite !decide_False by (try intros ->; auto using content_is_descriptor).

Lemma pnames_set_heap h st l : pnames (set_heap h st) l = pnames st l.
Proof. reflexivity. Qed.

Lemma touch_set_heap l h st : touch l (set_heap h st) = set_heap h (touch l st).
Proof. unfold touch. simpl. by destruct (prot st !! l). Qed.

Lemma setattr_run_ok l name v st d :
  heap st !! l = Some d -> name ∉ pnames st l -> name ∉ data_descriptors ->
  setattr l name v st =
    (set_heap (<[l := assoc_set name v d]> (heap st)) (touch l st), inr tt).
Proof.
  intros Hd Hn Hdd. unfold setattr. rewrite (run_bind_ok _ _ _ _ _ (protected_of_run l st)).
  rewrite decide_False by done. unfold object_setattr.
  plain_lookup.
  unfold pbind, load. rewrite touch_heap, Hd. unfold store, pmodify.
  by rewrite touch_heap.
Qed.

Lemma path_of_run l st d p :
  heap st !! l = Some d -> assoc_get "__path__" d = Some (VAtom (AStr p)) ->
  path_of l st = (st, inr p).
Proof. intros Hd Hp. unfold path_of, pbind, load. by rewrite Hd, Hp. Qed.

Lemma content_run l st d :
  heap st !! l = Some d ->
  content l st = (st, inr (if dict_contains "__path__" d then assoc_del "__path__" d else d)).
Proof. intros Hd. unfold content, pbind, load. by rewrite Hd. Qed.

Lemma setattr_run_protected l name v st d p :
  heap st !! l = Some d -> assoc_get "__path__" d = Some (VAtom (AStr p)) ->
  name ∈ pnames st l ->
  setattr l name v st = (touch l st, inl (AttributeError (protected_msg p name))).
Proof.
  intros Hd Hp Hn. unfold setattr. rewrite (run_bind_ok _ _ _ _ _ (protected_of_run l st)).
  rewrite decide_True by done.
  rewrite (run_bind_ok _ _ _ _ _ (path_of_run l (touch l st) d p ltac:(by rewrite touch_heap) Hp)).
  reflexivity.
Qed.

Lemma init_run path st :
  prot st !! length (heap st) = None ->
  init path st =
    (set_heap (heap st ++ [[("__path__", VAtom (AStr path))]]) (touch (length (heap st)) st),
     inr (length (heap st))).
Proof.
  intros Hfree. unfold init. rewrite (run_bind_ok _ _ _ _ _ (alloc_run [] st)).
  assert (Hp : "__path__" ∉ pnames (set_heap (heap st ++ [[]]) st) (length (heap st))).
  { unfold pnames; simpl. rewrite Hfree. set_solver. }
  assert (Hdd : "__path__" ∉ data_descriptors) by set_solver.
  rewrite (run_bind_ok _ _ _ _ _ (setattr_run_ok (length (heap st)) "__path__" (VAtom (AStr path))
    (set_heap (heap st ++ [[]]) st) [] (alloc_lookup_new [] st) Hp Hdd)).
  simpl. rewrite touch_set_heap. unfold set_heap; simpl.
  rewrite insert_app_r_alt, Nat.sub_diag by lia. reflexivity.
Qed.

Lemma getattr_found l name v st :
  attr_of st l name = Some v -> name ∉ data_descriptors ->
  getattr l name st = (st, inr (AVal v)).
Proof.
  unfold attr_of, getattr. intros H Hdd.
  plain_lookup.
  unfold pbind, load. destruct (heap st !! l); simpl in H; [|discriminate].
  by rewrite H.
Qed.

Lemma child_name_not_special name :
  child_name name ->
  ~ (name = "__copy__" \/ name = "__deepcopy__") /\ ~ (name = "keys" \/ name = "values").
Proof. intros (_ & _ & H). split; intros [-> | ->]; apply H; set_solver. Qed.

(** The hook on a child name: the new node is allocated first, then
    stored under [name]. *)
Lemma getattr_hook_run l name st d p :
  heap st !! l = Some d -> assoc_get "__path__" d = Some (VAtom (AStr p)) ->
  child_name name -> name ∉ pnames st l -> prot st !! length (heap st) = None ->
  getattr_hook l name st =
    (set_heap (<[l := assoc_set name (VRef (length (heap st))) d]>
                 (heap st ++ [[("__path__", VAtom (AStr (p +:+ "." +:+ name)))]]))
              (touch l (touch (length (heap st)) st)),
     inr (AVal (VRef (length (heap st))))).
Proof.
  intros Hd Hp Hc Hn Hfree. pose proof (child_name_not_special name Hc) as [H1 H2].
  unfold getattr_hook. rewrite !decide_False by done.
  rewrite (run_bind_ok _ _ _ _ _ (path_of_run l st d p Hd Hp)).
  rewrite (run_bind_ok _ _ _ _ _ (init_run _ st Hfree)).
  assert (Hl : l < length (heap st)) by (eapply lookup_lt_Some; eauto).
  rewrite (run_bind_ok _ _ _ _ _ (setattr_run_ok l name (VRef (length (heap st)))
    (set_heap (heap st ++ [[("__path__", VAtom (AStr (p +:+ "." +:+ name)))]])
       (touch (length (heap st)) st)) d
    ltac:(cbn [heap set_heap]; by rewrite lookup_app_l)
    ltac:(by rewrite pnames_set_heap, touch_pnames)
    ltac:(destruct Hc; done))).
  simpl. by rewrite touch_set_heap.
Qed.

(** [attr_of] after the store of [getattr_hook_run]. *)
Lemma attr_of_hook_store st l d name x new l' name' :
  heap st !! l = Some d ->
  attr_of (set_heap (<[l := assoc_set name x d]> (heap st ++ [new])) st) l' name' =
  if decide (l' = l) then (if decide (name' = name) then Some x else attr_of st l' name')
  else if decide (l' = length (heap st)) then assoc_get name' new
  else attr_of st l' name'.
Proof.
  intros Hd. assert (Hl : l < length (heap st)) by (eapply lookup_lt_Some; eauto).
  unfold attr_of; simpl. case_decide as E1; [subst l'|].
  - rewrite list_lookup_insert_eq by (rewrite length_app; simpl; lia). rewrite Hd. simpl.
    case_decide; [subst; apply assoc_get_set_eq | by apply assoc_get_set_ne].
  - rewrite list_lookup_insert_ne by done. case_decide as E2; [subst l'|].
    + by rewrite alloc_lookup_new.
    + rewrite lookup_app. destruct (heap st !! l') eqn:E; [done|]. simpl.
      apply lookup_ge_None_1 in E. by destruct (l' - length (heap st)) eqn:?; [lia|].
Qed.

(** C3: lazy materialization.  Looking up a child name that the node does
    not have creates an empty node whose path is the parent's path, a dot
    and the name, stores it under that name on the parent and returns it;
    nothing else of the heap changes and no protection changes. *)
Theorem getattr_creates_child l name st d p :
  heap st !! l = Some d -> assoc_get name d = None ->
  assoc_get "__path__" d = Some (VAtom (AStr p)) ->
  child_name name -> name ∉ pnames st l -> prot st !! length (heap st) = None ->
  exists st',
    getattr l name st = (st', inr (AVal (VRef (length (heap st))))) /\
    heap st' !! length (heap st) = Some [("__path__", VAtom (AStr (p +:+ "." +:+ name)))] /\
    attr_of st' l name = Some (VRef (length (heap st))) /\
    (forall l' name', l' <> l -> l' <> length (heap st) ->
       attr_of st' l' name' = attr_of st l' name') /\
    (forall name', name' <> name -> attr_of st' l name' = attr_of st l name') /\
    (forall l', pnames st' l' = pnames st l').
Proof.
  intros Hd Hnone Hp Hc Hn Hfree. pose proof Hc as (Hdd & Hca & _).
  assert (Hl : l < length (heap st)) by (eapply lookup_lt_Some; eauto).
  eexists. split.
  { unfold getattr. plain_lookup.
    unfold pbind at 1, load at 1. rewrite Hd, Hnone.
    apply (getattr_hook_run l name st d p); done. }
  split_and!.
  - simpl. rewrite list_lookup_insert_ne by lia. apply alloc_lookup_new.
  - rewrite <- (touch_attr_of l), <- (touch_attr_of (length (heap st))).
    rewrite <- touch_set_heap, <- touch_set_heap, !touch_attr_of.
    rewrite attr_of_hook_store by done. by rewrite !decide_True.
  - intros l' name' H1 H2. rewrite <- touch_set_heap, <- touch_set_heap, !touch_attr_of.
    rewrite attr_of_hook_store by done. by rewrite !decide_False.
  - intros name' Hne. rewrite <- touch_set_heap, <- touch_set_heap, !touch_attr_of.
    rewrite attr_of_hook_store by done. rewrite decide_True, decide_False by done. done.
  - intros l'. unfold pnames; simpl. fold (pnames (touch l (touch (length (heap st)) st)) l').
    by rewrite !touch_pnames.
Qed.

Lemma getattr_creates_child_witness :
  exists st', getattr 2 "host" sample_tree = (st', inr (AVal (VRef 5))) /\
    heap st' !! 5 = Some [("__path__", VAtom (AStr ("root.common.engine" +:+ "." +:+ "host")))] /\
    attr_of st' 2 "host" = Some (VRef 5) /\
    (forall l' name', l' <> 2 -> l' <> 5 -> attr_of st' l' name' = attr_of sample_tree l' name') /\
    (forall name', name' <> "host" -> attr_of st' 2 name' = attr_of sample_tree 2 name') /\
    (forall l', pnames st' l' = pnames sample_tree l').
Proof.
  eapply (getattr_creates_child 2 "host" sample_tree _ "root.common.engine");
    first [reflexivity | vm_decide].
Defined.

(** A [setattr] that returns has stored the value. *)
Lemma setattr_ok_attr l name v st st' :
  setattr l name v st = (st', inr tt) -> attr_of st' l name = Some v.
Proof.
  unfold setattr. intros H. inv_bind H. rewrite protected_of_run in Hrun.
  injection Hrun as <- <-. case_decide.
  - unfold path_of, pbind, load in H.
    destruct (heap (touch l st) !! l) as [d|]; [|discriminate].
    by repeat case_match.
  - unfold object_setattr in H. repeat case_decide; try discriminate.
    unfold pbind, load in H. destruct (heap (touch l st) !! l) as [d|] eqn:Hd; [|discriminate].
    unfold store, pmodify in H. injection H as <-. unfold attr_of; simpl.
    rewrite list_lookup_insert_eq by (eapply lookup_lt_Some; eauto). simpl.
    apply assoc_get_set_eq.
Qed.

Lemma attr_of_store st s l d name v l' name' :
  heap st !! l = Some d -> heap s = heap st ->
  attr_of (set_heap (<[l := assoc_set name v d]> (heap st)) s) l' name' =
  if decide (l' = l /\ name' = name) then Some v else attr_of st l' name'.
Proof.
  intros Hd _. unfold attr_of; simpl.
  destruct (decide (l' = l)) as [->|Hne].
  - rewrite list_lookup_insert_eq by (eapply lookup_lt_Some; eauto). rewrite Hd. simpl.
    case_decide as Hc; [destruct Hc as [_ ->]; apply assoc_get_set_eq|].
    apply assoc_get_set_ne. intros ->. auto.
  - rewrite list_lookup_insert_ne by done. rewrite decide_False by tauto. done.
Qed.

Lemma getattr_class_attr l name st d :
  heap st !! l = Some d -> assoc_get name d = None -> name ∈ class_attrs ->
  name ∉ data_descriptors -> getattr l name st = (st, inr (ABound (VRef l) name)).
Proof.
  intros Hd Hn Hc Hdd. unfold getattr.
  plain_lookup.
  unfold pbind, load. rewrite Hd, Hn, decide_True by done. reflexivity.
Qed.

(** A name missing from the instance dict and the class goes to the
    hook. *)
Lemma getattr_missing l name st d :
  heap st !! l = Some d -> assoc_get name d = None -> child_name name ->
  getattr l name st = getattr_hook l name st.
Proof.
  intros Hd Hn (Hdd & Hca & _). unfold getattr.
  plain_lookup.
  unfold pbind, load. rewrite Hd. simpl. by rewrite Hn.
Qed.

(** C4: lazy creation is memoized.  When looking up [name] on a node
    returns a value, looking it up again in the resulting state returns
    the same value (the same node, for a created child) and changes
    nothing. *)
Theorem getattr_idempotent l name v st st' :
  name ∉ data_descriptors ->
  getattr l name st = (st', inr (AVal v)) ->
  getattr l name st' = (st', inr (AVal v)).
Proof.
  intros Hdd H. apply getattr_found; [|done]. revert H. unfold getattr.
  plain_lookup.
  intros H. inv_bind H. unfold load in Hrun.
  destruct (heap st !! l) as [d|] eqn:Hd; inversion Hrun; subst.
  destruct (assoc_get name a) as [v0|] eqn:Hv.
  - injection H as <- <-. unfold attr_of. by rewrite Hd.
  - case_decide; [discriminate|]. unfold getattr_hook in H.
    repeat case_decide; try discriminate; [by inv_bind H|].
    inv_bind H. inv_bind H. inv_bind H. injection H as <- <-.
    match goal with Hs : setattr _ _ _ _ = (_, inr ?u) |- _ =>
      destruct u; by apply setattr_ok_attr in Hs end.
Qed.

Lemma getattr_idempotent_witness :
  getattr 2 "host" (fst (getattr 2 "host" sample_tree)) =
    (fst (getattr 2 "host" sample_tree), inr (AVal (VRef 5))).
Proof. apply (getattr_idempotent 2 "host" _ sample_tree); [vm_decide | vm_compute; reflexivity]. Defined.

(** C2: assignment honours [protect].  Assigning a protected name raises
    [AttributeError] with the message of line 113 and leaves every
    [__dict__] as it was; assigning a name that is not protected stores
    the value. *)
Theorem setattr_protection l name other v st d p :
  heap st !! l = Some d -> assoc_get "__path__" d = Some (VAtom (AStr p)) ->
  name ∈ pnames st l -> other ∉ pnames st l -> other ∉ data_descriptors ->
  (exists st', setattr l name v st = (st', inl (AttributeError (protected_msg p name))) /\
               heap st' = heap st) /\
  (exists st', setattr l other v st = (st', inr tt) /\ attr_of st' l other = Some v).
Proof.
  intros Hd Hp Hin Hout Hdd. split.
  - eexists. split; [by eapply setattr_run_protected|]. apply touch_heap.
  - eexists. split; [by eapply setattr_run_ok|].
    eapply setattr_ok_attr. by eapply setattr_run_ok.
Qed.

Lemma setattr_protection_witness :
  (exists st', setattr 2 "port" (VAtom (AInt 9)) sample_tree =
                 (st', inl (AttributeError (protected_msg "root.common.engine" "port"))) /\
               heap st' = heap sample_tree) /\
  (exists st', setattr 2 "host" (VAtom (AInt 9)) sample_tree = (st', inr tt) /\
               attr_of st' 2 "host" = Some (VAtom (AInt 9))).
Proof.
  eapply (setattr_protection 2 "port" "host" _ sample_tree _ "root.common.engine");
    first [reflexivity | vm_decide].
Defined.

(** [setattr] changes [__protected__] only by the [defaultdict] access. *)
Lemma path_of_state l st : exists r, path_of l st = (st, r).
Proof.
  unfold path_of, pbind, load. destruct (heap st !! l) as [d|]; [|eauto].
  destruct (assoc_get "__path__" d) as [[[]| |]|]; eauto.
Qed.

Lemma setattr_prot l name v st st' r :
  setattr l name v st = (st', r) -> prot st' = prot (touch l st).
Proof.
  unfold setattr. rewrite (run_bind_ok _ _ _ _ _ (protected_of_run l st)).
  case_decide.
  - destruct (path_of_state l (touch l st)) as [[e|q] Hr]; unfold pbind; rewrite Hr;
      intros Heq; inversion Heq; reflexivity.
  - unfold object_setattr. repeat case_decide; try (intros Heq; inversion Heq; reflexivity).
    unfold pbind, load. destruct (heap (touch l st) !! l);
      intros Heq; inversion Heq; reflexivity.
Qed.

(** C14: the registry pins every node.  The [defaultdict] access in
    [__setattr__] runs during [__init__], so every [Config] created is a
    key of [__protected__] from then on, whatever operations follow: the
    registry holds a strong reference to it and the cleanup in [__del__]
    (lines 66-68) can never run. *)
Theorem init_pins_node path st st1 l :
  init path st = (st1, inr l) ->
  forall st2, guarded st1 st2 -> l ∈ dom (prot st2).
Proof.
  intros H st2 (_ & Hdom & _). apply Hdom. unfold init in H.
  inv_bind H. unfold alloc in Hrun. injection Hrun as <- <-.
  inv_bind H. injection H as <- <-.
  match goal with Hs : setattr _ _ _ _ = _ |- _ => apply setattr_prot in Hs; rewrite Hs end.
  apply touch_dom.
Qed.

(** The deleting branch of [__del__] is dead code: on an object nothing
    refers to, so one CPython may finalise, [self in __protected__] is
    false (a key of the registry is itself a reference), and [__del__]
    changes nothing. *)
Lemma config_del_unreferenced l st :
  ~ referenced st l -> config_del l st = (st, inr tt).
Proof. intros Hr. unfold config_del, pmodify. rewrite decide_False; [done|]. intros ?. apply Hr. by left. Qed.

Lemma init_pins_node_witness :
  5 ∈ dom (prot (fst (setattr 5 "port" (VAtom (AInt 1)) (fst (init "root.scratch" sample_tree))))).
Proof.
  apply (init_pins_node "root.scratch" sample_tree (fst (init "root.scratch" sample_tree)));
    [vm_compute; reflexivity|].
  apply setattr_respects.
Defined.

(** C15: a name protected before it is set can never be read.  The lookup
    of a missing child calls the hook, which allocates a node and then
    assigns it through [__setattr__]; the assignment is refused, so the
    lookup raises [AttributeError] and leaves an orphan node behind
    (config.py protects ["pickles_compression"], which the defaults do not
    set, at line 320). *)
Theorem getattr_protected_missing l name st d p :
  heap st !! l = Some d -> assoc_get name d = None ->
  assoc_get "__path__" d = Some (VAtom (AStr p)) ->
  child_name name -> name ∈ pnames st l -> prot st !! length (heap st) = None ->
  exists st',
    getattr l name st = (st', inl (AttributeError (protected_msg p name))) /\
    heap st' = heap st ++ [[("__path__", VAtom (AStr (p +:+ "." +:+ name)))]].
Proof.
  intros Hd Hnone Hp Hc Hin Hfree. pose proof Hc as (Hdd & Hca & _).
  pose proof (child_name_not_special name Hc) as [H1 H2].
  assert (Hl : l < length (heap st)) by (eapply lookup_lt_Some; eauto).
  eexists. split.
  - unfold getattr. plain_lookup.
    unfold pbind at 1, load at 1. rewrite Hd, Hnone. unfold getattr_hook.
    rewrite !decide_False by done.
    rewrite (run_bind_ok _ _ _ _ _ (path_of_run l st d p Hd Hp)).
    rewrite (run_bind_ok _ _ _ _ _ (init_run _ st Hfree)).
    rewrite (run_bind_err _ _ _ _ _ (setattr_run_protected l name _
      (set_heap (heap st ++ [[("__path__", VAtom (AStr (p +:+ "." +:+ name)))]])
         (touch (length (heap st)) st)) d p
      ltac:(cbn [heap set_heap]; by rewrite lookup_app_l) Hp
      ltac:(by rewrite pnames_set_heap, touch_pnames))).
    reflexivity.
  - rewrite touch_heap. reflexivity.
Qed.

Lemma getattr_protected_missing_witness :
  exists st',
    getattr 1 "pickles_compression" sample_tree =
      (st', inl (AttributeError (protected_msg "root.common" "pickles_compression"))) /\
    heap st' = heap sample_tree ++
      [[("__path__", VAtom (AStr ("root.common" +:+ "." +:+ "pickles_compression")))]].
Proof.
  eapply (getattr_protected_missing 1 "pickles_compression" sample_tree _ "root.common");
    first [reflexivity | vm_decide].
Defined.

Lemma touch_present l st ps : prot st !! l = Some ps -> touch l st = st.
Proof. unfold touch. by intros ->. Qed.

Lemma protect_run l names st :
  protect l names st =
    (set_prot (<[l := pnames st l ∪ list_to_set names]> (prot (touch l st))) (touch l st), inr tt).
Proof. unfold protect. rewrite (run_bind_ok _ _ _ _ _ (protected_of_run l st)). reflexivity. Qed.

(** [protect] is idempotent.  Protecting the same names on the same
    node a second time changes nothing. *)
Theorem protect_idempotent l names st :
  protect l names (fst (protect l names st)) = (fst (protect l names st), inr tt).
Proof.
  rewrite !protect_run. f_equal. cbn [fst].
  set (ps := pnames st l ∪ list_to_set names).
  assert (Hp : pnames (set_prot (<[l:=ps]> (prot (touch l st))) (touch l st)) l = ps).
  { unfold pnames. simpl. by rewrite lookup_insert_eq. }
  rewrite (touch_present l (set_prot (<[l:=ps]> (prot (touch l st))) (touch l st)) ps)
    by (simpl; apply lookup_insert_eq).
  rewrite Hp.
  replace (ps ∪ list_to_set names) with ps by (unfold ps; set_solver).
  destruct (touch l st). unfold set_prot. simpl. by rewrite insert_insert_eq.
Qed.

#[export] Hint Resolve load_respects protected_of_respects alloc_respects
  path_of_respects content_respects setattr_respects init_respects
  getattr_respects getattr_attr_respects protect_respects
  fix_contents_respects : py.

Lemma frame_prefix K st st' :
  length (heap st) <= length (heap st') ->
  (forall l, l < length (heap st) -> heap st' !! l = heap st !! l) -> frame K st st'.
Proof. intros Hl Hh. split; [done|]. intros l name Hlt _. unfold attr_of. by rewrite Hh. Qed.

Lemma setattr_heap_other l name v st st' r :
  setattr l name v st = (st', r) ->
  length (heap st') = length (heap st) /\
  forall l', l' <> l -> heap st' !! l' = heap st !! l'.
Proof.
  unfold setattr. rewrite (run_bind_ok _ _ _ _ _ (protected_of_run l st)). case_decide.
  - destruct (path_of_state l (touch l st)) as [[e|q] Hr]; unfold pbind; rewrite Hr;
      intros Heq; inversion Heq; subst; by rewrite touch_heap.
  - unfold object_setattr. repeat case_decide;
      try (intros Heq; inversion Heq; subst; by rewrite touch_heap).
    unfold pbind, load. destruct (heap (touch l st) !! l);
      intros Heq; inversion Heq; subst; simpl; rewrite ?touch_heap; [|done].
    split; [apply length_insert|]. intros l' Hne. by rewrite list_lookup_insert_ne.
Qed.

Section Frame.
Context (K : list string).

Lemma frame_same_heap_respects {A} (m : M A) :
  (forall st, heap (fst (m st)) = heap st) -> respects (frame K) m.
Proof. intros H st. apply frame_prefix; rewrite H; [lia|done]. Qed.

Lemma load_frame l : respects (frame K) (load l).
Proof. apply frame_same_heap_respects. intros st. unfold load. by case_match. Qed.

Lemma protected_of_frame l : respects (frame K) (protected_of l).
Proof.
  apply frame_same_heap_respects. intros st. rewrite protected_of_run. apply touch_heap.
Qed.

#[local] Hint Resolve load_frame protected_of_frame : py.

Lemma path_of_frame l : respects (frame K) (path_of l).
Proof. unfold path_of. solve_respects. Qed.

Lemma content_frame l : respects (frame K) (content l).
Proof. unfold content. solve_respects. Qed.

Lemma setattr_frame l name v : name ∈ K -> respects (frame K) (setattr l name v).
Proof.
  intros HK st. destruct (setattr l name v st) as [st' r] eqn:E. simpl.
  pose proof (setattr_heap_other _ _ _ _ _ _ E) as [Hlen Hoth].
  split; [lia|]. intros l' name' Hl' Hn. unfold attr_of.
  destruct (decide (l' = l)) as [->|Hne]; [|by rewrite Hoth].
  revert E. unfold setattr. rewrite (run_bind_ok _ _ _ _ _ (protected_of_run l st)).
  case_decide.
  - destruct (path_of_state l (touch l st)) as [[e|q] Hr]; unfold pbind; rewrite Hr;
      intros Heq; inversion Heq; subst; by rewrite touch_heap.
  - unfold object_setattr. repeat case_decide;
      try (intros Heq; inversion Heq; subst; by rewrite touch_heap).
    unfold pbind, load. rewrite touch_heap.
    destruct (heap st !! l) eqn:Hd; intros Heq;
      [unfold store, pmodify in Heq|]; inversion Heq; subst; cbn [heap set_heap];
      rewrite ?touch_heap; [|by rewrite Hd].
    rewrite list_lookup_insert_eq by (eapply lookup_lt_Some; eauto). simpl.
    apply assoc_get_set_ne. intros ->. contradiction.
Qed.

Lemma init_frame path : respects (frame K) (init path).
Proof.
  intros st. unfold init, pbind, alloc. cbn beta iota.
  destruct (setattr (length (heap st)) "__path__" (VAtom (AStr path))
              (set_heap (heap st ++ [[]]) st)) as [st' r] eqn:E.
  apply setattr_heap_other in E as [Hlen Hoth]. simpl in Hlen.
  assert (Hst : frame K st st').
  { apply frame_prefix.
    - rewrite Hlen, length_app. lia.
    - intros l Hl. rewrite Hoth by lia. simpl. by apply lookup_app_l. }
  destruct r; exact Hst.
Qed.

#[local] Hint Resolve path_of_frame content_frame init_frame : py.

Lemma getattr_frame l name :
  name ∈ K \/ name ∈ class_attrs -> respects (frame K) (getattr l name).
Proof.
  intros HK. unfold getattr. solve_respects. unfold getattr_hook. solve_respects.
  apply setattr_frame. destruct HK; [done|contradiction].
Qed.
End Frame.

#[export] Hint Resolve load_frame protected_of_frame path_of_frame content_frame
  init_frame : py.

End Config.
