(* ===== verification/Merge.v ===== *)
(** * The merge engine: [Config.__update__] and [Config.update]
    (config.py lines 70-77 and 92-99)

    [update_item l k v] is one iteration of the loop of [__update__]: a
    dict without a true ["dict"] entry is merged recursively into the
    child [getattr(self, k)], anything else (a leaf, an opaque dict with
    its marker removed, a [Config]) is assigned with [setattr].
    [update_ l tree] is the loop, [update l value] the public method with
    its two guards.  The theorems: the protection guarantee holds for
    every merge, also one that raises halfway; a merge only writes the
    names that occur in its source; the root refuses every update; leaf
    replacement and deep merge on the cases of the spec. *)

From stdpp Require Import base list strings gmap.
From S2P Require Import Prelude PyModel ConfigNode.

Set Warnings "-register-all -clear-no-such-hyp".

Module Merge.
Import Config.

(** The test of line 94: [not v.get("dict", False)]. *)
Definition recurse_into (kvs : dict) : bool :=
  negb (truthy (dict_get "dict" kvs (VAtom (ABool false)))).

(** Lines 97-98: the marker is removed before the dict is stored. *)
Definition strip_marker (kvs : dict) : dict :=
  if dict_contains "dict" kvs then assoc_del "dict" kvs else kvs.

(** One iteration of the loop of [__update__] (lines 94-99).
    [getattr(self, k).__update__(v)] looks up the child, then its
    [__update__] attribute, then calls it; a child that is not a
    [Config] has no such attribute. *)
Fixpoint update_item (l : loc) (k : string) (v : val) {struct v} : M unit :=
  match v with
  | VDict kvs =>
      if recurse_into kvs then
        a <- getattr l k ;;
        m <- getattr_attr a "__update__" ;;
        match m with
        | ABound (VRef l') _ => iter_items (update_item l') kvs
        | _ => praise (TypeError "object is not callable")
        end
      else setattr l k (VDict (strip_marker kvs))
  | _ => setattr l k v
  end.

(** [Config.__update__] (lines 92-99). *)
Definition update_ (l : loc) (tree : dict) : M unit :=
  iter_items (update_item l) tree.

(** [Config.update] (lines 70-77).  [self == root] compares identities;
    with [root = None] it is false.  Line 75 calls [self.__update__]
    through attribute lookup; the model calls [update_] directly, which
    differs only on a node holding an instance attribute [__update__]
    (Python would call that value instead). *)
Definition update (l : loc) (value : val) : M loc :=
  st <- pget ;;
  if decide (root st = Some l) then praise (ValueError "Root updates are disabled")
  else match value with
       | VDict tree => update_ l tree ;; pret l
       | VRef l' => c <- content l' ;; update_ l c ;; pret l
       | _ => praise (ValueError "Value must be an instance of dict or Config")
       end.

(** Every key of a merge source, at any depth. *)
Fixpoint keys_in (v : val) : list string :=
  match v with
  | VDict kvs => flat_map (fun kv => kv.1 :: keys_in kv.2) kvs
  | _ => []
  end.

(** A sample state: node 4 of [sample_tree] holds an opaque dict under
    ["opts"], stored by merging a marked dict. *)
Definition sample_opaque : state :=
  fst (update 4 (VDict [("opts", VDict [("dict", VAtom (ABool true)); ("a", VAtom (AInt 1))])])
         sample_tree).

(** ** The protection guarantee for merges *)

(** A merge respects every preorder that assignment and lookup respect. *)
Lemma update_item_respects (R : state -> state -> Prop) `{!PreOrder R} :
  (forall l name v, respects R (setattr l name v)) ->
  (forall l name, respects R (getattr l name)) ->
  (forall a name, respects R (getattr_attr a name)) ->
  forall l k v, respects R (update_item l k v).
Proof.
  intros Hs Hg Ha l k v. revert l k. induction v as [a|kvs IH|r] using val_ind'; intros l k; simpl;
    try apply Hs.
  destruct (recurse_into kvs); [|apply Hs].
  apply respects_bind; [apply _|apply Hg|intros a].
  apply respects_bind; [apply _|apply Ha|intros m].
  destruct m as [|[| |l'] ?]; try apply respects_raise; try apply _.
  apply respects_iter_items_Forall; [apply _|].
  eapply Forall_impl; [exact IH|]. intros [k' v'] Hkv; apply Hkv.
Qed.

Lemma update_item_respects_guard l k v : respects guarded (update_item l k v).
Proof.
  apply update_item_respects; [apply _|apply setattr_respects|apply getattr_respects|].
  apply getattr_attr_respects.
Qed.

#[export] Hint Resolve update_item_respects_guard : py.

Lemma update__respects_guard l tree : respects guarded (update_ l tree).
Proof. unfold update_. solve_respects. Qed.

#[export] Hint Resolve update__respects_guard : py.

Lemma update_respects_guard l value : respects guarded (update l value).
Proof. unfold update. solve_respects. Qed.

#[export] Hint Resolve update_respects_guard : py.

(** C1: no merge changes a protected setting.  Whatever the target and
    the source, and whether [update] returns or raises partway through
    (leaving a partially merged tree), every name protected before the
    call keeps its value and its protection, protections only grow and
    no node disappears. *)
Theorem update_respects_protection l value st :
  guarded st (fst (update l value st)).
Proof. apply update_respects_guard. Qed.

(** ** The write frame of a merge *)

Lemma keys_in_dict_entry kvs k v x :
  (k, v) ∈ kvs -> x ∈ k :: keys_in v -> x ∈ keys_in (VDict kvs).
Proof.
  intros Hin Hx. simpl. apply list_elem_of_In, in_flat_map.
  exists (k, v). split; by apply list_elem_of_In.
Qed.

Lemma update_item_frame K l k v :
  k ∈ K -> (forall x, x ∈ keys_in v -> x ∈ K) ->
  respects (frame K) (update_item l k v).
Proof.
  revert l k. induction v as [a|kvs IH|r] using val_ind'; intros l k Hk Hkeys; simpl;
    try by apply setattr_frame.
  destruct (recurse_into kvs); [|by apply setattr_frame].
  apply respects_bind; [apply _|by apply getattr_frame; left|intros a].
  apply respects_bind; [apply _| |intros m].
  { destruct a as [[| |l'']|]; try apply respects_raise; try apply _.
    apply getattr_frame. right. unfold class_attrs. set_solver. }
  destruct m as [|[| |l'] ?]; try apply respects_raise; try apply _.
  apply respects_iter_items_Forall; [apply _|].
  apply Forall_forall. intros [k' v'] Hin.
  rewrite Forall_forall in IH. apply (IH (k', v') Hin); intros; apply Hkeys;
    eapply keys_in_dict_entry; eauto; set_solver.
Qed.

(** C8: a merge writes only the names of its source.  On every node that
    existed before [update l (VDict tree)], a name that occurs nowhere in
    [tree] (at any depth) keeps its value, whether the merge returns or
    raises partway: existing grandchildren not mentioned by the source
    survive a deep merge, also through aliased nodes. *)
Theorem update_frame l tree st :
  forall l' name, l' < length (heap st) -> name ∉ keys_in (VDict tree) ->
  attr_of (fst (update l (VDict tree) st)) l' name = attr_of st l' name.
Proof.
  intros l' name Hl Hn.
  assert (H : respects (frame (keys_in (VDict tree))) (update l (VDict tree))).
  { unfold update, update_. apply respects_bind; try apply _.
    { apply respects_get; apply _. }
    intros st0. destruct (decide (root st0 = Some l)); [apply respects_raise; apply _|].
    apply respects_bind; try apply _; [|intros; apply respects_ret; apply _].
    apply respects_iter_items_Forall; [apply _|]. apply Forall_forall.
    intros [k v] Hin. apply update_item_frame; intros;
      eapply keys_in_dict_entry; eauto; set_solver. }
  by apply (H st).
Qed.

Lemma update_frame_witness :
  attr_of (fst (update 2 (VDict [("host", VAtom (AStr "h"))]) sample_tree)) 1 "engine" =
  attr_of sample_tree 1 "engine".
Proof. apply update_frame; [vm_compute; lia | vm_decide]. Defined.

(** ** Guards and functional behaviour of [update] *)

Lemma update_run_dict l tree st :
  root st <> Some l -> update l (VDict tree) st = (update_ l tree ;; pret l) st.
Proof. intros Hr. unfold update, pbind at 1, pget. by rewrite decide_False. Qed.

(** C9: the two refusals of [update].  On the node that is the module's
    [root], [update] raises [ValueError("Root updates are disabled")]
    whatever the value; on any other node, a value that is neither a dict
    nor a [Config] is refused with [ValueError].  In both cases nothing
    is written, not even an entry of [__protected__]. *)
Theorem update_rejections l value st :
  (root st = Some l ->
   update l value st = (st, inl (ValueError "Root updates are disabled"))) /\
  (root st <> Some l -> forall a, value = VAtom a ->
   update l value st = (st, inl (ValueError "Value must be an instance of dict or Config"))).
Proof.
  unfold update, pbind, pget. split.
  - intros Hr. by rewrite decide_True.
  - intros Hr a ->. by rewrite decide_False.
Qed.

Lemma update_rejections_witness :
  update 0 (VDict []) sample_tree = (sample_tree, inl (ValueError "Root updates are disabled")) /\
  update 1 (VAtom (AInt 3)) sample_tree =
    (sample_tree, inl (ValueError "Value must be an instance of dict or Config")).
Proof.
  split; [apply (proj1 (update_rejections 0 (VDict []) sample_tree)); reflexivity|].
  apply (proj2 (update_rejections 1 (VAtom (AInt 3)) sample_tree) ltac:(discriminate) (AInt 3)).
  reflexivity.
Defined.

(** C6: a leaf replaces whatever was there.  Merging [{k: v}] with [v]
    a leaf or a [Config] into a node that is not the root, where [k] is
    not protected, returns and leaves [k] bound to [v], even when [k]
    held a whole sub-tree before. *)
Theorem update_leaf_replaces l k v st d :
  root st <> Some l -> heap st !! l = Some d ->
  k ∉ pnames st l -> k ∉ data_descriptors ->
  (forall kvs, v <> VDict kvs) ->
  exists st', update l (VDict [(k, v)]) st = (st', inr l) /\ attr_of st' l k = Some v.
Proof.
  intros Hr Hd Hk Hdd Hv. rewrite update_run_dict by done. unfold update_. cbn [iter_items]. rewrite bind_assoc.
  assert (Hs : update_item l k v = setattr l k v) by (destruct v; [done|by edestruct Hv|done]).
  rewrite Hs, (run_bind_ok _ _ _ _ _ (setattr_run_ok l k v st d Hd Hk Hdd)).
  eexists. split; [reflexivity|]. rewrite attr_of_store by (done || apply touch_heap).
  by rewrite decide_True.
Qed.

Lemma update_leaf_replaces_witness :
  exists st', update 2 (VDict [("host", VAtom (AInt 1))]) sample_tree = (st', inr 2) /\
    attr_of st' 2 "host" = Some (VAtom (AInt 1)).
Proof.
  eapply update_leaf_replaces;
    first [discriminate | reflexivity | vm_decide | intros kvs; discriminate].
Defined.

Lemma update_item_recurse l k kvs :
  recurse_into kvs = true ->
  update_item l k (VDict kvs) =
    (a <- getattr l k ;;
     m <- getattr_attr a "__update__" ;;
     match m with
     | ABound (VRef l') _ => iter_items (update_item l') kvs
     | _ => praise (TypeError "object is not callable")
     end).
Proof. intros H. simpl. by rewrite H. Qed.

Lemma update_item_opaque l k kvs :
  recurse_into kvs = false ->
  update_item l k (VDict kvs) = setattr l k (VDict (strip_marker kvs)).
Proof. intros H. simpl. by rewrite H. Qed.

Lemma recurse_into_plain y w : y <> "dict" -> recurse_into [(y, w)] = true.
Proof. intros Hy. unfold recurse_into, dict_get. simpl. by rewrite decide_False. Qed.

(** Merging [{k: {y: w}}] when [l.k] is a node [c]: one assignment on
    [c]. *)
Lemma update_nested_leaf l k c y w x st dc :
  root st <> Some l -> k ∉ data_descriptors ->
  attr_of st l k = Some (VRef c) -> heap st !! c = Some dc ->
  assoc_get "__update__" dc = None ->
  y ∉ pnames st c -> y ∉ data_descriptors -> recurse_into [(y, VAtom w)] = true ->
  y <> k -> x <> y ->
  exists st',
    update l (VDict [(k, VDict [(y, VAtom w)])]) st = (st', inr l) /\
    attr_of st' c y = Some (VAtom w) /\
    attr_of st' c x = attr_of st c x /\
    attr_of st' l k = Some (VRef c).
Proof.
  intros Hr Hkd Hk Hc Hu Hyp Hyd Hy Hyk Hxy.
  rewrite update_run_dict by done. unfold update_. cbn [iter_items].
  rewrite update_item_recurse by done.
  run_step (getattr_found l k _ st Hk Hkd). cbn [getattr_attr].
  run_step (getattr_class_attr c "__update__" st dc Hc Hu
    ltac:(unfold class_attrs; set_solver) ltac:(unfold data_descriptors; set_solver)).
  cbn [iter_items update_item].
  run_step (setattr_run_ok c y (VAtom w) st dc Hc Hyp Hyd).
  eexists. split; [reflexivity|].
  rewrite !attr_of_store by (done || apply touch_heap).
  split_and!; [by rewrite decide_True | by rewrite decide_False by tauto |].
  rewrite decide_False by (intros [_ ?]; congruence). done.
Qed.

(** C5: deep merge into an existing child.  When [l.k] is already a
    node [c] (without an instance attribute [__update__]), merging
    [{k: {y: w}}] into [l] reuses [c]: afterwards [c.y = w], any other
    name [x] of [c] keeps its value, and [l.k] is still [c].  Merging
    [{a: {x: 1}}] then [{a: {y: 2}}] leaves both [x] and [y] under [a]. *)
Theorem update_deep_merge l k c y w x st dc :
  root st <> Some l -> k ∉ data_descriptors ->
  attr_of st l k = Some (VRef c) -> heap st !! c = Some dc ->
  assoc_get "__update__" dc = None ->
  y ∉ pnames st c -> y ∉ data_descriptors -> y <> "dict" -> y <> k -> x <> y ->
  exists st',
    update l (VDict [(k, VDict [(y, VAtom w)])]) st = (st', inr l) /\
    attr_of st' c y = Some (VAtom w) /\
    attr_of st' c x = attr_of st c x /\
    attr_of st' l k = Some (VRef c).
Proof.
  intros Hr Hkd Hk Hc Hu Hyp Hyd Hy Hyk Hxy.
  eapply update_nested_leaf; eauto using recurse_into_plain.
Qed.

Lemma update_deep_merge_witness :
  exists st',
    update 1 (VDict [("engine", VDict [("host", VAtom (AStr "h"))])]) sample_tree = (st', inr 1) /\
    attr_of st' 2 "host" = Some (VAtom (AStr "h")) /\
    attr_of st' 2 "port" = attr_of sample_tree 2 "port" /\
    attr_of st' 1 "engine" = Some (VRef 2).
Proof. eapply update_deep_merge; first [discriminate | reflexivity | vm_decide]. Defined.

(** C7: an opaque dict is stored as a leaf without its marker.  A dict
    whose ["dict"] entry is true is not merged: it replaces the value at
    its key, with the marker removed (lines 97-99). *)
Theorem update_opaque_dict l k kvs st d :
  root st <> Some l -> heap st !! l = Some d ->
  k ∉ pnames st l -> k ∉ data_descriptors ->
  truthy (dict_get "dict" kvs (VAtom (ABool false))) = true ->
  exists st',
    update l (VDict [(k, VDict kvs)]) st = (st', inr l) /\
    attr_of st' l k = Some (VDict (assoc_del "dict" kvs)).
Proof.
  intros Hr Hd Hk Hdd Hm. rewrite update_run_dict by done. unfold update_. cbn [iter_items].
  rewrite update_item_opaque by (unfold recurse_into; by rewrite Hm).
  run_step (setattr_run_ok l k (VDict (strip_marker kvs)) st d Hd Hk Hdd).
  eexists. split; [reflexivity|]. rewrite attr_of_store by (done || apply touch_heap).
  rewrite decide_True by done. unfold strip_marker, dict_contains, assoc_mem.
  rewrite bool_decide_true; [done|]. unfold dict_get in Hm.
  destruct (assoc_get "dict" kvs); [done|discriminate].
Qed.

Lemma update_opaque_dict_witness :
  exists st',
    update 1 (VDict [("opts", VDict [("dict", VAtom (ABool true)); ("a", VAtom (AInt 1))])])
      sample_tree = (st', inr 1) /\
    attr_of st' 1 "opts" = Some (VDict (assoc_del "dict" [("dict", VAtom (ABool true)); ("a", VAtom (AInt 1))])).
Proof. eapply update_opaque_dict; first [discriminate | reflexivity | vm_decide]. Defined.

(** ** Sources the merge does not expect *)

(** C21: a false marker is merged as a child.  The marker test is
    [v.get("dict", False)]: a dict whose ["dict"] entry is false (or any
    falsy value) is recursed into like a plain dict, and the marker
    itself becomes a child named ["dict"] of the target node. *)
Theorem update_false_marker l k c w st dc :
  root st <> Some l -> k ∉ data_descriptors ->
  attr_of st l k = Some (VRef c) -> heap st !! c = Some dc ->
  assoc_get "__update__" dc = None -> "dict" ∉ pnames st c ->
  truthy (VAtom w) = false -> k <> "dict" ->
  exists st',
    update l (VDict [(k, VDict [("dict", VAtom w)])]) st = (st', inr l) /\
    attr_of st' c "dict" = Some (VAtom w).
Proof.
  intros Hr Hkd Hk Hc Hu Hp Hw Hkn.
  destruct (update_nested_leaf l k c "dict" w "__path__" st dc) as (st' & H1 & H2 & _);
    try done.
  - unfold data_descriptors. set_solver.
  - unfold recurse_into, dict_get. change [("dict", VAtom w)] with (assoc_set "dict" (VAtom w) []).
    rewrite assoc_get_set_eq. by rewrite Hw.
  - eauto.
Qed.

Lemma update_false_marker_witness :
  exists st',
    update 1 (VDict [("engine", VDict [("dict", VAtom (ABool false))])]) sample_tree = (st', inr 1) /\
    attr_of st' 2 "dict" = Some (VAtom (ABool false)).
Proof. eapply update_false_marker; first [discriminate | reflexivity | vm_decide]. Defined.

(** C22: a dict cannot be merged over a leaf or a method.  When [l.k] is
    a leaf, or [k] is not set on [l] but names a method of the class
    ([update], [protect], [keys], ...), merging [{k: {...}}] looks up
    [__update__] on that object, which has none: [update] raises
    [AttributeError] and changes nothing. *)
Theorem update_dict_over_non_node l k kvs st d :
  root st <> Some l -> heap st !! l = Some d -> k ∉ data_descriptors ->
  recurse_into kvs = true ->
  (exists a, assoc_get k d = Some (VAtom a)) \/ (assoc_get k d = None /\ k ∈ class_attrs) ->
  update l (VDict [(k, VDict kvs)]) st = (st, inl (AttributeError "__update__")).
Proof.
  intros Hr Hd Hkd Hrec Hk. rewrite update_run_dict by done. unfold update_. cbn [iter_items].
  rewrite update_item_recurse by done.
  destruct Hk as [[a Ha]|[Hn Hc]].
  - run_step (getattr_found l k _ st ltac:(unfold attr_of; by rewrite Hd) Hkd). reflexivity.
  - run_step (getattr_class_attr l k st d Hd Hn Hc Hkd). reflexivity.
Qed.

Lemma update_dict_over_non_node_witness :
  update 2 (VDict [("port", VDict [("x", VAtom (AInt 1))])]) sample_tree =
    (sample_tree, inl (AttributeError "__update__")) /\
  update 2 (VDict [("protect", VDict [("x", VAtom (AInt 1))])]) sample_tree =
    (sample_tree, inl (AttributeError "__update__")).
Proof.
  split; (eapply update_dict_over_non_node; [discriminate|reflexivity|vm_decide|reflexivity|]).
  - left. eexists. reflexivity.
  - right. split; [reflexivity|vm_decide].
Defined.

(** A leaf merged under a method's name shadows the method.  Merging
    [{m: v}] with [m] a method name of [Config] stores [v] in the
    instance dict, and every later lookup of [m] on that node finds [v]
    instead of the method. *)
Theorem update_method_key_shadows l m a st d :
  root st <> Some l -> heap st !! l = Some d -> m ∈ class_attrs ->
  m ∉ pnames st l -> m ∉ data_descriptors ->
  exists st',
    update l (VDict [(m, VAtom a)]) st = (st', inr l) /\
    getattr l m st' = (st', inr (AVal (VAtom a))).
Proof.
  intros Hr Hd Hm Hp Hdd. rewrite update_run_dict by done. unfold update_. cbn [iter_items update_item].
  run_step (setattr_run_ok l m (VAtom a) st d Hd Hp Hdd).
  eexists. split; [reflexivity|]. apply getattr_found; [|done].
  rewrite attr_of_store by (done || apply touch_heap). by rewrite decide_True.
Qed.

Lemma update_method_key_shadows_witness :
  exists st',
    update 2 (VDict [("protect", VAtom (AInt 1))]) sample_tree = (st', inr 2) /\
    getattr 2 "protect" st' = (st', inr (AVal (VAtom (AInt 1)))).
Proof. eapply update_method_key_shadows; first [discriminate | reflexivity | vm_decide]. Defined.

(** A [Config] source is merged as its [__content__] (line 76). *)
Lemma update_run_config l l' st d :
  root st <> Some l -> heap st !! l' = Some d ->
  update l (VRef l') st =
  update l (VDict (if dict_contains "__path__" d then assoc_del "__path__" d else d)) st.
Proof.
  intros Hr Hd. rewrite update_run_dict by done. unfold update, pbind at 1, pget.
  rewrite decide_False by done. run_step (content_run l' st d Hd). reflexivity.
Qed.

(** C24: copying a node loses the opacity of its dict leaves.  Let the
    source node [s] hold, besides its path, only the dict leaf [{y: w}]
    under [k], which is what merging [{k: {"dict": True, y: w}}] stores
    (C7).  [t.update(s)], on a node [t] without a child [k], does not
    copy that dict: [__content__] hands the leaf to the merge as a plain
    dict, so the lookup of [t.k] creates a new node, [w] is assigned to
    its child [y], and [t.k] is that node instead of the dict. *)
Theorem update_copy_reopens_opaque t s k y w q st dt p :
  root st <> Some t -> heap st !! t = Some dt -> assoc_get k dt = None ->
  assoc_get "__path__" dt = Some (VAtom (AStr p)) -> child_name k -> k <> "__path__" ->
  k ∉ pnames st t -> prot st !! length (heap st) = None ->
  heap st !! s = Some [("__path__", VAtom (AStr q)); (k, VDict [(y, VAtom w)])] ->
  y <> "dict" -> y ∉ data_descriptors ->
  exists st', update t (VRef s) st = (st', inr t) /\
    attr_of st' t k = Some (VRef (length (heap st))) /\
    attr_of st' (length (heap st)) y = Some (VAtom w).
Proof.
  intros Hr Ht Hk Hp Hc Hkp Hkt Hfree Hs Hy Hyd.
  rewrite (update_run_config t s st _ Hr Hs).
  unfold dict_contains, assoc_mem. simpl. rewrite decide_False by congruence.
  rewrite update_run_dict by done. unfold update_. cbn [iter_items].
  rewrite update_item_recurse by (by apply recurse_into_plain).
  pose proof (getattr_missing t k st dt Ht Hk Hc) as Hg.
  rewrite (getattr_hook_run t k st dt p Ht Hp Hc Hkt Hfree) in Hg.
  run_step Hg. cbn [getattr_attr].
  set (n := length (heap st)). set (st1 := set_heap _ _).
  assert (Htn : t < n) by (eapply lookup_lt_Some; eauto).
  assert (Hn : heap st1 !! n = Some [("__path__", VAtom (AStr (p +:+ "." +:+ k)))]).
  { unfold st1; simpl. rewrite list_lookup_insert_ne by lia. apply alloc_lookup_new. }
  run_step (getattr_class_attr n "__update__" st1 _ Hn eq_refl
    ltac:(unfold class_attrs; set_solver) ltac:(unfold data_descriptors; set_solver)).
  cbn [iter_items update_item].
  assert (Hpn : y ∉ pnames st1 n).
  { unfold st1. rewrite pnames_set_heap, !touch_pnames. unfold pnames.
    rewrite (Hfree : prot st !! n = None). set_solver. }
  run_step (setattr_run_ok n y (VAtom w) st1 _ Hn Hpn Hyd).
  eexists. split; [reflexivity|].
  rewrite !attr_of_store by (done || apply touch_heap).
  rewrite !decide_False by (intros [? _]; lia). rewrite decide_True by done.
  split; [|done]. unfold attr_of, st1; simpl.
  rewrite list_lookup_insert_eq by (rewrite length_app; simpl; lia).
  simpl. apply assoc_get_set_eq.
Qed.

(** [root.common.trace.update(root.common.unset)] after
    [root.common.unset.update({"opts": {"dict": True, "a": 1}})]:
    [trace.opts] becomes the new node 5 with child [a]. *)
Lemma update_copy_reopens_opaque_witness :
  exists st', update 3 (VRef 4) sample_opaque = (st', inr 3) /\
    attr_of st' 3 "opts" = Some (VRef 5) /\ attr_of st' 5 "a" = Some (VAtom (AInt 1)).
Proof.
  apply (update_copy_reopens_opaque 3 4 "opts" "a" (AInt 1) "root.common.unset" sample_opaque
           [("__path__", VAtom (AStr "root.common.trace"))] "root.common.trace");
    first [discriminate | reflexivity | vm_decide].
Defined.

End Merge.
