(* ===== verification/WellFormed.v ===== *)
(** * Well-formedness of the interpreter state

    A state is well formed when every reference stored in an instance
    dict, every key of [__protected__] and the module global [root] name
    an allocated object.  Every operation of [Config] and the merge keep
    the state well formed when their arguments only refer to allocated
    objects, also when they raise halfway.  In a well-formed state the
    next location is not a key of [__protected__], which is the
    freshness condition the lazy-creation theorems of [ConfigNode]
    assume. *)

From stdpp Require Import base list strings gmap.
From S2P Require Import Prelude PyModel ConfigNode Merge.

Set Warnings "-register-all -clear-no-such-hyp".

Module WellFormed.
Import Config Merge.

(** [val_below n v]: every location [v] refers to, at any depth, is
    below [n]. *)
Fixpoint val_below (n : nat) (v : val) : bool :=
  match v with
  | VAtom _ => true
  | VDict kvs =>
      (fix go (kvs : dict) : bool :=
         match kvs with
         | [] => true
         | (_, x) :: r => val_below n x && go r
         end) kvs
  | VRef l => bool_decide (l < n)
  end.

Definition dict_below (n : nat) (d : dict) : bool :=
  forallb (fun kv => val_below n kv.2) d.

Definition attr_below (n : nat) (a : attr) : bool :=
  match a with
  | AVal v => val_below n v
  | ABound v _ => val_below n v
  end.

Definition wf (st : state) : Prop :=
  Forall (fun d => dict_below (length (heap st)) d = true) (heap st) /\
  map_Forall (fun l _ => l < length (heap st)) (prot st) /\
  from_option (fun r => r < length (heap st)) True (root st).

#[export] Instance wf_dec st : Decision (wf st).
Proof. unfold wf. destruct (root st); simpl; apply _. Defined.

(** The precondition of the specifications below: the state is well
    formed and has at least [n] objects. *)
Definition ok (n : nat) (st : state) : Prop := wf st /\ n <= length (heap st).

(** ** Bounds on values *)

Lemma val_below_dict n kvs : val_below n (VDict kvs) = dict_below n kvs.
Proof. induction kvs as [|[k x] r IH]; simpl; [done|]. by rewrite <- IH. Qed.

Lemma val_below_mono n m v : n <= m -> val_below n v = true -> val_below m v = true.
Proof.
  intros Hnm. induction v as [a|kvs IH|l] using val_ind'; [done| |simpl].
  - rewrite !val_below_dict. unfold dict_below. rewrite !forallb_forall.
    intros H [k x] Hin. rewrite Forall_forall in IH.
    apply (IH (k, x)); [by apply list_elem_of_In|]. by apply (H (k, x)).
  - rewrite !bool_decide_eq_true. lia.
Qed.

Lemma dict_below_mono n m d : n <= m -> dict_below n d = true -> dict_below m d = true.
Proof. intros Hnm. rewrite <- !val_below_dict. by apply val_below_mono. Qed.

Lemma dict_below_assoc_get n d k v :
  dict_below n d = true -> assoc_get k d = Some v -> val_below n v = true.
Proof.
  induction d as [|[k' x] r IH]; simpl; [done|]. rewrite andb_true_iff.
  intros [Hx Hr]. case_decide; [by intros [= <-]|]. auto.
Qed.

Lemma dict_below_assoc_set n d k v :
  dict_below n d = true -> val_below n v = true -> dict_below n (assoc_set k v d) = true.
Proof.
  intros Hd Hv. induction d as [|[k' x] r IH]; simpl in *; [by rewrite Hv|].
  apply andb_true_iff in Hd as [Hx Hr]. case_decide; simpl.
  - by rewrite Hv, Hr.
  - rewrite Hx. auto.
Qed.

Lemma dict_below_assoc_del n d k :
  dict_below n d = true -> dict_below n (assoc_del k d) = true.
Proof.
  induction d as [|[k' x] r IH]; simpl; [done|]. rewrite andb_true_iff.
  intros [Hx Hr]. case_decide; simpl; [auto|]. rewrite Hx. auto.
Qed.

Lemma attr_below_mono n m a : n <= m -> attr_below n a = true -> attr_below m a = true.
Proof. destruct a; apply val_below_mono. Qed.

#[export] Hint Resolve val_below_mono dict_below_mono attr_below_mono
  dict_below_assoc_set dict_below_assoc_del : py.

(** ** Well-formed states *)

Lemma wf_lookup st l d :
  wf st -> heap st !! l = Some d -> dict_below (length (heap st)) d = true.
Proof. intros [Hh _] Hd. rewrite Forall_lookup in Hh. eauto. Qed.

(** The next location is not a key of [__protected__]. *)
Lemma wf_fresh st : wf st -> prot st !! length (heap st) = None.
Proof.
  intros (_ & Hp & _). destruct (prot st !! length (heap st)) eqn:E; [|done].
  apply Hp in E. lia.
Qed.

Lemma ok_weaken n m st : n <= m -> ok m st -> ok n st.
Proof. intros ? [? ?]. split; [done|lia]. Qed.

Lemma wf_touch l st : l < length (heap st) -> wf st -> wf (touch l st).
Proof.
  intros Hl (Hh & Hp & Hr). unfold touch. destruct (prot st !! l); [done|].
  split_and!; [done| |done]. simpl. apply map_Forall_insert_2; [done|]. exact Hp.
Qed.

Lemma wf_store l d st :
  l < length (heap st) -> dict_below (length (heap st)) d = true -> wf st ->
  wf (set_heap (<[l := d]> (heap st)) st).
Proof.
  intros Hl Hd (Hh & Hp & Hr). unfold wf; simpl. rewrite length_insert.
  split_and!; [|done|done]. by apply Forall_insert.
Qed.

Lemma wf_alloc d st :
  dict_below (length (heap st)) d = true -> wf st -> wf (set_heap (heap st ++ [d]) st).
Proof.
  intros Hd (Hh & Hp & Hr). unfold wf; simpl. rewrite length_app; simpl.
  split_and!.
  - apply Forall_app; split; [|constructor; [|done]].
    + eapply Forall_impl; [exact Hh|]. intros d' Hd'. eapply dict_below_mono; [|exact Hd']. lia.
    + eapply dict_below_mono; [|exact Hd]. lia.
  - intros l x Hx. specialize (Hp l x Hx). simpl in Hp. lia.
  - destruct (root st); simpl in *; [lia|done].
Qed.

Lemma wf_set_log lg st : wf st -> wf (set_log lg st).
Proof. done. Qed.

#[export] Hint Resolve wf_touch wf_store wf_alloc wf_set_log : py.

(** ** Specifications of the operations

    [hoare (ok n) m Q (ok n)]: started in a well-formed state with at
    least [n] objects, [m] ends, returning or raising, in such a state;
    the arguments of [m] only refer to the first [n] objects. *)

Lemma hoare_same_state {A} n (m : M A) :
  (forall s, fst (m s) = s) -> hoare (ok n) m (fun _ => ok n) (ok n).
Proof. intros H s Hs. specialize (H s). destruct (m s) as [s' [e|a]]; simpl in H; by subst. Qed.

(** Re-basing a specification on the number of objects at the start of
    the action. *)
Lemma hoare_rebase {A} n (P : state -> Prop) (m : M A) (Q : A -> state -> Prop) :
  (forall s0, P s0 -> ok n s0 ->
     hoare (ok (length (heap s0))) m Q (ok (length (heap s0)))) ->
  hoare (fun s => ok n s /\ P s) m Q (ok n).
Proof.
  intros H. apply hoare_intro. intros s0 [Hok HP].
  eapply hoare_conseq; [apply (H s0 HP Hok)| |eauto|].
  - intros s ->. split; [apply Hok|lia].
  - intros s Hs. eapply ok_weaken; [|exact Hs]. apply Hok.
Qed.

Lemma load_spec n l :
  hoare (ok n) (load l) (fun d s => ok n s /\ dict_below (length (heap s)) d = true) (ok n).
Proof.
  intros s Hs. unfold load. destruct (heap s !! l) eqn:E; [|done].
  split; [done|]. eapply wf_lookup; [apply Hs|exact E].
Qed.

Lemma protected_of_spec n l : l < n -> hoare (ok n) (protected_of l) (fun _ => ok n) (ok n).
Proof.
  intros Hl s [Hwf Hn]. rewrite protected_of_run.
  split; [apply wf_touch; [lia|done]|by rewrite touch_heap].
Qed.

Lemma path_of_spec n l : hoare (ok n) (path_of l) (fun _ => ok n) (ok n).
Proof. apply hoare_same_state. intros s. by destruct (path_of_state l s) as [r ->]. Qed.

Lemma setattr_spec n l name v :
  l < n -> val_below n v = true -> hoare (ok n) (setattr l name v) (fun _ => ok n) (ok n).
Proof.
  intros Hl Hv. unfold setattr. eapply hoare_bind; [by apply protected_of_spec|]. intros ps.
  case_decide.
  - eapply hoare_bind; [apply path_of_spec|]. intros p. by apply hoare_raise.
  - unfold object_setattr. repeat case_decide; try (by apply hoare_raise).
    eapply hoare_bind; [apply load_spec|]. intros d s [[Hwf Hn] Hd].
    rewrite store_run. split; [|cbn [heap set_heap]; rewrite length_insert; lia].
    apply wf_store; [lia| |done]. apply dict_below_assoc_set; [done|].
    eapply val_below_mono; [|exact Hv]. lia.
Qed.

Lemma init_spec n path :
  hoare (ok n) (init path) (fun t s => ok n s /\ t < length (heap s)) (ok n).
Proof.
  intros s [Hwf Hn]. rewrite init_run by (by apply wf_fresh). simpl.
  rewrite <- touch_set_heap. unfold ok. rewrite touch_heap. cbn [heap set_heap].
  rewrite length_app. simpl. split_and!; [|lia..].
  apply wf_touch; [cbn; rewrite length_app; simpl; lia|]. by apply wf_alloc.
Qed.

Lemma content_spec n l :
  hoare (ok n) (content l) (fun c s => ok n s /\ dict_below (length (heap s)) c = true) (ok n).
Proof.
  unfold content. eapply hoare_bind; [apply load_spec|]. intros d.
  apply hoare_ret. intros s [Hok Hd]. split; [done|]. case_match; auto using dict_below_assoc_del.
Qed.

Lemma getattr_hook_spec n l name :
  l < n ->
  hoare (ok n) (getattr_hook l name) (fun a s => ok n s /\ attr_below (length (heap s)) a = true) (ok n).
Proof.
  intros Hl. unfold getattr_hook. case_decide; [by apply hoare_raise|]. case_decide.
  - eapply hoare_bind; [apply content_spec|]. intros c.
    apply hoare_ret. intros s [Hok Hc]. split; [done|]. cbn [attr_below]. by rewrite val_below_dict.
  - eapply hoare_bind; [apply path_of_spec|]. intros p.
    eapply hoare_bind; [apply init_spec|]. intros t.
    apply hoare_rebase. intros s0 Ht [_ Hn0].
    eapply hoare_bind; [apply setattr_spec; [lia|simpl; by apply bool_decide_eq_true]|].
    intros u. apply hoare_ret. intros s [Hwf Hs]. split; [split; [done|lia]|].
    simpl. apply bool_decide_eq_true. lia.
Qed.

Lemma getattr_spec n l name :
  l < n ->
  hoare (ok n) (getattr l name) (fun a s => ok n s /\ attr_below (length (heap s)) a = true) (ok n).
Proof.
  intros Hl. unfold getattr. case_decide.
  - eapply hoare_bind; [apply content_spec|]. intros c.
    apply hoare_ret. intros s [Hok Hc]. split; [done|]. cbn [attr_below]. by rewrite val_below_dict.
  - case_decide; [by apply hoare_raise|].
    eapply hoare_bind; [apply load_spec|]. intros d.
    destruct (assoc_get name d) as [v|] eqn:Hv.
    + apply hoare_ret. intros s [Hok Hd]. split; [done|]. by eapply dict_below_assoc_get.
    + case_decide.
      * apply hoare_ret. intros s [[Hwf Hn] _]. split; [done|]. simpl.
        apply bool_decide_eq_true. lia.
      * eapply hoare_conseq; [by apply getattr_hook_spec| |done|done]. intros s [Hok _]. done.
Qed.

Lemma getattr_attr_spec n a name :
  attr_below n a = true ->
  hoare (ok n) (getattr_attr a name) (fun a s => ok n s /\ attr_below (length (heap s)) a = true) (ok n).
Proof.
  intros Ha. destruct a as [[x|kvs|l]|recv m]; simpl; try by apply hoare_raise.
  apply getattr_spec. simpl in Ha. by apply bool_decide_eq_true in Ha.
Qed.

Lemma protect_spec n l names : l < n -> hoare (ok n) (protect l names) (fun _ => ok n) (ok n).
Proof.
  intros Hl. unfold protect. eapply hoare_bind; [by apply protected_of_spec|]. intros ps.
  apply hoare_modify. intros s [(Hh & Hp & Hr) Hn]. split; [|done].
  split_and!; [done| |done]. simpl. apply map_Forall_insert_2; [simpl; lia|done].
Qed.

Lemma dict_below_Forall n kvs :
  dict_below n kvs = true -> Forall (fun kv => val_below n kv.2 = true) kvs.
Proof.
  unfold dict_below. rewrite forallb_forall. intros H. apply Forall_forall.
  intros kv Hin. apply H. by apply list_elem_of_In.
Qed.

Lemma update_item_spec v : forall n l k,
  l < n -> val_below n v = true -> hoare (ok n) (update_item l k v) (fun _ => ok n) (ok n).
Proof.
  induction v as [a|kvs IH|r] using val_ind'; intros n l k Hl Hv; cbn [update_item];
    [by apply setattr_spec| |by apply setattr_spec].
  destruct (recurse_into kvs).
  - eapply hoare_bind; [by apply getattr_spec|]. intros a.
    apply hoare_rebase. intros s0 Ha [_ Hn0].
    eapply hoare_bind; [by apply getattr_attr_spec|]. intros m.
    destruct m as [x|[| |l'] nm]; try (apply hoare_raise; intros s [Hs _]; exact Hs).
    apply hoare_rebase. intros s1 Hb [_ Hn1]. simpl in Hb. apply bool_decide_eq_true in Hb.
    eapply (hoare_conseq (ok (length (heap s1))) _ _ (fun _ => ok (length (heap s1))));
      [apply hoare_iter_items|done|intros ? ?; apply ok_weaken; lia|done].
    rewrite val_below_dict in Hv. apply dict_below_Forall in Hv.
    rewrite Forall_forall in IH, Hv |- *. intros [k' x] Hin.
    apply (IH _ Hin); [done|]. eapply val_below_mono; [|apply (Hv _ Hin)]. lia.
  - apply setattr_spec; [done|]. rewrite val_below_dict in *. unfold strip_marker.
    case_match; auto using dict_below_assoc_del.
Qed.

Lemma update__spec n l tree :
  l < n -> dict_below n tree = true -> hoare (ok n) (update_ l tree) (fun _ => ok n) (ok n).
Proof.
  intros Hl Ht. apply hoare_iter_items.
  eapply Forall_impl; [by apply dict_below_Forall|]. intros [k v] Hv. by apply update_item_spec.
Qed.

Lemma update_spec n l value :
  l < n -> val_below n value = true -> hoare (ok n) (update l value) (fun _ => ok n) (ok n).
Proof.
  intros Hl Hv. unfold update. eapply hoare_bind; [apply (hoare_get _ (fun _ => ok n)); done|].
  intros st. case_decide; [by apply hoare_raise|].
  destruct value as [a|tree|l']; [by apply hoare_raise| |].
  - eapply hoare_bind; [apply update__spec; [done|by rewrite <- val_below_dict]|].
    intros u. by apply hoare_ret.
  - eapply hoare_bind; [apply content_spec|]. intros c.
    apply hoare_rebase. intros s0 Hc [_ Hn0].
    eapply hoare_bind; [apply update__spec; [lia|done]|]. intros u.
    apply hoare_ret. intros s Hs. eapply ok_weaken; [|exact Hs]. lia.
Qed.

(** The final state of an action specified on [ok n] is well formed. *)
Lemma hoare_ok_wf {A} (m : M A) (Q : A -> state -> Prop) st :
  hoare (ok (length (heap st))) m Q (ok (length (heap st))) ->
  (forall a s, Q a s -> wf s) -> wf st -> wf (fst (m st)).
Proof.
  intros H HQ Hwf. specialize (H st (conj Hwf (le_n _))).
  destruct (m st) as [s' [e|a]]; [apply H|eauto].
Qed.

End WellFormed.
