(* ===== verification/Contents.v ===== *)
(** * [fix_contents]: the tree below a node as nested dicts

    [fix_contents] (config.py lines 52-57, used by [Config.print_])
    replaces every child node by its own fixed contents, recursively.
    Each nesting level costs one unit of fuel; CPython spends two frames
    per level (the function and the [__content__] getter) on top of the
    caller's, so the fuel is an upper bound of the depth the recursion
    limit allows, not the limit itself.  The theorems show that on an
    acyclic object graph enough fuel makes it return, without changing
    the state and with no node left in the result, and that a node that
    is its own child makes it raise [RecursionError] whatever the fuel,
    hence whatever the recursion limit. *)

From stdpp Require Import base list strings gmap.
From S2P Require Import Prelude PyModel ConfigNode WellFormed.

Set Warnings "-register-all -clear-no-such-hyp".

Module Contents.
Import Config WellFormed.

(** [rk] ranks the object graph: every child of a node exists and has a
    smaller rank.  Such a ranking exists exactly when the graph of
    [Config] references is acyclic. *)
Definition ranked (st : state) (rk : loc -> nat) : Prop :=
  forall l d k l', heap st !! l = Some d -> (k, VRef l') ∈ d ->
    is_Some (heap st !! l') /\ rk l' < rk l.

(** Dict leaves hold no node (the merge stores a marked dict as a leaf
    as it is; a node inside such a dict is not converted by
    [fix_contents]). *)
Definition plain_leaves (st : state) : Prop :=
  forall l d k kvs, heap st !! l = Some d -> (k, VDict kvs) ∈ d -> val_below 0 (VDict kvs) = true.

(** The node [l] has exactly one child, itself. *)
Definition self_loop (st : state) (l : loc) (k p : string) : Prop :=
  heap st !! l = Some [("__path__", VAtom (AStr p)); (k, VRef l)].

(** A ranking of [sample_tree]: the root, then [common], then its three
    children. *)
Definition sample_rank (l : loc) : nat :=
  match l with 0 => 2 | 1 => 1 | _ => 0 end.

(** [sample_tree] with [root.common.unset.self = root.common.unset]. *)
Definition sample_cycle : state := fst (setattr 4 "self" (VRef 4) sample_tree).

Lemma content_elem st l d c x :
  heap st !! l = Some d -> content l st = (st, inr c) -> x ∈ c -> x ∈ d.
Proof.
  intros Hd Hc. rewrite (content_run l st d Hd) in Hc. injection Hc as <-.
  case_match; [apply elem_of_assoc_del|done].
Qed.

(** [map_items] whose function returns, on every entry, without changing
    the state. *)
Lemma map_items_pure {K V} (f : K -> V -> M V) (items : list (K * V)) st (P : V -> Prop) :
  (forall k v, (k, v) ∈ items -> exists v', f k v st = (st, inr v') /\ P v') ->
  exists items', map_items f items st = (st, inr items') /\ Forall (fun kv => P kv.2) items'.
Proof.
  induction items as [|[k v] rest IH]; intros Hf; simpl; [eexists; split; [done|constructor]|].
  destruct (Hf k v ltac:(set_solver)) as (v' & Hv & HP).
  destruct IH as (rest' & Hr & Hrest); [intros k' x Hin; apply Hf; set_solver|].
  run_step Hv. run_step Hr. eexists. split; [reflexivity|]. by constructor.
Qed.

Lemma val_below_0_dict kvs :
  Forall (fun kv => val_below 0 kv.2 = true) kvs -> val_below 0 (VDict kvs) = true.
Proof.
  rewrite val_below_dict. unfold dict_below. rewrite forallb_forall, Forall_forall.
  intros H kv Hin. apply H. by apply list_elem_of_In.
Qed.

(** C12: [fix_contents] terminates on an acyclic tree.  When the object
    graph is ranked, no dict leaf holds a node, and the fuel (nesting
    levels) exceeds the rank of [l], [fix_contents l] returns a nested dict with
    no node left in it, and the state is unchanged. *)
Theorem fix_contents_terminates st rk fuel l :
  ranked st rk -> plain_leaves st -> is_Some (heap st !! l) -> rk l < fuel ->
  exists d, fix_contents fuel l st = (st, inr d) /\ val_below 0 (VDict d) = true.
Proof.
  intros Hrk Hpl. revert l. induction fuel as [|n IH]; intros l [dl Hl] Hlt; [lia|].
  cbn [fix_contents].
  run_step (content_run l st dl Hl).
  edestruct (map_items_pure (K:=string) (V:=val)
              (fun _ v => match v with
                          | VRef l' => d <- fix_contents n l' ;; pret (VDict d)
                          | _ => pret v
                          end)
              (if dict_contains "__path__" dl then assoc_del "__path__" dl else dl) st
              (fun v => val_below 0 v = true)) as (c' & Hc' & Hall);
    [|rewrite Hc'; eexists; split; [reflexivity|by apply val_below_0_dict]].
  intros k v Hin. eapply content_elem in Hin; [|exact Hl|by apply content_run].
  destruct v as [a|kvs|l'].
  - eexists. split; [reflexivity|done].
  - eexists. split; [reflexivity|]. by eapply Hpl.
  - destruct (Hrk l dl k l' Hl Hin) as [Hex Hr].
    destruct (IH l' Hex ltac:(lia)) as (d' & Hd' & Hb).
    run_step Hd'. eexists. split; [reflexivity|done].
Qed.

Lemma fix_contents_terminates_witness :
  exists d, fix_contents 3 0 sample_tree = (sample_tree, inr d) /\ val_below 0 (VDict d) = true.
Proof.
  apply (fix_contents_terminates sample_tree sample_rank); [| |eexists; reflexivity|simpl; lia];
    intros l d k x Hd Hin; do 5 (destruct l as [|l]; [simplify_eq/=; set_unfold in Hin;
      repeat destruct Hin as [Hin|Hin]; try contradiction; simplify_eq/=;
      (split; [eexists; reflexivity|simpl; lia])|]);
    simplify_eq/=.
Defined.

(** C25: a node that is its own child makes [fix_contents] raise
    [RecursionError], whatever the fuel and so whatever the recursion
    limit: [print_] of such a
    tree fails. *)
Theorem fix_contents_self_loop st l k p fuel :
  self_loop st l k p -> k <> "__path__" ->
  fix_contents fuel l st = (st, inl RecursionError).
Proof.
  intros Hl Hk. induction fuel as [|n IH]; [done|]. cbn [fix_contents].
  run_step (content_run l st _ Hl). cbn [assoc_del].
  rewrite decide_True, decide_False by (done || by apply not_eq_sym). cbn [assoc_del map_items].
  run_step IH. reflexivity.
Qed.

Lemma fix_contents_self_loop_witness :
  fix_contents 1000 4 sample_cycle = (sample_cycle, inl RecursionError).
Proof. apply (fix_contents_self_loop _ _ "self" "root.common.unset"); [reflexivity|discriminate]. Defined.

End Contents.
