(* ===== verification/Validation.v ===== *)
(** * The validation helpers [get] and [validate_kwargs]
    (config.py lines 157-176)

    [get] turns a placeholder node into a default.  [validate_kwargs]
    warns, through the caller's [warning] method, about every keyword
    argument that is a node without children; when the setting
    [root.common.trace.undefined_configs] is true it also logs the
    arguments and the stack.  The theorems give the exact log of a run
    when the trace setting is a false leaf, and show what happens when
    it is not: an unset setting is a placeholder node, which is true, and
    a leaf in place of [trace] makes the helper raise. *)

From stdpp Require Import base list strings gmap.
From S2P Require Import Prelude PyModel ConfigNode.

Set Warnings "-register-all -clear-no-such-hyp".

Module Validation.
Import Config.

(** [get] (lines 157-162). *)
Definition get (value default_value : val) : val :=
  match value with
  | VRef _ => default_value
  | _ => value
  end.

(** [root.common.trace.undefined_configs] (line 170), read from the
    module global [root]. *)
Definition trace_undefined_configs : M attr :=
  st <- pget ;;
  match root st with
  | None => praise (AttributeError "common")
  | Some r =>
      a <- getattr r "common" ;;
      a <- getattr_attr a "trace" ;;
      getattr_attr a "undefined_configs"
  end.

(** The message of line 168, formatted. *)
Definition undefined_msg (k path : string) : string :=
  "Argument '" +:+ k +:+ "' seems to be undefined at " +:+ path.

(** The body of the loop of [validate_kwargs] (lines 167-176). *)
Definition validate_item (caller : string) (kwargs : dict) (k : string) (v : val) : M unit :=
  match v with
  | VRef l =>
      c <- content l ;;
      if bool_decide (length c = 0) then
        p <- path_of l ;;
        warn caller (LWarning (undefined_msg k p)) ;;
        t <- trace_undefined_configs ;;
        if attr_truthy t then warn caller (LKwargs kwargs) ;; warn caller LStack
        else pret tt
      else pret tt
  | _ => pret tt
  end.

(** [validate_kwargs] (lines 165-176). *)
Definition validate_kwargs (caller : string) (kwargs : dict) : M unit :=
  iter_items (validate_item caller kwargs) kwargs.

(** ** The log of a run *)

(** The warnings line 168 emits for [kwargs] in the state [st]: one per
    argument that is a node without children, in argument order. *)
Definition warnings_of (st : state) (caller : string) (kwargs : dict) : list (string * entry) :=
  flat_map (fun kv =>
    match kv.2 with
    | VRef l =>
        match heap st !! l with
        | Some d =>
            if bool_decide (length (assoc_del "__path__" d) = 0) then
              match assoc_get "__path__" d with
              | Some (VAtom (AStr p)) => [(caller, LWarning (undefined_msg kv.1 p))]
              | _ => []
              end
            else []
        | None => []
        end
    | _ => []
    end) kwargs.

(** The setting [root.common.trace.undefined_configs] exists and is false. *)
Definition trace_off (st : state) : Prop :=
  exists r c t v, root st = Some r /\ attr_of st r "common" = Some (VRef c) /\
    attr_of st c "trace" = Some (VRef t) /\
    attr_of st t "undefined_configs" = Some v /\ truthy v = false.

(** Every [Config] argument is a node of the heap with a string path. *)
Definition args_ok (st : state) (kwargs : dict) : Prop :=
  Forall (fun kv => match kv.2 with
                    | VRef l => exists d p, heap st !! l = Some d /\
                                  assoc_get "__path__" d = Some (VAtom (AStr p))
                    | _ => True
                    end) kwargs.

(** Two variants of [sample_tree]: with [trace.undefined_configs = False],
    and with [trace] itself the leaf [False]. *)
Definition sample_trace_off : state :=
  fst (setattr 3 "undefined_configs" (VAtom (ABool false)) sample_tree).

Definition sample_trace_leaf : state :=
  fst (setattr 1 "trace" (VAtom (ABool false)) sample_tree).

Lemma attr_of_set_log st lg l name : attr_of (set_log lg st) l name = attr_of st l name.
Proof. reflexivity. Qed.

(** The lookup chain of line 170 when [root.common.trace] is a stored
    value [v]: what remains is the lookup of [undefined_configs] on it. *)
Lemma trace_lookup st r c v :
  root st = Some r -> attr_of st r "common" = Some (VRef c) -> attr_of st c "trace" = Some v ->
  trace_undefined_configs st = getattr_attr (AVal v) "undefined_configs" st.
Proof.
  intros Hr Hc Ht. unfold trace_undefined_configs, pbind at 1, pget. rewrite Hr.
  run_step (getattr_found r "common" _ st Hc ltac:(unfold data_descriptors; set_solver)).
  cbn [getattr_attr].
  run_step (getattr_found c "trace" _ st Ht ltac:(unfold data_descriptors; set_solver)).
  reflexivity.
Qed.

Lemma trace_off_run st lg :
  trace_off st ->
  exists v, trace_undefined_configs (set_log lg st) = (set_log lg st, inr (AVal v)) /\
            truthy v = false.
Proof.
  intros (r & c & t & v & Hr & Hc & Ht & Hv & Hf). exists v. split; [|done].
  rewrite (trace_lookup _ r c (VRef t)) by done. cbn [getattr_attr].
  apply getattr_found; [done|]. unfold data_descriptors; set_solver.
Qed.

(** When [root.common.trace] is a node without [undefined_configs], the
    lookup creates a placeholder node and returns it. *)
Lemma trace_placeholder_run st r c t dt pt :
  root st = Some r -> attr_of st r "common" = Some (VRef c) ->
  attr_of st c "trace" = Some (VRef t) -> heap st !! t = Some dt ->
  assoc_get "undefined_configs" dt = None ->
  assoc_get "__path__" dt = Some (VAtom (AStr pt)) ->
  "undefined_configs" ∉ pnames st t -> prot st !! length (heap st) = None ->
  exists st', trace_undefined_configs st = (st', inr (AVal (VRef (length (heap st))))) /\
              log st' = log st.
Proof.
  intros Hr Hc Ht Hd Hn Hp Hnp Hfree.
  assert (Hch : child_name "undefined_configs")
    by (apply (bool_decide_eq_true_1 (child_name _)); vm_compute; reflexivity).
  rewrite (trace_lookup _ r c (VRef t)) by done. cbn [getattr_attr].
  rewrite (getattr_missing t _ st dt) by done.
  rewrite (getattr_hook_run t _ st dt pt) by done.
  eexists; split; [reflexivity|]. cbn. by rewrite !touch_log.
Qed.

Lemma warn_run caller e lg st :
  warn caller e (set_log lg st) = (set_log (lg ++ [(caller, e)]) st, inr tt).
Proof. reflexivity. Qed.

Lemma dict_contains_path d p :
  assoc_get "__path__" d = Some p -> dict_contains "__path__" d = true.
Proof. intros H. unfold dict_contains, assoc_mem. rewrite H. by apply bool_decide_true. Qed.

Lemma validate_items_log caller kwargs items st lg :
  trace_off st -> args_ok st items ->
  iter_items (validate_item caller kwargs) items (set_log lg st) =
    (set_log (lg ++ warnings_of st caller items) st, inr tt).
Proof.
  intros Htr. revert lg. induction items as [|[k v] rest IH]; intros lg Hok.
  - simpl. by rewrite app_nil_r.
  - unfold args_ok in Hok. rewrite Forall_cons in Hok. destruct Hok as [Hkv Hrest].
    cbn [iter_items].
    destruct v as [a|kvs|l]; cbn [validate_item];
      try (rewrite bind_ret_l, IH by done; reflexivity).
    destruct Hkv as (d & p & Hd & Hp). simpl in Hd.
    run_step (content_run l (set_log lg st) d Hd).
    rewrite (dict_contains_path d _ Hp). cbn [warnings_of flat_map snd fst].
    rewrite Hd, Hp.
    case_bool_decide as He.
    + run_step (path_of_run l (set_log lg st) d p Hd Hp).
      run_step (warn_run caller (LWarning (undefined_msg k p)) lg st).
      destruct (trace_off_run st (lg ++ [(caller, LWarning (undefined_msg k p))]) Htr)
        as (tv & Htv & Hf).
      run_step Htv. cbn [attr_truthy]. rewrite Hf, bind_ret_l, IH by done.
      simpl. by rewrite <- app_assoc.
    + rewrite bind_ret_l, IH by done. done.
Qed.

(** C10: [validate_kwargs] warns once per undefined argument and does
    not raise.  When [root.common.trace.undefined_configs] is a false
    leaf, a run returns normally, changes nothing but the log, and
    appends exactly one warning ["Argument 'k' seems to be undefined at
    path"] for each argument that is a node without children, in order. *)
Theorem validate_kwargs_log caller kwargs st :
  trace_off st -> args_ok st kwargs ->
  validate_kwargs caller kwargs st =
    (set_log (log st ++ warnings_of st caller kwargs) st, inr tt).
Proof.
  intros Htr Hok. unfold validate_kwargs.
  pose proof (validate_items_log caller kwargs kwargs st (log st) Htr Hok) as H.
  by destruct st.
Qed.

Lemma validate_kwargs_log_witness :
  validate_kwargs "caller" [("x", VRef 4); ("y", VAtom (AInt 1)); ("z", VRef 2)] sample_trace_off =
    (set_log (log sample_trace_off ++
              warnings_of sample_trace_off "caller" [("x", VRef 4); ("y", VAtom (AInt 1)); ("z", VRef 2)])
       sample_trace_off, inr tt).
Proof.
  apply validate_kwargs_log.
  - exists 0, 1, 3, (VAtom (ABool false)). split_and!; reflexivity.
  - repeat constructor; simpl; do 2 eexists; split; reflexivity.
Defined.

(** ** When the trace setting is not a false leaf *)

(** A node without children as an argument: its warning is logged, then
    the trace setting is read. *)
Lemma validate_item_empty caller kwargs k l p st :
  heap st !! l = Some [("__path__", VAtom (AStr p))] ->
  validate_item caller kwargs k (VRef l) st =
    (t <- trace_undefined_configs ;;
     if attr_truthy t then warn caller (LKwargs kwargs) ;; warn caller LStack else pret tt)
      (set_log (log st ++ [(caller, LWarning (undefined_msg k p))]) st).
Proof.
  intros Hd. cbn [validate_item].
  run_step (content_run l st _ Hd). vm_compute (bool_decide _). cbv iota.
  run_step (path_of_run l st _ p Hd eq_refl). reflexivity.
Qed.

(** C19: an unset trace setting turns tracing on.  When [root.common.trace]
    is a node without [undefined_configs], the lookup of line 170 creates
    a placeholder node, which is true: validating an argument that is a
    node without children logs its warning and then the arguments and the
    stack trace, as if tracing had been enabled. *)
Theorem validate_trace_unset caller k l p st r c t dt pt :
  root st = Some r -> attr_of st r "common" = Some (VRef c) ->
  attr_of st c "trace" = Some (VRef t) -> heap st !! t = Some dt ->
  assoc_get "undefined_configs" dt = None ->
  assoc_get "__path__" dt = Some (VAtom (AStr pt)) ->
  "undefined_configs" ∉ pnames st t -> prot st !! length (heap st) = None ->
  heap st !! l = Some [("__path__", VAtom (AStr p))] ->
  exists st', validate_kwargs caller [(k, VRef l)] st = (st', inr tt) /\
    log st' = log st ++ [(caller, LWarning (undefined_msg k p));
                         (caller, LKwargs [(k, VRef l)]); (caller, LStack)].
Proof.
  intros Hr Hc Ht Hd Hn Hp Hnp Hfree Hl.
  destruct (trace_placeholder_run (set_log (log st ++ [(caller, LWarning (undefined_msg k p))]) st)
              r c t dt pt) as (st1 & Hrun & Hlog); try done.
  unfold validate_kwargs. cbn [iter_items]. unfold pbind at 1.
  rewrite (validate_item_empty caller _ k l p st Hl). unfold pbind at 1. rewrite Hrun.
  eexists; split; [reflexivity|]. cbn. rewrite Hlog. cbn. by rewrite <- !app_assoc.
Qed.

Lemma validate_trace_unset_witness :
  exists st', validate_kwargs "caller" [("x", VRef 4)] sample_tree = (st', inr tt) /\
    log st' = log sample_tree ++ [("caller", LWarning (undefined_msg "x" "root.common.unset"));
                                  ("caller", LKwargs [("x", VRef 4)]); ("caller", LStack)].
Proof.
  eapply (validate_trace_unset "caller" "x" 4 "root.common.unset" sample_tree 0 1 3 _
            "root.common.trace"); first [reflexivity | vm_decide].
Defined.

(** C20: a leaf in place of [trace] makes [validate_kwargs] raise.  When
    [root.common.trace] holds anything but a node (a leaf or a plain dict
    stored by an opaque merge), the lookup of [undefined_configs] on it
    raises [AttributeError] after the argument's warning has been
    logged. *)
Theorem validate_trace_leaf_raises caller k l p st r c v :
  root st = Some r -> attr_of st r "common" = Some (VRef c) ->
  attr_of st c "trace" = Some v -> (forall t, v <> VRef t) ->
  heap st !! l = Some [("__path__", VAtom (AStr p))] ->
  exists st', validate_kwargs caller [(k, VRef l)] st = (st', inl (AttributeError "undefined_configs")) /\
    log st' = log st ++ [(caller, LWarning (undefined_msg k p))].
Proof.
  intros Hr Hc Ht Hv Hl. unfold validate_kwargs. cbn [iter_items]. unfold pbind at 1.
  rewrite (validate_item_empty caller _ k l p st Hl). unfold pbind at 1.
  rewrite (trace_lookup _ r c v) by done.
  destruct v as [a|kvs|t]; [| |by destruct (Hv t)]; cbn; eexists; split; reflexivity.
Qed.

Lemma validate_trace_leaf_raises_witness :
  exists st', validate_kwargs "caller" [("x", VRef 4)] sample_trace_leaf =
                (st', inl (AttributeError "undefined_configs")) /\
    log st' = log sample_trace_leaf ++ [("caller", LWarning (undefined_msg "x" "root.common.unset"))].
Proof.
  apply (validate_trace_leaf_raises "caller" "x" 4 _ sample_trace_leaf 0 1 (VAtom (ABool false)));
    first [reflexivity | intros t; discriminate].
Defined.

End Validation.
