(* ===== verification/Paths.v ===== *)
(** * Reading a setting by its path

    The rest of VELES reads settings as attribute chains such as
    [root.common.engine.backend] (config.py uses the same chains at
    lines 95 and 170).  Each step is Python's attribute lookup, which
    creates a placeholder child when the name is missing.  [lookup_path]
    is such a chain; the theorem [lookup_unset_path] shows what a chain
    along names that were never set yields: an empty node with the
    dotted path, created on the way, which [get] turns into the default. *)

From stdpp Require Import base list strings gmap.
From S2P Require Import Prelude PyModel ConfigNode WellFormed Validation.

Set Warnings "-register-all -clear-no-such-hyp".

Module Paths.
Import Config WellFormed Validation.

(** [a.n1.n2 ... nk]: one attribute lookup per name. *)
Fixpoint lookup_path (a : attr) (names : list string) : M attr :=
  match names with
  | [] => pret a
  | n :: rest => a' <- getattr_attr a n ;; lookup_path a' rest
  end.

(** The path ["p.n1.n2 ... nk"] the [__getattr__] hook builds, one
    ["%s.%s"] per step (line 106). *)
Definition dotted (p : string) (names : list string) : string :=
  fold_left (fun acc n => acc +:+ "." +:+ n) names p.

(** Names a chain can create: not special for the lookup, and not the
    bookkeeping entry [__path__] that every node holds. *)
Definition creatable (n : string) : Prop := child_name n /\ n <> "__path__".

#[export] Instance creatable_dec n : Decision (creatable n).
Proof. unfold creatable. apply _. Defined.

(** ** One step of a chain *)

Lemma getattr_fresh_child st l d p n :
  wf st -> heap st !! l = Some d -> assoc_get "__path__" d = Some (VAtom (AStr p)) ->
  assoc_get n d = None -> child_name n -> n ∉ pnames st l ->
  exists st',
    getattr l n st = (st', inr (AVal (VRef (length (heap st))))) /\ wf st' /\
    heap st' !! length (heap st) = Some [("__path__", VAtom (AStr (p +:+ "." +:+ n)))] /\
    pnames st' (length (heap st)) = ∅.
Proof.
  intros Hwf Hd Hp Hn Hc Hpn.
  assert (Hfree := wf_fresh st Hwf).
  assert (Hl : l < length (heap st)) by (eapply lookup_lt_Some; eauto).
  assert (Hwf' := hoare_ok_wf (getattr l n) _ st (getattr_spec _ l n Hl) (fun _ _ H => proj1 (proj1 H)) Hwf).
  rewrite getattr_missing with (d := d) in Hwf' |- * by done.
  rewrite (getattr_hook_run l n st d p) in Hwf' |- * by done.
  eexists. split; [reflexivity|]. split; [done|]. simpl. split.
  - rewrite list_lookup_insert_ne by lia. apply alloc_lookup_new.
  - rewrite pnames_set_heap, !touch_pnames. unfold pnames. by rewrite Hfree.
Qed.

(** ** Chains along unset names *)

(** C30: reading an unset path yields an empty placeholder.  On a node
    with a string path [p], a chain along names that the node does not
    hold, whose first name is not protected there, and none of which is
    special for the lookup or [__path__], returns normally: the result is
    a new node whose only entry is its path ["p.n1...nk"] (so its
    [__content__] is empty), [get] of it returns the default, and the
    state stays well formed. *)
Theorem lookup_unset_path st l d p n rest dflt :
  wf st -> heap st !! l = Some d -> assoc_get "__path__" d = Some (VAtom (AStr p)) ->
  assoc_get n d = None -> n ∉ pnames st l -> Forall creatable (n :: rest) ->
  exists st' l',
    lookup_path (AVal (VRef l)) (n :: rest) st = (st', inr (AVal (VRef l'))) /\
    heap st' !! l' = Some [("__path__", VAtom (AStr (dotted p (n :: rest))))] /\
    content l' st' = (st', inr []) /\
    get (VRef l') dflt = dflt /\ wf st'.
Proof.
  revert st l d p n. induction rest as [|m rest IH]; intros st l d p n Hwf Hd Hp Hn Hpn Hc;
    apply Forall_cons in Hc as [[Hcn _] Hc].
  - destruct (getattr_fresh_child st l d p n) as (st1 & Hrun & Hwf1 & Hd1 & _); [done..|].
    exists st1, (length (heap st)). cbn [lookup_path getattr_attr].
    rewrite (run_bind_ok _ _ _ _ _ Hrun). split_and!; [done|done| |done|done].
    by rewrite (content_run _ _ _ Hd1).
  - destruct (getattr_fresh_child st l d p n) as (st1 & Hrun & Hwf1 & Hd1 & Hp1); [done..|].
    apply Forall_cons in Hc as Hc'. destruct Hc' as [[_ Hm] _].
    destruct (IH st1 (length (heap st)) [("__path__", VAtom (AStr (p +:+ "." +:+ n)))]
                 (p +:+ "." +:+ n) m) as (st' & l' & Hrun' & Hrest);
      [done|done|done|simpl; by rewrite decide_False|by rewrite Hp1|done|].
    exists st', l'. cbn [lookup_path getattr_attr]. by rewrite (run_bind_ok _ _ _ _ _ Hrun).
Qed.

Lemma lookup_unset_path_witness :
  exists st' l',
    lookup_path (AVal (VRef 1)) ["never"; "touched"] sample_tree = (st', inr (AVal (VRef l'))) /\
    heap st' !! l' = Some [("__path__", VAtom (AStr (dotted "root.common" ["never"; "touched"])))] /\
    content l' st' = (st', inr []) /\
    get (VRef l') (VAtom (AInt 7)) = VAtom (AInt 7) /\ wf st'.
Proof. eapply lookup_unset_path; first [reflexivity | vm_decide]. Defined.

End Paths.
