(* ===== verification/Copy.v ===== *)
(** * Copying a node: [__getstate__], [__setstate__] and the [__deepcopy__] guard

    [copy.copy] and [copy.deepcopy] (Python 3's [copy] module) find no
    [__copy__] or [__deepcopy__] method on [Config]: the lookup of
    [__deepcopy__] on the instance reaches [Config.__getattr__], whose
    guard (lines 102-103) raises [AttributeError] instead of creating a
    child.  They fall back to the pickle protocol: [__reduce_ex__(4)]
    gives [copyreg.__newobj__(Config)], which makes an object without
    running [__init__], and the state [__getstate__()] (lines 127-132),
    the instance dict itself.  [_reconstruct] then calls
    [__setstate__(state)] (lines 134-139), which updates the new
    object's [__dict__] directly, bypassing [__setattr__] and the
    protection registry.  [deepcopy] first copies the state, with a memo
    from the objects already copied to their copies, so shared nodes stay
    shared and cycles are copied as cycles.

    Module [Copy] models both functions on the heap of [PyModel]; the
    memo is threaded explicitly, as the dict Python passes down.  Fuel
    bounds the nesting of [deepcopy] calls on nodes (Python's recursion
    limit); [deepcopy_copies_graph] shows that the number of objects
    suffices, and that the result is an isomorphic copy of the nodes
    reachable from the argument, none of them protected. *)

From stdpp Require Import base list strings gmap.
From S2P Require Import Prelude PyModel ConfigNode WellFormed.

Set Warnings "-register-all -clear-no-such-hyp".

Module Copy.
Import Config WellFormed.

(** ** The protocol methods of [Config] *)

(** [getattr(x, name, None)]: an [AttributeError] gives [None]. *)
Definition getattr_opt (l : loc) (name : string) : M (option attr) :=
  ptry (a <- getattr l name ;; pret (Some a))
       (fun e => match e with AttributeError _ => pret None | _ => praise e end).

(** [Config.__getstate__] (lines 127-132): [self.__dict__], the dict itself. *)
Definition getstate (l : loc) : M dict := load l.

(** [dict.update(items)]: each item assigned in order. *)
Definition dict_update (d items : dict) : dict :=
  fold_left (fun acc kv => assoc_set kv.1 kv.2 acc) items d.

(** [Config.__setstate__] (lines 134-139): [self.__dict__.update(state)],
    a write to the instance dict that does not go through
    [Config.__setattr__]. *)
Definition setstate (l : loc) (state : dict) : M unit :=
  d <- load l ;; store l (dict_update d state).

(** [copyreg.__newobj__(Config)]: [Config.__new__] without [__init__],
    an object with an empty [__dict__]. *)
Definition new_object : M loc := alloc [].

(** [copier = getattr(x, "__deepcopy__", None)] in [copy.deepcopy]: on a
    [Config] the guard of [__getattr__] makes it [None]; a value stored
    under that name would be called, and no value the tree holds is
    callable. *)
Definition deepcopy_hook (l : loc) : M unit :=
  c <- getattr_opt l "__deepcopy__" ;;
  match c with
  | None => pret tt
  | Some _ => praise (TypeError "object is not callable")
  end.

(** ** [copy.copy] *)

(** [copy.copy(x)] on a [Config]: [_reconstruct] without memo. *)
Definition copy_node (l : loc) : M loc :=
  state <- getstate l ;;
  y <- new_object ;;
  setstate y state ;;
  pret y.

(** ** [copy.deepcopy] *)

Abbreviation memo := (gmap loc loc).

(** [_deepcopy_dict]: the entries in order, each value deep-copied with
    the memo the previous ones left. *)
Fixpoint deepcopy_items (go : val -> memo -> M (val * memo)) (kvs : dict) (m : memo)
    : M (dict * memo) :=
  match kvs with
  | [] => pret ([], m)
  | (k, x) :: rest =>
      r <- go x m ;;
      r' <- deepcopy_items go rest r.2 ;;
      pret ((k, r.1) :: r'.1, r'.2)
  end.

(** [copy.deepcopy(v, memo)]: leaves are atomic, dicts are copied entry
    by entry, a node already in the memo is its copy, and any other node
    is reconstructed: hook check, [__getstate__], new object, memo entry,
    copy of the state, [__setstate__].  [fuel] is the nesting of nodes
    the recursion limit allows. *)
Fixpoint deepcopy (fuel : nat) (v : val) (m : memo) {struct fuel} : M (val * memo) :=
  (fix go (v : val) (m : memo) {struct v} : M (val * memo) :=
     match v with
     | VAtom _ => pret (v, m)
     | VDict kvs => r <- deepcopy_items go kvs m ;; pret (VDict r.1, r.2)
     | VRef x =>
         match m !! x with
         | Some y => pret (VRef y, m)
         | None =>
             match fuel with
             | 0 => praise RecursionError
             | S f =>
                 deepcopy_hook x ;;
                 state <- getstate x ;;
                 y <- new_object ;;
                 r <- deepcopy_items (deepcopy f) state (<[x := y]> m) ;;
                 setstate y r.1 ;;
                 pret (VRef y, r.2)
             end
         end
     end) v m.

(** [copy.deepcopy(node)] with a fresh memo. *)
Definition deepcopy_node (fuel : nat) (l : loc) : M val :=
  r <- deepcopy fuel (VRef l) ∅ ;; pret r.1.

(** ** What a copy is *)

(** A value with every reference [x] replaced by its copy [σ !! x]. *)
Fixpoint rename (σ : memo) (v : val) : val :=
  match v with
  | VAtom _ => v
  | VDict kvs =>
      VDict ((fix go (kvs : dict) : dict :=
                match kvs with
                | [] => []
                | (k, x) :: r => (k, rename σ x) :: go r
                end) kvs)
  | VRef x => VRef (default x (σ !! x))
  end.

Definition rename_dict (σ : memo) (d : dict) : dict :=
  map (fun kv => (kv.1, rename σ kv.2)) d.

(** The objects a value refers to, at any depth. *)
Fixpoint val_refs (v : val) : list loc :=
  match v with
  | VAtom _ => []
  | VDict kvs =>
      (fix go (kvs : dict) : list loc :=
         match kvs with
         | [] => []
         | (_, x) :: r => val_refs x ++ go r
         end) kvs
  | VRef x => [x]
  end.

Definition dict_refs (d : dict) : list loc := flat_map (fun kv => val_refs kv.2) d.

(** Every object of [xs] has a copy. *)
Definition covered (σ : memo) (xs : list loc) : Prop := Forall (fun x => is_Some (σ !! x)) xs.

(** The state during a deep copy that started in [st0]: the objects of
    [st0] are unchanged, the memo maps some of them injectively to
    objects allocated since, and the registry, [root] and the log are
    those of [st0]. *)
Definition copy_inv (st0 st : state) (m : memo) : Prop :=
  length (heap st0) <= length (heap st) /\
  (forall x, x < length (heap st0) -> heap st !! x = heap st0 !! x) /\
  (forall x y, m !! x = Some y -> x < length (heap st0) /\ length (heap st0) <= y < length (heap st)) /\
  (forall x1 x2 y, m !! x1 = Some y -> m !! x2 = Some y -> x1 = x2) /\
  prot st = prot st0 /\ root st = root st0 /\ log st = log st0.

(** The copy [y] of [x] is complete: its dict is the dict of [x] with
    every reference renamed, and every object it refers to has a copy. *)
Definition finished (st0 : state) (σ : memo) (st : state) (x y : loc) : Prop :=
  exists d, heap st0 !! x = Some d /\ heap st !! y = Some (rename_dict σ d) /\
            covered σ (dict_refs d).

(** What a step of the copy guarantees, from [(st, m)] to [(st', m')],
    when it copied the references [refs]: the memo grew, [refs] have
    copies, the copies already in [m] were not touched, and the new ones
    are complete. *)
Definition dc_post (st0 : state) (m : memo) (st : state) (refs : list loc)
    (st' : state) (m' : memo) : Prop :=
  copy_inv st0 st' m' /\ m ⊆ m' /\ covered m' refs /\
  (forall x y, m !! x = Some y -> heap st' !! y = heap st !! y) /\
  (forall x y, m' !! x = Some y -> m !! x = None -> finished st0 m' st' x y).

(** [go] deep-copies [v] from any state satisfying the invariant, with
    fuel [fuel] for the objects not yet copied. *)
Definition dc_spec (st0 : state) (go : val -> memo -> M (val * memo)) (fuel : nat) (v : val) : Prop :=
  forall m st, copy_inv st0 st m -> Forall (fun x => x < length (heap st0)) (val_refs v) ->
    length (heap st0) - size m <= fuel ->
    exists st' m', go v m st = (st', inr (rename m' v, m')) /\ dc_post st0 m st (val_refs v) st' m'.

(** The states the theorems copy from: well formed, every instance dict
    with distinct keys (as Python dicts have) and no [__deepcopy__] entry. *)
Definition copyable (st : state) : Prop :=
  wf st /\ Forall (fun d => NoDup d.*1 /\ assoc_get "__deepcopy__" d = None) (heap st).

#[export] Instance copyable_dec st : Decision (copyable st).
Proof. unfold copyable. apply _. Defined.

(** ** Unfolding [deepcopy] *)

Lemma deepcopy_atom fuel a m : deepcopy fuel (VAtom a) m = pret (VAtom a, m).
Proof. by destruct fuel. Qed.

Lemma deepcopy_dict fuel kvs m :
  deepcopy fuel (VDict kvs) m =
    (r <- deepcopy_items (deepcopy fuel) kvs m ;; pret (VDict r.1, r.2)).
Proof. by destruct fuel. Qed.

Lemma deepcopy_hit fuel x y m : m !! x = Some y -> deepcopy fuel (VRef x) m = pret (VRef y, m).
Proof. intros H. destruct fuel; simpl; by rewrite H. Qed.

Lemma deepcopy_miss f x m :
  m !! x = None ->
  deepcopy (S f) (VRef x) m =
    (deepcopy_hook x ;;
     state <- getstate x ;;
     y <- new_object ;;
     r <- deepcopy_items (deepcopy f) state (<[x := y]> m) ;;
     setstate y r.1 ;;
     pret (VRef y, r.2)).
Proof. intros H. simpl. by rewrite H. Qed.

Lemma deepcopy_zero x m : m !! x = None -> deepcopy 0 (VRef x) m = praise RecursionError.
Proof. intros H. simpl. by rewrite H. Qed.

(** ** Renaming *)

Lemma rename_dict_eq σ kvs : rename σ (VDict kvs) = VDict (rename_dict σ kvs).
Proof. induction kvs as [|[k x] kvs IH]; simpl in *; [done|]. by injection IH as ->. Qed.

Lemma val_refs_dict kvs : val_refs (VDict kvs) = dict_refs kvs.
Proof. induction kvs as [|[k x] kvs IH]; simpl in *; [done|]. by rewrite IH. Qed.

Lemma covered_app σ xs ys : covered σ (xs ++ ys) <-> covered σ xs /\ covered σ ys.
Proof. apply Forall_app. Qed.

Lemma covered_mono σ σ' xs : σ ⊆ σ' -> covered σ xs -> covered σ' xs.
Proof.
  intros Hs Hc. eapply Forall_impl; [exact Hc|]. intros x [y Hy]. exists y. by eapply lookup_weaken.
Qed.

Lemma rename_mono σ σ' v : σ ⊆ σ' -> covered σ (val_refs v) -> rename σ v = rename σ' v.
Proof.
  intros Hs. induction v as [a|kvs IH|x] using val_ind'.
  - done.
  - rewrite val_refs_dict, !rename_dict_eq. intros Hc. f_equal.
    induction kvs as [|[k x] kvs IHk]; [done|]. simpl in *.
    apply Forall_cons in IH as [Hx IH]. apply covered_app in Hc as [Hcx Hc].
    simpl in Hx. by rewrite Hx, IHk.
  - intros Hc. apply Forall_cons in Hc as [[y Hy] _]. simpl.
    by rewrite Hy, (lookup_weaken _ _ _ _ Hy Hs).
Qed.

Lemma rename_dict_mono σ σ' d :
  σ ⊆ σ' -> covered σ (dict_refs d) -> rename_dict σ d = rename_dict σ' d.
Proof.
  intros Hs Hc. pose proof (rename_mono σ σ' (VDict d) Hs) as H.
  rewrite val_refs_dict, !rename_dict_eq in H. by injection (H Hc).
Qed.

Lemma rename_dict_keys σ d : (rename_dict σ d).*1 = d.*1.
Proof. unfold rename_dict. rewrite <- list_fmap_compose. induction d; simpl; by f_equal. Qed.

Lemma val_below_refs n v : val_below n v = true <-> Forall (fun x => x < n) (val_refs v).
Proof.
  induction v as [a|kvs IH|x] using val_ind'.
  - split; constructor.
  - rewrite val_below_dict, val_refs_dict.
    induction kvs as [|[k x] kvs IHk]; [split; constructor|].
    apply Forall_cons in IH as [Hx IH]. unfold dict_below, dict_refs in *. simpl in *.
    rewrite andb_true_iff, Forall_app, Hx, IHk by done. done.
  - simpl. rewrite bool_decide_eq_true, Forall_singleton. done.
Qed.

(** ** The protocol methods on the states copied *)

Lemma assoc_set_fresh k v (acc : dict) : k ∉ acc.*1 -> assoc_set k v acc = acc ++ [(k, v)].
Proof.
  induction acc as [|[k' v'] acc IH]; simpl; [done|]. intros Hk.
  rewrite decide_False by set_solver. f_equal. apply IH. set_solver.
Qed.

Lemma dict_update_fresh (acc d : dict) :
  NoDup (acc.*1 ++ d.*1) -> dict_update acc d = acc ++ d.
Proof.
  revert acc. induction d as [|[k v] d IH]; intros acc Hnd; simpl; [by rewrite app_nil_r|].
  unfold dict_update in *. simpl. rewrite assoc_set_fresh.
  - rewrite IH, <- app_assoc; [done|]. by rewrite fmap_app, <- app_assoc.
  - apply NoDup_app in Hnd as (_ & Hd & _). intros Hk. apply (Hd k); [done|by left].
Qed.

Lemma dict_update_nil d : NoDup d.*1 -> dict_update [] d = d.
Proof. intros Hnd. by apply dict_update_fresh. Qed.

Lemma deepcopy_hook_run x st d :
  heap st !! x = Some d -> assoc_get "__deepcopy__" d = None -> deepcopy_hook x st = (st, inr tt).
Proof.
  intros Hd Hn. unfold deepcopy_hook, getattr_opt, ptry, getattr, pbind, load.
  rewrite (decide_False (P := "__deepcopy__" = "__content__")) by done.
  rewrite (decide_False (P := "__deepcopy__" ∈ data_descriptors)) by vm_decide.
  simpl. by rewrite Hd, Hn.
Qed.

Lemma setstate_run y d st :
  heap st !! y = Some [] -> NoDup d.*1 ->
  setstate y d st = (set_heap (<[y := d]> (heap st)) st, inr tt).
Proof. intros Hy Hnd. unfold setstate, pbind, load. rewrite Hy. by rewrite dict_update_nil. Qed.

(** ** The invariant of a deep copy *)

Section DeepCopy.
Context (st0 : state).
Hypothesis Hcp : copyable st0.

Lemma copy_inv_start : copy_inv st0 st0 ∅.
Proof. split_and!; try done; by intros ?. Qed.

Lemma dc_post_refl st m : copy_inv st0 st m -> dc_post st0 m st [] st m.
Proof. intros Hi. split_and!; [done|done|constructor|done|]. intros x y Hy Hn. congruence. Qed.

Lemma finished_mono σ σ' st st' x y :
  finished st0 σ st x y -> σ ⊆ σ' -> heap st' !! y = heap st !! y -> finished st0 σ' st' x y.
Proof.
  intros (d & Hx & Hy & Hc) Hs Heq. exists d. split_and!; [done| |by eapply covered_mono].
  rewrite Heq, Hy. f_equal. by apply rename_dict_mono.
Qed.

Lemma dc_post_trans m st r1 st1 m1 r2 st2 m2 :
  dc_post st0 m st r1 st1 m1 -> dc_post st0 m1 st1 r2 st2 m2 ->
  dc_post st0 m st (r1 ++ r2) st2 m2.
Proof.
  intros (Hi1 & Hs1 & Hc1 & Hu1 & Hf1) (Hi2 & Hs2 & Hc2 & Hu2 & Hf2).
  split_and!; [done|by trans m1|apply covered_app; split; [by eapply covered_mono|done]| |].
  - intros x y Hy. rewrite (Hu2 x y) by (eapply lookup_weaken; eauto). eauto.
  - intros x y Hy Hn. destruct (m1 !! x) as [y'|] eqn:E; [|by apply Hf2].
    assert (y' = y) as -> by (rewrite (lookup_weaken _ _ _ _ E Hs2) in Hy; congruence).
    eapply finished_mono; [by apply Hf1|done|eauto].
Qed.

Lemma memo_fuel_mono (m m' : memo) fuel :
  m ⊆ m' -> length (heap st0) - size m <= fuel -> length (heap st0) - size m' <= fuel.
Proof. intros Hs. pose proof (map_subseteq_size m m' Hs). lia. Qed.

Lemma memo_size_lt st m x :
  copy_inv st0 st m -> x < length (heap st0) -> m !! x = None -> size m < length (heap st0).
Proof.
  intros (_ & _ & Hk & _) Hx Hn.
  assert (Hsub : {[x]} ∪ dom m ⊆ set_seq (C := gset nat) 0 (length (heap st0))).
  { intros z. rewrite elem_of_union, elem_of_singleton, elem_of_dom, elem_of_set_seq.
    intros [->|[y Hy]]; [lia|]. apply Hk in Hy. lia. }
  apply subseteq_size in Hsub. rewrite size_set_seq, size_union, size_singleton, size_dom in Hsub;
    [lia|]. apply disjoint_singleton_l. by rewrite not_elem_of_dom.
Qed.

Lemma deepcopy_items_spec go fuel kvs :
  Forall (fun kv => dc_spec st0 go fuel kv.2) kvs ->
  forall m st, copy_inv st0 st m -> Forall (fun x => x < length (heap st0)) (dict_refs kvs) ->
    length (heap st0) - size m <= fuel ->
    exists st' m', deepcopy_items go kvs m st = (st', inr (rename_dict m' kvs, m')) /\
      dc_post st0 m st (dict_refs kvs) st' m'.
Proof.
  induction kvs as [|[k x] kvs IHk]; intros Hgo m st Hi Hr Hf.
  - exists st, m. split; [done|]. by apply dc_post_refl.
  - apply Forall_cons in Hgo as [Hx Hgo]. simpl in Hr. apply Forall_app in Hr as [Hrx Hr].
    destruct (Hx m st Hi Hrx Hf) as (st1 & m1 & Hrun1 & Hp1).
    destruct (IHk Hgo m1 st1 (proj1 Hp1) Hr) as (st2 & m2 & Hrun2 & Hp2);
      [eapply memo_fuel_mono; [apply Hp1|done]|].
    exists st2, m2. simpl. rewrite (run_bind_ok _ _ _ _ _ Hrun1). simpl.
    rewrite (run_bind_ok _ _ _ _ _ Hrun2). split; [|by eapply dc_post_trans].
    unfold pret. simpl. rewrite (rename_mono m1 m2 x); [done|apply Hp2|apply Hp1].
Qed.

Lemma copy_inv_alloc st m x :
  copy_inv st0 st m -> x < length (heap st0) -> m !! x = None ->
  copy_inv st0 (set_heap (heap st ++ [[]]) st) (<[x := length (heap st)]> m).
Proof.
  intros (Hl & Ho & Hk & Hj & Hp & Hr & Hg) Hx Hn. unfold copy_inv, set_heap. simpl.
  rewrite length_app. simpl.
  split_and!; try done; [lia| | |].
  - intros z Hz. rewrite lookup_app_l by lia. auto.
  - intros z y. rewrite lookup_insert_Some. intros [[<- <-]|[_ Hz]]; [lia|]. apply Hk in Hz. lia.
  - intros x1 x2 y. rewrite !lookup_insert_Some.
    intros [[<- <-]|[H1 E1]] [[<- E]|[H2 E2]]; try done;
      [apply Hk in E2|apply Hk in E1|by eapply Hj]; lia.
Qed.

Lemma copy_inv_store st m y d :
  copy_inv st0 st m -> length (heap st0) <= y -> copy_inv st0 (set_heap (<[y := d]> (heap st)) st) m.
Proof.
  intros (Hl & Ho & Hk & Hj & Hp & Hr & Hg) Hy. unfold copy_inv, set_heap. simpl.
  rewrite length_insert.
  split_and!; try done. intros z Hz. rewrite list_lookup_insert_ne by lia. auto.
Qed.

(** The dict of an object of [st0], in any state of the copy, with its
    properties. *)
Lemma copy_source st m x :
  copy_inv st0 st m -> x < length (heap st0) ->
  exists d, heap st0 !! x = Some d /\ heap st !! x = Some d /\ NoDup d.*1 /\
    assoc_get "__deepcopy__" d = None /\ Forall (fun z => z < length (heap st0)) (dict_refs d).
Proof.
  intros Hi Hx. destruct Hcp as [[Hb _] Hd].
  destruct (lookup_lt_is_Some_2 (heap st0) x Hx) as [d Hx0]. exists d.
  rewrite (proj1 (proj2 Hi)) by done.
  destruct (Forall_lookup_1 _ _ _ _ Hd Hx0) as [Hnd Hh].
  split_and!; try done. rewrite <- val_refs_dict. apply val_below_refs.
  rewrite val_below_dict. exact (Forall_lookup_1 _ _ _ _ Hb Hx0).
Qed.

Lemma deepcopy_miss_spec f x m st :
  (forall v, dc_spec st0 (deepcopy f) f v) ->
  copy_inv st0 st m -> x < length (heap st0) -> m !! x = None ->
  length (heap st0) - size m <= S f ->
  exists st' m', deepcopy (S f) (VRef x) m st = (st', inr (rename m' (VRef x), m')) /\
    dc_post st0 m st [x] st' m'.
Proof.
  intros IH Hi Hx Hn Hf.
  destruct (copy_source st m x Hi Hx) as (d & Hd0 & Hd & Hnd & Hh & Hr).
  set (y := length (heap st)). set (st1 := set_heap (heap st ++ [[]]) st).
  pose proof (copy_inv_alloc st m x Hi Hx Hn) as Hi1.
  destruct (deepcopy_items_spec (deepcopy f) f d (Forall_true _ _ (fun kv => IH kv.2))
              (<[x := y]> m) st1 Hi1 Hr) as (st2 & m2 & Hrun2 & Hi2 & Hs2 & Hc2 & Hu2 & Hf2);
    [rewrite map_size_insert_None by done; lia|].
  assert (Hm2 : m2 !! x = Some y) by (eapply lookup_weaken; [apply lookup_insert_eq|done]).
  assert (Hy2 : heap st2 !! y = Some []).
  { rewrite (Hu2 x y) by apply lookup_insert_eq. apply alloc_lookup_new. }
  assert (Hyl : y < length (heap st2)) by (eapply lookup_lt_Some; eauto).
  pose proof (setstate_run y (rename_dict m2 d) st2 Hy2 ltac:(by rewrite rename_dict_keys)) as Hset.
  eexists _, m2. split.
  - rewrite (deepcopy_miss f x m Hn). unfold getstate, new_object.
    rewrite (run_bind_ok _ _ _ _ _ (deepcopy_hook_run x st d Hd Hh)).
    assert (Hload : load x st = (st, inr d)) by (by rewrite load_run, Hd).
    rewrite (run_bind_ok _ _ _ _ _ Hload).
    rewrite (run_bind_ok _ _ _ _ _ (alloc_run [] st)), (run_bind_ok _ _ _ _ _ Hrun2).
    rewrite (run_bind_ok _ _ _ _ _ Hset). simpl. by rewrite Hm2.
  - pose proof (proj1 (proj2 (proj2 Hi))) as Hk.
    split_and!.
    + apply copy_inv_store; [done|]. destruct Hi as [Hl _]. unfold y. lia.
    + etrans; [apply insert_subseteq, Hn|done].
    + apply Forall_singleton. by exists y.
    + intros x' y' Hy'. pose proof (Hk _ _ Hy') as [_ Hlt]. simpl.
      rewrite list_lookup_insert_ne by (unfold y in *; lia).
      rewrite (Hu2 x' y') by (rewrite lookup_insert_ne; [done|congruence]).
      apply alloc_lookup_old. lia.
    + intros x' y' Hy' Hn'. destruct (decide (x' = x)) as [->|Hne].
      * rewrite Hm2 in Hy'. injection Hy' as <-. exists d. split_and!; [done| |done].
        simpl. by rewrite list_lookup_insert_eq.
      * eapply finished_mono; [apply Hf2; [done|by rewrite lookup_insert_ne]|done|].
        simpl. rewrite list_lookup_insert_ne; [done|]. intros <-.
        apply Hne. destruct Hi2 as (_ & _ & _ & Hj & _). eauto.
Qed.

Lemma deepcopy_hit_spec fuel x y m st :
  m !! x = Some y -> copy_inv st0 st m ->
  exists st' m', deepcopy fuel (VRef x) m st = (st', inr (rename m' (VRef x), m')) /\
    dc_post st0 m st [x] st' m'.
Proof.
  intros Hx Hi. exists st, m. rewrite (deepcopy_hit _ _ _ _ Hx). simpl. rewrite Hx.
  split; [done|]. destruct (dc_post_refl st m Hi) as (H1 & H2 & _ & H4 & H5).
  split_and!; try done. apply Forall_singleton. by exists y.
Qed.

Lemma deepcopy_spec_val fuel :
  (forall x, dc_spec st0 (deepcopy fuel) fuel (VRef x)) -> forall v, dc_spec st0 (deepcopy fuel) fuel v.
Proof.
  intros Href v. induction v as [a|kvs IH|x] using val_ind'; [| |apply Href].
  - intros m st Hi _ _. exists st, m. rewrite deepcopy_atom. split; [done|]. by apply dc_post_refl.
  - intros m st Hi Hr Hf. rewrite val_refs_dict in Hr |- *.
    destruct (deepcopy_items_spec _ _ kvs IH m st Hi Hr Hf) as (st' & m' & Hrun & Hp).
    exists st', m'. by rewrite deepcopy_dict, (run_bind_ok _ _ _ _ _ Hrun), rename_dict_eq.
Qed.

(** [deepcopy] meets its specification: with fuel for the objects not yet
    copied it returns, and leaves the memo and the heap as [dc_post]
    says. *)
Lemma deepcopy_spec fuel : forall v, dc_spec st0 (deepcopy fuel) fuel v.
Proof.
  induction fuel as [|f IH]; apply deepcopy_spec_val; intros x m st Hi Hr Hf;
    change (val_refs (VRef x)) with [x] in Hr |- *; rewrite Forall_singleton in Hr;
    (destruct (m !! x) as [y|] eqn:Hx; [by eapply deepcopy_hit_spec|]).
  - pose proof (memo_size_lt st m x Hi Hr Hx). lia.
  - by apply deepcopy_miss_spec.
Qed.

End DeepCopy.

Lemma pnames_fresh st y : wf st -> length (heap st) <= y -> pnames st y = ∅.
Proof.
  intros (_ & Hp & _) Hy. unfold pnames. destruct (prot st !! y) eqn:E; [|done].
  apply Hp in E. lia.
Qed.

(** ** [copy.copy] *)

(** C32: [copy.copy] round-trips the state.  On a node of a well-formed
    state whose dict has distinct keys, [copy.copy] appends one object
    whose dict is the state [__getstate__] returned (the same [__path__]
    and the same child nodes, shared, not copied), leaves everything else
    unchanged, and the new node has no protected name. *)
Theorem copy_node_roundtrip st l d :
  wf st -> heap st !! l = Some d -> NoDup d.*1 ->
  copy_node l st = (set_heap (heap st ++ [d]) st, inr (length (heap st))) /\
  pnames (set_heap (heap st ++ [d]) st) (length (heap st)) = ∅.
Proof.
  intros Hwf Hd Hnd. split; [|rewrite pnames_set_heap; by apply pnames_fresh].
  assert (Hload : load l st = (st, inr d)) by (by rewrite load_run, Hd).
  unfold copy_node, getstate, new_object.
  rewrite (run_bind_ok _ _ _ _ _ Hload), (run_bind_ok _ _ _ _ _ (alloc_run [] st)).
  rewrite (run_bind_ok _ _ _ _ _
             (setstate_run _ d (set_heap (heap st ++ [[]]) st) (alloc_lookup_new [] st) Hnd)).
  unfold set_heap. simpl. by rewrite <- (Nat.add_0_r (length (heap st))), insert_app_r.
Qed.

(** ** [copy.deepcopy] copies the graph below a node *)

Lemma deepcopy_node_run st0 l :
  copyable st0 -> l < length (heap st0) ->
  exists st' σ y,
    deepcopy_node (length (heap st0)) l st0 = (st', inr (VRef y)) /\ σ !! l = Some y /\
    copy_inv st0 st' σ /\ (forall x y', σ !! x = Some y' -> finished st0 σ st' x y').
Proof.
  intros Hcp Hl.
  destruct (deepcopy_spec st0 Hcp (length (heap st0)) (VRef l) ∅ st0 (copy_inv_start st0))
    as (st' & σ & Hrun & Hi & _ & Hc & _ & Hf); [by apply Forall_singleton|lia|].
  apply Forall_singleton in Hc as [y Hy].
  exists st', σ, y. unfold deepcopy_node. rewrite (run_bind_ok _ _ _ _ _ Hrun). simpl. rewrite Hy.
  split_and!; [done|done|done|]. intros x y' Hy'. by apply Hf.
Qed.

(** C31: [copy.deepcopy] of a node.  From a well-formed state whose
    dicts have distinct keys and no [__deepcopy__] entry, deep-copying
    the node [l] with fuel the number of objects returns a new node [y];
    the memo [σ] it built maps [l] to [y] and each object copied to a
    distinct new object, never protected, whose dict is the original's
    with every reference renamed by [σ], every object referred to having
    been copied; the original objects are unchanged. *)
Theorem deepcopy_copies_graph st0 l :
  copyable st0 -> l < length (heap st0) ->
  exists st' σ y,
    deepcopy_node (length (heap st0)) l st0 = (st', inr (VRef y)) /\ σ !! l = Some y /\
    (forall x, x < length (heap st0) -> heap st' !! x = heap st0 !! x) /\
    (forall x y', σ !! x = Some y' ->
       length (heap st0) <= y' /\ pnames st' y' = ∅ /\
       exists d, heap st0 !! x = Some d /\ heap st' !! y' = Some (rename_dict σ d) /\
                 covered σ (dict_refs d)) /\
    (forall x1 x2 y', σ !! x1 = Some y' -> σ !! x2 = Some y' -> x1 = x2).
Proof.
  intros Hcp Hl. destruct (deepcopy_node_run st0 l Hcp Hl) as (st' & σ & y & Hrun & Hy & Hi & Hf).
  exists st', σ, y. destruct Hi as (Hlen & Ho & Hk & Hj & Hp & _).
  split_and!; [done|done|done| |done].
  intros x y' Hy'. destruct (Hk x y' Hy') as [_ Hb]. split; [lia|]. split.
  - unfold pnames. rewrite Hp. apply (pnames_fresh st0 y' (proj1 Hcp)). lia.
  - by apply Hf.
Qed.

(** ** Witnesses on the sample tree *)

Lemma copy_node_roundtrip_witness :
  copy_node 2 sample_tree =
    (set_heap (heap sample_tree ++ [[("__path__", VAtom (AStr "root.common.engine"));
                                      ("port", VAtom (AInt 8080))]]) sample_tree, inr 5) /\
  pnames (set_heap (heap sample_tree ++ [[("__path__", VAtom (AStr "root.common.engine"));
                                           ("port", VAtom (AInt 8080))]]) sample_tree) 5 = ∅.
Proof. apply (copy_node_roundtrip sample_tree 2); [vm_decide|reflexivity|vm_decide]. Defined.

Lemma deepcopy_copies_graph_witness :
  copyable sample_tree /\ 1 < length (heap sample_tree) /\
  exists st' (σ : memo) y,
    deepcopy_node 5 1 sample_tree = (st', inr (VRef y)) /\ σ !! 1 = Some y /\
    (forall x y', σ !! x = Some y' -> 5 <= y' /\ pnames st' y' = ∅).
Proof.
  split; [vm_decide|]. split; [simpl; lia|].
  destruct (deepcopy_copies_graph sample_tree 1) as (st' & σ & y & Hrun & Hy & _ & Hc & _);
    [vm_decide|simpl; lia|].
  exists st', σ, y. split_and!; [exact Hrun|exact Hy|]. intros x y' Hx.
  destruct (Hc x y' Hx) as (H1 & H2 & _). by split.
Defined.

End Copy.
