(* ===== verification/AbstractStore.v ===== *)
(** * The node store of the specification, and its refinement by [Config]

    The specification describes a configuration node by its path, its
    children (a mapping from local names to leaves or nodes) and, in its
    design notes (section 9), the set of protected names as a field of
    the node rather than a side table.  Module [AbstractStore] writes
    that description down as an executable model: an abstract store
    [astate] maps node identities to [anode] records, and the three
    operations of the contract of section 4.1 ([setChild], [child],
    [protect]) are functions on it, with [ProtectedWriteError] as a value.

    The abstraction [alpha] reads a concrete [PyModel.state] as an
    abstract store: the [__dict__] of each object without its [__path__]
    entry are the children, [__path__] is the path, and [__protected__]
    gives the protected names ([pnames], so the keys the [defaultdict]
    inserts with an empty set are invisible).  The theorem
    [config_refines_store] shows that [Config.__setattr__], attribute
    lookup and [Config.protect] implement the abstract operations:
    each concrete step maps under [alpha] to the abstract step, errors
    included, under the conditions the code needs and the specification
    does not state (a string [__path__], a name that is not special for
    Python's lookup, and, for lookup, a name not protected on the node). *)

From stdpp Require Import base list strings gmap.
From S2P Require Import Prelude PyModel ConfigNode WellFormed.

Set Warnings "-register-all -clear-no-such-hyp".

Module AbstractStore.
Import Config WellFormed.

(** ** The abstract store *)

Record anode := mk_anode {
  a_path : string;
  a_children : gmap string val;
  a_prot : gset string
}.

Abbreviation astate := (gmap loc anode).

(** The errors of the contract of section 4.1. *)
Inductive aerr := ProtectedWriteError | NoSuchNode.

Definition set_children (c : gmap string val) (nd : anode) : anode :=
  mk_anode (a_path nd) c (a_prot nd).

(** [setChild(name, value)]: refused on a protected name, otherwise the
    value replaces any previous one. *)
Definition a_set_child (l : loc) (name : string) (v : val) (A : astate) : aerr + astate :=
  match A !! l with
  | None => inl NoSuchNode
  | Some nd =>
      if decide (name ∈ a_prot nd) then inl ProtectedWriteError
      else inr (<[l := set_children (<[name := v]> (a_children nd)) nd]> A)
  end.

(** [child(name)]: the existing child, or a new empty node [fresh] with
    path [self.path + "." + name], stored under [name]. *)
Definition a_child (l : loc) (name : string) (fresh : loc) (A : astate) : aerr + (astate * val) :=
  match A !! l with
  | None => inl NoSuchNode
  | Some nd =>
      match a_children nd !! name with
      | Some v => inr (A, v)
      | None =>
          inr (<[fresh := mk_anode (a_path nd +:+ "." +:+ name) ∅ ∅]>
                 (<[l := set_children (<[name := VRef fresh]> (a_children nd)) nd]> A),
               VRef fresh)
      end
  end.

(** [protect(names...)]: the names join the node's protected set. *)
Definition a_protect (l : loc) (names : list string) (A : astate) : aerr + astate :=
  match A !! l with
  | None => inl NoSuchNode
  | Some nd => inr (<[l := mk_anode (a_path nd) (a_children nd) (a_prot nd ∪ list_to_set names)]> A)
  end.

(** ** The abstraction of a concrete state *)

Definition path_str (d : dict) : string :=
  match assoc_get "__path__" d with Some (VAtom (AStr p)) => p | _ => "" end.

Definition node_of (st : state) (l : loc) (d : dict) : anode :=
  mk_anode (path_str d) (delete "__path__" (list_to_map d)) (pnames st l).

Definition alpha (st : state) : astate :=
  map_imap (fun l d => Some (node_of st l d)) (map_seq 0 (heap st)).

(** ** Lemmas on the abstraction *)

Lemma alpha_lookup st l : alpha st !! l = node_of st l <$> heap st !! l.
Proof. unfold alpha. rewrite map_lookup_imap, lookup_map_seq_0. by destruct (heap st !! l). Qed.

Lemma list_to_map_assoc_set k v (d : dict) :
  list_to_map (assoc_set k v d) =@{gmap string val} <[k := v]> (list_to_map d).
Proof.
  induction d as [|[k' v'] d IH]; simpl; [done|]. case_decide as Hk.
  - subst. simpl. by rewrite insert_insert_eq.
  - simpl. rewrite IH. by apply insert_insert_ne.
Qed.

Lemma list_to_map_lookup k (d : dict) : (list_to_map d : gmap string val) !! k = assoc_get k d.
Proof.
  induction d as [|[k' v'] d IH]; simpl; [done|]. case_decide as Hk.
  - subst. apply lookup_insert_eq.
  - rewrite lookup_insert_ne by done. apply IH.
Qed.

Lemma path_str_set name v d : name <> "__path__" -> path_str (assoc_set name v d) = path_str d.
Proof. intros Hn. unfold path_str. by rewrite assoc_get_set_ne. Qed.

Lemma node_of_set st st' l name v d :
  name <> "__path__" -> pnames st' l = pnames st l ->
  node_of st' l (assoc_set name v d) = set_children (<[name := v]> (a_children (node_of st l d))) (node_of st l d).
Proof.
  intros Hn Hp. unfold node_of, set_children. simpl. rewrite path_str_set, Hp by done.
  f_equal. by rewrite list_to_map_assoc_set, delete_insert_ne by congruence.
Qed.

Lemma alpha_same_heap st st' :
  heap st' = heap st -> (forall l, pnames st' l = pnames st l) -> alpha st' = alpha st.
Proof.
  intros Hh Hp. apply map_eq. intros k. rewrite !alpha_lookup, Hh.
  destruct (heap st !! k); simpl; [|done]. unfold node_of. by rewrite Hp.
Qed.

(** Writing [d'] into the dict of [l] is the abstract update of [l]. *)
Lemma alpha_store st st' l d' :
  l < length (heap st) -> heap st' = <[l := d']> (heap st) ->
  (forall l, pnames st' l = pnames st l) ->
  alpha st' = <[l := node_of st l d']> (alpha st).
Proof.
  intros Hl Hh Hp. apply map_eq. intros k. rewrite alpha_lookup, Hh.
  destruct (decide (k = l)) as [->|Hne].
  - rewrite list_lookup_insert_eq, lookup_insert_eq by done. simpl. unfold node_of. by rewrite Hp.
  - rewrite list_lookup_insert_ne, lookup_insert_ne, alpha_lookup by done.
    destruct (heap st !! k); simpl; [|done]. unfold node_of. by rewrite Hp.
Qed.

Lemma alpha_alloc st st' d' :
  heap st' = heap st ++ [d'] -> (forall l, pnames st' l = pnames st l) ->
  alpha st' = <[length (heap st) := node_of st (length (heap st)) d']> (alpha st).
Proof.
  intros Hh Hp. apply map_eq. intros k. rewrite alpha_lookup, Hh.
  destruct (decide (k = length (heap st))) as [->|Hne].
  - rewrite lookup_app_r, Nat.sub_diag, lookup_insert_eq by lia. simpl. unfold node_of. by rewrite Hp.
  - rewrite lookup_insert_ne, alpha_lookup by done. rewrite lookup_app.
    destruct (heap st !! k) eqn:E; simpl; [unfold node_of; by rewrite Hp|].
    apply lookup_ge_None in E. by destruct (k - length (heap st)) eqn:?; [lia|].
Qed.

Lemma a_node st l d : heap st !! l = Some d -> alpha st !! l = Some (node_of st l d).
Proof. intros Hd. by rewrite alpha_lookup, Hd. Qed.

(** ** The concrete operations refine the abstract ones *)

Lemma refine_setattr_ok st l d name v :
  heap st !! l = Some d -> name ∉ pnames st l -> name ∉ data_descriptors -> name <> "__path__" ->
  exists st', setattr l name v st = (st', inr tt) /\ a_set_child l name v (alpha st) = inr (alpha st').
Proof.
  intros Hd Hn Hdd Hp. eexists. split; [by apply setattr_run_ok|].
  unfold a_set_child. rewrite (a_node _ _ _ Hd). simpl. rewrite decide_False by done.
  f_equal. symmetry. rewrite (alpha_store st _ l (assoc_set name v d)); [|by eapply lookup_lt_Some|done|].
  - by rewrite (node_of_set st st).
  - intros l'. by rewrite pnames_set_heap, touch_pnames.
Qed.

Lemma refine_setattr_protected st l d p name v :
  heap st !! l = Some d -> assoc_get "__path__" d = Some (VAtom (AStr p)) -> name ∈ pnames st l ->
  setattr l name v st = (touch l st, inl (AttributeError (protected_msg p name))) /\
  a_set_child l name v (alpha st) = inl ProtectedWriteError /\ alpha (touch l st) = alpha st.
Proof.
  intros Hd Hp Hn. split_and!; [by apply (setattr_run_protected l name v st d p)| |].
  - unfold a_set_child. rewrite (a_node _ _ _ Hd). simpl. by rewrite decide_True.
  - apply alpha_same_heap; [apply touch_heap|intros l'; apply touch_pnames].
Qed.

Lemma refine_getattr_found st l d name v :
  heap st !! l = Some d -> assoc_get name d = Some v -> name ∉ data_descriptors -> name <> "__path__" ->
  getattr l name st = (st, inr (AVal v)) /\ a_child l name (length (heap st)) (alpha st) = inr (alpha st, v).
Proof.
  intros Hd Hv Hdd Hp. split; [apply getattr_found; [unfold attr_of; by rewrite Hd|done]|].
  unfold a_child. rewrite (a_node _ _ _ Hd). simpl.
  by rewrite lookup_delete_ne, list_to_map_lookup, Hv by congruence.
Qed.

Lemma refine_getattr_missing st l d p name :
  wf st -> heap st !! l = Some d -> assoc_get "__path__" d = Some (VAtom (AStr p)) ->
  assoc_get name d = None -> child_name name -> name <> "__path__" -> name ∉ pnames st l ->
  exists st', getattr l name st = (st', inr (AVal (VRef (length (heap st))))) /\
    a_child l name (length (heap st)) (alpha st) = inr (alpha st', VRef (length (heap st))).
Proof.
  intros Hwf Hd Hp Hn Hc Hpp Hpn. pose proof (wf_fresh st Hwf) as Hfree.
  assert (Hl : l < length (heap st)) by (eapply lookup_lt_Some; eauto).
  eexists. rewrite getattr_missing with (d := d) by done.
  split; [by apply (getattr_hook_run l name st d p)|].
  unfold a_child. rewrite (a_node _ _ _ Hd). simpl.
  rewrite lookup_delete_ne, list_to_map_lookup, Hn by congruence. f_equal. f_equal.
  set (new := [("__path__", VAtom (AStr (p +:+ "." +:+ name)))]).
  set (mid := set_heap (heap st ++ [new]) (touch l (touch (length (heap st)) st))).
  assert (Hpm : forall l', pnames mid l' = pnames st l')
    by (intros l'; unfold mid; by rewrite pnames_set_heap, !touch_pnames).
  rewrite (alpha_store mid (set_heap (<[l := assoc_set name (VRef (length (heap st))) d]>
                                   (heap st ++ [new])) (touch l (touch (length (heap st)) st)))
             l (assoc_set name (VRef (length (heap st))) d));
    [|simpl; rewrite length_app; simpl; lia|reflexivity|intros; reflexivity].
  rewrite (alpha_alloc st mid new) by done.
  rewrite insert_insert_ne by lia. f_equal.
  - by rewrite (node_of_set st mid) by (done || apply Hpm).
  - f_equal. unfold node_of, path_str. rewrite Hp. simpl.
    rewrite delete_insert_eq, delete_empty. unfold pnames. by rewrite Hfree.
Qed.

Lemma refine_protect st l d names :
  heap st !! l = Some d ->
  exists st', protect l names st = (st', inr tt) /\ a_protect l names (alpha st) = inr (alpha st').
Proof.
  intros Hd. eexists. split; [apply protect_run|].
  unfold a_protect. rewrite (a_node _ _ _ Hd). simpl. f_equal. symmetry.
  apply map_eq. intros k. rewrite !alpha_lookup. simpl. rewrite touch_heap.
  destruct (decide (k = l)) as [->|Hne].
  - rewrite lookup_insert_eq, Hd. simpl. unfold node_of, pnames. simpl. by rewrite lookup_insert_eq.
  - rewrite lookup_insert_ne, alpha_lookup by done. destruct (heap st !! k); simpl; [|done].
    unfold node_of, pnames. simpl. rewrite lookup_insert_ne by done. fold (pnames (touch l st) k).
    by rewrite touch_pnames.
Qed.

(** C33: [Config] refines the node store of the specification.  On a
    node [l] with a string path in a well-formed state: assignment of a
    name other than a data descriptor and [__path__] is the abstract
    [setChild] read through [alpha], raising [AttributeError] exactly when
    the abstract operation gives [ProtectedWriteError], then leaving the
    abstract store unchanged; lookup of a name that is not special and not
    protected on the node is the abstract [child], the new node getting
    the next location; and [protect] is the abstract [protect]. *)
Theorem config_refines_store st l d p :
  wf st -> heap st !! l = Some d -> assoc_get "__path__" d = Some (VAtom (AStr p)) ->
  (forall name v, name ∉ data_descriptors -> name <> "__path__" ->
     match a_set_child l name v (alpha st) with
     | inr A' => exists st', setattr l name v st = (st', inr tt) /\ alpha st' = A'
     | inl e => exists st' msg, setattr l name v st = (st', inl (AttributeError msg)) /\
                  e = ProtectedWriteError /\ alpha st' = alpha st
     end) /\
  (forall name, child_name name -> name <> "__path__" -> name ∉ pnames st l ->
     exists st' v, getattr l name st = (st', inr (AVal v)) /\
       a_child l name (length (heap st)) (alpha st) = inr (alpha st', v)) /\
  (forall names, exists st', protect l names st = (st', inr tt) /\
       a_protect l names (alpha st) = inr (alpha st')).
Proof.
  intros Hwf Hd Hp. split_and!.
  - intros name v Hdd Hpp. destruct (decide (name ∈ pnames st l)) as [Hin|Hnin].
    + destruct (refine_setattr_protected st l d p name v Hd Hp Hin) as (Hrun & -> & Ha). eauto.
    + destruct (refine_setattr_ok st l d name v Hd Hnin Hdd Hpp) as (st' & Hrun & ->). eauto.
  - intros name Hc Hpp Hpn. destruct (assoc_get name d) as [v|] eqn:Hv.
    + exists st, v. apply (refine_getattr_found st l d); [done|done|apply Hc|done].
    + destruct (refine_getattr_missing st l d p name) as (st' & H1 & H2); [done..|]. eauto.
  - intros names. by apply (refine_protect st l d).
Qed.

Lemma config_refines_store_witness :
  wf sample_tree /\
  (match a_set_child 2 "port" (VAtom (AInt 9)) (alpha sample_tree) with
   | inr A' => exists st', setattr 2 "port" (VAtom (AInt 9)) sample_tree = (st', inr tt) /\ alpha st' = A'
   | inl e => exists st' msg, setattr 2 "port" (VAtom (AInt 9)) sample_tree = (st', inl (AttributeError msg)) /\
                e = ProtectedWriteError /\ alpha st' = alpha sample_tree
   end) /\
  (exists st', protect 2 ["host"] sample_tree = (st', inr tt) /\
     a_protect 2 ["host"] (alpha sample_tree) = inr (alpha st')).
Proof.
  split; [vm_decide|].
  destruct (config_refines_store sample_tree 2
              [("__path__", VAtom (AStr "root.common.engine")); ("port", VAtom (AInt 8080))]
              "root.common.engine") as (Hs & _ & Hpr);
    [vm_decide|reflexivity|reflexivity|].
  split; [apply Hs; vm_decide|apply Hpr].
Defined.

End AbstractStore.
