(* ===== verification/Bootstrap.v ===== *)
(** * The module body of [veles/config.py] (lines 152-154, 178-321)

    Importing [veles.config] builds the root node, installs the built-in
    defaults under [root.common], applies the site overrides, computes
    [root.common.web.templates], reads the directories to create, and
    protects the critical directory settings.  The process environment
    the defaults read ([__root__], [__home__], [sys.stdout.isatty()],
    ...) is a record [env]; an override unit is a Python module that may
    or may not define [update], and its [update] is an arbitrary action
    on the configuration.  [__import__("site_config")] goes through
    Python's module cache [sys.modules]: once a [site_config] module has
    been imported, every later import returns it, whatever directory was
    put in front of [sys.path]. *)

From stdpp Require Import base list strings gmap.
From Stdlib Require Import ZArith Ascii.
From S2P Require Import Prelude PyModel ConfigNode Merge WellFormed.

Set Warnings "-register-all -clear-no-such-hyp".

Module Bootstrap.
Import Config WellFormed.

(** What the defaults read from the process. *)
Record env := mk_env {
  veles_root : string;        (** [veles.paths.__root__] *)
  home : string;              (** [veles.paths.__home__] *)
  stdout_isatty : bool;       (** [sys.stdout.isatty()] *)
  unittest_loaded : bool;     (** ["unittest" in sys.modules] *)
  tracing : bool;             (** [sys.gettrace() is not None] *)
  cpython : bool;             (** [platform.python_implementation() == "CPython"] *)
  cwd : string                (** [os.getcwd()] *)
}.

(** [os.path.join(a, b)] on POSIX. *)
Definition ends_with_slash (s : string) : bool :=
  match String.length s with
  | 0 => false
  | S n => bool_decide (String.get n s = Some "/"%char)
  end.

Definition path_join (a b : string) : string :=
  if String.prefix "/" b then b
  else if bool_decide (a = "") || ends_with_slash a then a +:+ b
  else a +:+ "/" +:+ b.

Definition str (s : string) : val := VAtom (AStr s).
Definition int (z : Z) : val := VAtom (AInt z).
Definition bool_ (b : bool) : val := VAtom (ABool b).

(** The argument of [root.common.update] (lines 178-291).  Tuples, lists,
    the empty set and the lambda are leaves whose only property the
    configuration code can observe is their truth value. *)
Definition defaults (E : env) : dict :=
  [("dirs", VDict [
      ("veles", str (path_join (veles_root E) "veles"));
      ("user", str (home E));
      ("dist_config", str "/etc/default/veles");
      ("help", str "/usr/share/doc/python3-veles");
      ("datasets", str (path_join (home E) "data"));
      ("snapshots", str (path_join (home E) "snapshots"));
      ("cache", str (path_join (home E) "cache"))]);
   ("dependencies", VDict [
      ("basedir", str "/usr/share/veles");
      ("dirname", str ".pip")]);
   ("disable", VDict [
      ("spinning_run_progress", bool_ (negb (stdout_isatty E)));
      ("plotting", bool_ (unittest_loaded E));
      ("snapshotting", bool_ false);
      ("publishing", bool_ false)]);
   ("trace", VDict [
      ("misprints", bool_ false);
      ("undefined_configs", bool_ false);
      ("run", bool_ false)]);
   ("warnings", VDict [("numba", bool_ true)]);
   ("exceptions", VDict [("run_after_stop", bool_ false)]);
   ("mongodb_logging_address", str "127.0.0.1:27017");
   ("graphics", VDict [
      ("multicast_address", str "239.192.1.1");
      ("blacklisted_ifaces", VAtom (AOther "set()" false));
      ("matplotlib", VDict [
         ("backend", str "Qt4Agg");
         ("webagg_port", int 8081)])]);
   ("web", VDict [
      ("host", str "0.0.0.0");
      ("port", int 8080);
      ("log_file", str "/var/log/veles/web_status.log");
      ("log_backups", int 9);
      ("notification_interval", int 1);
      ("pidfile", str "/var/run/veles/web_status");
      ("root", str "/usr/share/veles/web");
      ("drop_time", int (30 * 24 * 3600))]);
   ("api", VDict [
      ("port", int 8180);
      ("path", str "/api")]);
   ("forge", VDict [
      ("service_name", str "service");
      ("upload_name", str "upload");
      ("fetch_name", str "fetch");
      ("manifest", str "manifest.json");
      ("tokens_file", str (path_join (home E) "forge_tokens.txt"));
      ("pending_file", str (path_join (home E) "forge_pending.txt"));
      ("email_templates",
         str (path_join (path_join (path_join (veles_root E) "veles") "forge") "templates"))]);
   ("engine", VDict [
      ("backend", str "auto");
      ("precision_type", str "double");
      ("precision_level", int 0);
      ("test_known_device", bool_ false);
      ("test_unknown_device", bool_ true);
      ("test_precision_types", VAtom (AOther "('float', 'double')" true));
      ("test_precision_levels", VAtom (AOther "(0, 1)" true));
      ("thread_pool", VDict [
         ("minthreads", int 2);
         ("maxthreads", int 2)]);
      ("force_numpy_run_on_intel_opencl", bool_ true);
      ("disable_numba", bool_ (tracing E || negb (cpython E)));
      ("network_compression", if cpython E then VAtom ANone else str "snappy");
      ("source_dirs", VAtom (AOther "source_dirs" true));
      ("device_dirs", VAtom (AOther "device_dirs" true));
      ("ocl", VDict [("clBLAS", bool_ false)]);
      ("cuda", VDict [("nvcc", str "nvcc")])]);
   ("genetics", VDict [("disable", VDict [("plotting", bool_ true)])]);
   ("ensemble", VDict [("disable", VDict [("plotting", bool_ true)])]);
   ("evaluation_transform", VAtom (AOther "<lambda>" true))].

(** An override unit: a module, with its [update] function if it has
    one. *)
Abbreviation site_module := (option (loc -> M unit)).

(** Calling a method found by attribute lookup: [Config.update] and
    [Config.protect] bound to a node.  A leaf stored under the method's
    name in the instance dict shadows the method and is not callable. *)
Definition call_update (a : attr) (value : val) : M unit :=
  match a with
  | ABound (VRef l) "update" => Merge.update l value ;; pret tt
  | ABound _ _ => praise (Unsupported "call of another method")
  | AVal _ => praise (TypeError "object is not callable")
  end.

Definition call_protect (a : attr) (names : list string) : M unit :=
  match a with
  | ABound (VRef l) "protect" => protect l names
  | ABound _ _ => praise (Unsupported "call of another method")
  | AVal _ => praise (TypeError "object is not callable")
  end.

(** [root.a.b...] from the module global [root]. *)
Definition root_path (names : list string) : M attr :=
  st <- pget ;;
  match root st with
  | None => praise (AttributeError "NoneType")
  | Some r => fold_left (fun acc n => a <- acc ;; getattr_attr a n) names (pret (AVal (VRef r)))
  end.

(** A path entry as the import system sees it: only strings are
    searched. *)
Definition as_path (a : attr) : option string :=
  match a with AVal (VAtom (AStr s)) => Some s | _ => None end.

(** [except (ImportError, AttributeError): pass] *)
Definition swallow_import_attr (e : exn) : M unit :=
  match e with
  | ImportError _ | AttributeError _ => pret tt
  | _ => praise e
  end.

(** [<module>.update(root)]: a module without [update] raises
    [AttributeError] at the attribute lookup. *)
Definition site_update (m : site_module) (r : loc) : M unit :=
  match m with
  | Some upd => upd r
  | None => praise (AttributeError "module 'site_config' has no attribute 'update'")
  end.

(** One iteration of the loop of lines 300-308: [__import__("site_config")]
    (found in [sys.modules], or searched on [sys.path] with [dir] in
    front, [ImportError] when no directory has it), then [.update(root)],
    inside [try ... except (ImportError, AttributeError): pass].  [cache]
    is [sys.modules.get("site_config")]; the result is the cache after the
    iteration: an imported module stays in [sys.modules]. *)
Definition import_site_config (finder : option string -> option site_module)
    (cache : option site_module) (dir : option string) (r : loc)
    : M (option site_module) :=
  let found := match cache with Some m => Some m | None => finder dir end in
  ptry (match found with
        | None => praise (ImportError "No module named 'site_config'")
        | Some m => site_update m r
        end) swallow_import_attr ;;
  pret found.

(** The loop of lines 300-308. *)
Fixpoint site_loop (finder : option string -> option site_module)
    (cache : option site_module) (dirs : list (option string)) (r : loc) : M unit :=
  match dirs with
  | [] => pret tt
  | d :: rest =>
      cache' <- import_site_config finder cache d r ;;
      site_loop finder cache' rest r
  end.

(** Lines 294-299: [from veles.site_config import update; update(root)];
    only [ImportError] is caught. *)
Definition veles_site_config (m : option site_module) (r : loc) : M unit :=
  match m with
  | Some (Some upd) =>
      ptry (upd r) (fun e => match e with ImportError _ => pret tt | _ => praise e end)
  | _ => pret tt
  end.

(** Line 310: [root.common.web.templates = os.path.join(root.common.web.root,
    "templates")]; the right side is evaluated first. *)
Definition set_templates : M unit :=
  a <- root_path ["common"; "web"; "root"] ;;
  match a with
  | AVal (VAtom (AStr w)) =>
      t <- root_path ["common"; "web"] ;;
      match t with
      | AVal (VRef l) => setattr l "templates" (str (path_join w "templates"))
      | _ => praise (AttributeError "templates")
      end
  | _ => praise (TypeError "expected str, bytes or os.PathLike object")
  end.

(** [os.path.exists(d)] as far as the configuration can influence it: a
    string is a path (creating the directory touches the file system
    only), an integer or a boolean is a file descriptor (not modelled),
    anything else makes [os.stat] raise [TypeError], which neither
    [os.path.exists] nor the [except OSError] of line 316 catches. *)
Definition check_dir (a : attr) : M unit :=
  match a with
  | AVal (VAtom (AStr _)) => pret tt
  | AVal (VAtom (AInt _)) | AVal (VAtom (ABool _)) => praise (Unsupported "file descriptor")
  | _ => praise (TypeError "stat: path should be string, bytes, os.PathLike or integer")
  end.

(** Lines 311-317: the tuple of directories is read first. *)
Definition check_dirs : M unit :=
  c <- root_path ["common"; "dirs"; "cache"] ;;
  s <- root_path ["common"; "dirs"; "snapshots"] ;;
  d <- root_path ["common"; "dirs"; "datasets"] ;;
  iter_list check_dir [c; s; d].

(** The module body (lines 48-49, 152-154, 178-321). *)
Definition config_module (E : env) (veles_site : option site_module)
    (finder : option string -> option site_module) : M loc :=
  r <- init "root" ;;
  pmodify (set_root (Some r)) ;;
  root_path ["common"] ;;
  u <- root_path ["common"; "update"] ;;
  call_update u (VDict (defaults E)) ;;
  veles_site_config veles_site r ;;
  d1 <- root_path ["common"; "dirs"; "dist_config"] ;;
  d2 <- root_path ["common"; "dirs"; "user"] ;;
  site_loop finder None [as_path d1; as_path d2; Some (cwd E)] r ;;
  set_templates ;;
  check_dirs ;;
  p1 <- root_path ["common"; "protect"] ;;
  call_protect p1 ["pickles_compression"] ;;
  p2 <- root_path ["common"; "dirs"; "protect"] ;;
  call_protect p2 ["veles"; "user"; "snapshots"; "cache"] ;;
  pret r.

(** The same literal with the values computed from the environment as
    parameters: [defaults E] is an instance of it ([defaults_eq]), which
    lets the theorems run the bootstrap on an arbitrary environment. *)
Definition defaults_with (s_veles s_user s_datasets s_snapshots s_cache s_tokens s_pending s_email : string)
    (b_spin b_plot b_numba : bool) (a_nc : atom) : dict :=
  [("dirs", VDict [
      ("veles", str s_veles);
      ("user", str s_user);
      ("dist_config", str "/etc/default/veles");
      ("help", str "/usr/share/doc/python3-veles");
      ("datasets", str s_datasets);
      ("snapshots", str s_snapshots);
      ("cache", str s_cache)]);
   ("dependencies", VDict [
      ("basedir", str "/usr/share/veles");
      ("dirname", str ".pip")]);
   ("disable", VDict [
      ("spinning_run_progress", bool_ b_spin);
      ("plotting", bool_ b_plot);
      ("snapshotting", bool_ false);
      ("publishing", bool_ false)]);
   ("trace", VDict [
      ("misprints", bool_ false);
      ("undefined_configs", bool_ false);
      ("run", bool_ false)]);
   ("warnings", VDict [("numba", bool_ true)]);
   ("exceptions", VDict [("run_after_stop", bool_ false)]);
   ("mongodb_logging_address", str "127.0.0.1:27017");
   ("graphics", VDict [
      ("multicast_address", str "239.192.1.1");
      ("blacklisted_ifaces", VAtom (AOther "set()" false));
      ("matplotlib", VDict [
         ("backend", str "Qt4Agg");
         ("webagg_port", int 8081)])]);
   ("web", VDict [
      ("host", str "0.0.0.0");
      ("port", int 8080);
      ("log_file", str "/var/log/veles/web_status.log");
      ("log_backups", int 9);
      ("notification_interval", int 1);
      ("pidfile", str "/var/run/veles/web_status");
      ("root", str "/usr/share/veles/web");
      ("drop_time", int (30 * 24 * 3600))]);
   ("api", VDict [
      ("port", int 8180);
      ("path", str "/api")]);
   ("forge", VDict [
      ("service_name", str "service");
      ("upload_name", str "upload");
      ("fetch_name", str "fetch");
      ("manifest", str "manifest.json");
      ("tokens_file", str s_tokens);
      ("pending_file", str s_pending);
      ("email_templates",
         str s_email)]);
   ("engine", VDict [
      ("backend", str "auto");
      ("precision_type", str "double");
      ("precision_level", int 0);
      ("test_known_device", bool_ false);
      ("test_unknown_device", bool_ true);
      ("test_precision_types", VAtom (AOther "('float', 'double')" true));
      ("test_precision_levels", VAtom (AOther "(0, 1)" true));
      ("thread_pool", VDict [
         ("minthreads", int 2);
         ("maxthreads", int 2)]);
      ("force_numpy_run_on_intel_opencl", bool_ true);
      ("disable_numba", bool_ b_numba);
      ("network_compression", VAtom a_nc);
      ("source_dirs", VAtom (AOther "source_dirs" true));
      ("device_dirs", VAtom (AOther "device_dirs" true));
      ("ocl", VDict [("clBLAS", bool_ false)]);
      ("cuda", VDict [("nvcc", str "nvcc")])]);
   ("genetics", VDict [("disable", VDict [("plotting", bool_ true)])]);
   ("ensemble", VDict [("disable", VDict [("plotting", bool_ true)])]);
   ("evaluation_transform", VAtom (AOther "<lambda>" true))].

(** ** Environments and override units used by the theorems *)

(** No [site_config] module anywhere on [sys.path]. *)
Definition no_site : option string -> option site_module := fun _ => None.

(** A [site_config.py] whose [update] is [root.common.web.port = z]. *)
Definition set_web_port (z : Z) : site_module :=
  Some (fun r =>
    c <- getattr r "common" ;;
    w <- getattr_attr c "web" ;;
    match w with
    | AVal (VRef lw) => setattr lw "port" (int z)
    | _ => praise (AttributeError "port")
    end).

(** Three layered override files: one in [/etc/default/veles] setting the
    port to 1, one in the user directory [/home/u/.veles] setting it to
    2, one in the working directory [/work] setting it to 3. *)
Definition layered_finder (dir : option string) : option site_module :=
  match dir with
  | Some d =>
      if bool_decide (d = "/etc/default/veles") then Some (set_web_port 1)
      else if bool_decide (d = "/home/u/.veles") then Some (set_web_port 2)
      else if bool_decide (d = "/work") then Some (set_web_port 3)
      else None
  | None => None
  end.

(** A [site_config.py] whose [update] protects [root.x] and then assigns
    it: the assignment raises the protection error. *)
Definition protected_update (r : loc) : M unit :=
  protect r ["x"] ;; setattr r "x" (int 1).

Definition protected_writer : site_module := Some protected_update.

Definition E_user : env := mk_env "/opt/veles" "/home/u/.veles" true false false true "/work".

Lemma defaults_eq E :
  defaults E =
  defaults_with (path_join (veles_root E) "veles") (home E) (path_join (home E) "data")
    (path_join (home E) "snapshots") (path_join (home E) "cache")
    (path_join (home E) "forge_tokens.txt") (path_join (home E) "forge_pending.txt")
    (path_join (path_join (path_join (veles_root E) "veles") "forge") "templates")
    (negb (stdout_isatty E)) (unittest_loaded E) (tracing E || negb (cpython E))
    (if cpython E then ANone else AStr "snappy").
Proof. unfold defaults, defaults_with. destruct (cpython E); reflexivity. Qed.

(** Replaces the values the defaults compute from the environment by
    variables, so that [vm_compute] runs the bootstrap on them. *)
Ltac boot_generalize E :=
  unfold config_module; rewrite defaults_eq;
  generalize (path_join (path_join (path_join (veles_root E) "veles") "forge") "templates"),
    (path_join (veles_root E) "veles"), (path_join (home E) "forge_tokens.txt"),
    (path_join (home E) "forge_pending.txt"), (path_join (home E) "data"),
    (path_join (home E) "snapshots"), (path_join (home E) "cache");
  generalize (home E), (negb (stdout_isatty E)), (unittest_loaded E),
    (tracing E || negb (cpython E)), (if cpython E then ANone else AStr "snappy"), (cwd E).

(** ** The override loop and the module cache *)

Lemma site_loop_cached finder m dirs r st :
  site_loop finder (Some m) dirs r st =
  iter_list (fun _ => ptry (site_update m r) swallow_import_attr) dirs st.
Proof.
  revert st. induction dirs as [|d rest IH]; intros st; [done|]. simpl.
  unfold import_site_config, pbind at 1 2 3; simpl.
  destruct (ptry (site_update m r) swallow_import_attr st) as [s [e|[]]]; simpl; auto.
Qed.

(** C16: the first override file found is the only one ever used.  Once
    [__import__("site_config")] has found a module for the first entry of
    the loop, every later iteration finds it again in [sys.modules] and
    re-runs its [update]: the finder is never consulted for the user or
    working directory, so later layers never override earlier ones. *)
Theorem site_first_module_reused finder d rest m r st :
  finder d = Some m ->
  site_loop finder None (d :: rest) r st =
  iter_list (fun _ => ptry (site_update m r) swallow_import_attr) (d :: rest) st.
Proof.
  intros Hf. rewrite <- (site_loop_cached finder). simpl.
  unfold import_site_config. rewrite Hf. reflexivity.
Qed.

Lemma site_first_module_reused_witness :
  layered_finder (Some "/etc/default/veles") = Some (set_web_port 1) /\
  site_loop layered_finder None [Some "/etc/default/veles"; Some "/home/u/.veles"; Some "/work"] 0 init_state =
  iter_list (fun _ => ptry (site_update (set_web_port 1) 0) swallow_import_attr)
    [Some "/etc/default/veles"; Some "/home/u/.veles"; Some "/work"] init_state.
Proof. split; [reflexivity|]. apply site_first_module_reused. reflexivity. Defined.

(** C17: the override loop swallows protection errors.  When the
    [update] of a [site_config] module raises [AttributeError] (which is
    what [Config.__setattr__] raises for a protected setting), the
    iteration of lines 303-306 ends normally, keeping whatever the update
    wrote before failing; the same error raised by [veles.site_config]
    (lines 294-299, which only catch [ImportError]) propagates. *)
Theorem site_update_errors_swallowed finder upd d r st st' msg :
  upd r st = (st', inl (AttributeError msg)) ->
  import_site_config finder (Some (Some upd)) d r st = (st', inr (Some (Some upd))) /\
  veles_site_config (Some (Some upd)) r st = (st', inl (AttributeError msg)).
Proof.
  intros H. unfold import_site_config, veles_site_config, pbind, ptry. simpl. by rewrite H.
Qed.

Lemma site_update_errors_swallowed_witness :
  import_site_config no_site (Some protected_writer) None 0 sample_tree =
    (fst (protected_update 0 sample_tree), inr (Some protected_writer)) /\
  veles_site_config (Some protected_writer) 0 sample_tree =
    (fst (protected_update 0 sample_tree), inl (AttributeError (protected_msg "root" "x"))).
Proof. apply site_update_errors_swallowed. vm_compute. reflexivity. Defined.

(** ** Bootstrap without overrides *)

(** C11: for every process environment, importing the module without any
    override file succeeds with the root at the first location; the
    directory settings hold the defaults computed from [__root__] and
    [__home__], [web.templates] is derived from [web.root], and the
    critical directory names and ["pickles_compression"] are protected;
    the resulting state is well formed. *)
Theorem bootstrap_defaults E :
  exists st, config_module E None no_site init_state = (st, inr 0) /\
    root st = Some 0 /\ wf st /\
    path_val st ["common"; "dirs"; "veles"] = Some (str (path_join (veles_root E) "veles")) /\
    path_val st ["common"; "dirs"; "user"] = Some (str (home E)) /\
    path_val st ["common"; "dirs"; "snapshots"] = Some (str (path_join (home E) "snapshots")) /\
    path_val st ["common"; "dirs"; "cache"] = Some (str (path_join (home E) "cache")) /\
    path_val st ["common"; "web"; "templates"] = Some (str "/usr/share/veles/web/templates") /\
    Forall (protected_at st ["common"; "dirs"]) ["veles"; "user"; "snapshots"; "cache"] /\
    protected_at st ["common"] "pickles_compression".
Proof.
  boot_generalize E.
  intros. eexists. split; [vm_compute; reflexivity|].
  match goal with |- context [path_val ?st _] => set (S := st) end.
  split_and!; [reflexivity | unfold S; vm_decide | unfold S; vm_compute; reflexivity.. | |];
    repeat apply List.Forall_cons; try apply List.Forall_nil;
    eexists; (split; [unfold S; vm_compute; reflexivity|]);
    match goal with |- ?P => apply (bool_decide_eq_true_1 P) end; unfold S; vm_compute; reflexivity.
Qed.

(** C18: a protected directory can still be relocated through its
    parent.  Protection is per node: after a bootstrap without overrides,
    a later merge [root.common.update({"dirs": {"dict": True, "cache":
    ...}})] succeeds, respects every protection (the old [dirs] node keeps
    its protected entries), and yet [root.common.dirs] is now a plain dict
    whose ["cache"] is the new directory. *)
Theorem dirs_relocatable E :
  exists st, config_module E None no_site init_state = (st, inr 0) /\
    path_val st ["common"] = Some (VRef 1) /\
    exists st', Merge.update 1 (VDict [("dirs", VDict [("dict", bool_ true); ("cache", str "/tmp/elsewhere")])]) st
      = (st', inr 1) /\
    guarded st st' /\
    path_val st' ["common"; "dirs"] = Some (VDict [("cache", str "/tmp/elsewhere")]).
Proof.
  boot_generalize E.
  intros. eexists. split; [vm_compute; reflexivity|].
  split; [vm_compute; reflexivity|].
  match goal with |- exists st', Merge.update ?c ?v ?st = _ /\ _ =>
    exists (fst (Merge.update c v st)); set (S := st) end.
  split_and!; [unfold S; vm_compute; reflexivity.. | apply Merge.update_respects_guard |].
  unfold S; vm_compute; reflexivity.
Qed.

End Bootstrap.
