(* ===== verification/Logger.v ===== *)
(** * The [Logger] mixin of [src/src/logger.py]

    [Logger.__init__] (lines 16-17) stores in the instance attribute
    [logger_] the logger [logging.getLogger(self.__class__.__name__)],
    and [Logger.log] (lines 19-20) returns it.  [logging.getLogger] keeps
    one logger per name in the manager's [loggerDict] and returns the
    root logger for the empty name and for ["root"]; this store is
    shared by every instance, so two instances whose classes have the
    same [__name__] share one logger object.

    Module [Logger] models the manager's dictionary and the instances
    as an explicit state: [logger_dict] maps names to logger identities
    (the root logger is [0]), and each instance records the [__name__]
    of its class and its [logger_] attribute, absent until [__init__]
    ran.  The theorems describe [log] after [__init__]: the same logger
    for the same class name, distinct loggers for distinct names, and
    [AttributeError] when [__init__] was not run (a subclass overriding
    [__init__] without calling it). *)

From stdpp Require Import base list strings gmap.
From S2P Require Import Prelude PyModel.

Set Warnings "-register-all -clear-no-such-hyp".

Module Logger.

(** ** State *)

Record instance := mk_instance {
  cls_name : string;
  logger_ : option nat
}.

Record lstate := mk_lstate {
  logger_dict : gmap string nat;
  nloggers : nat;
  instances : list instance
}.

Abbreviation LM := (PyM lstate exn).

(** A fresh process: only the root logger exists. *)
Definition lstate_init : lstate := mk_lstate ∅ 1 [].

(** ** Operations *)

(** [logging.getLogger(name)]: the root logger for [""] and ["root"],
    otherwise the logger registered under [name], created on first use. *)
Definition getLogger (name : string) : LM nat :=
  fun s =>
    if decide (name = "" \/ name = "root") then (s, inr 0)
    else match logger_dict s !! name with
         | Some id => (s, inr id)
         | None => (mk_lstate (<[name := nloggers s]> (logger_dict s)) (S (nloggers s)) (instances s),
                    inr (nloggers s))
         end.

(** Creating an instance of a class named [cls] ([object.__new__]),
    before its [__init__] runs. *)
Definition new_instance (cls : string) : LM nat :=
  fun s => (mk_lstate (logger_dict s) (nloggers s) (instances s ++ [mk_instance cls None]),
            inr (length (instances s))).

Definition get_instance (i : nat) : LM instance :=
  fun s => match instances s !! i with
           | Some x => (s, inr x)
           | None => (s, inl (Dangling i))
           end.

(** [Logger.__init__] (lines 16-17). *)
Definition logger_init (i : nat) : LM unit :=
  x <- get_instance i ;;
  lg <- getLogger (cls_name x) ;;
  pmodify (fun s => mk_lstate (logger_dict s) (nloggers s)
                      (<[i := mk_instance (cls_name x) (Some lg)]> (instances s))).

(** [Logger.log] (lines 19-20): [self.logger_], an [AttributeError] when
    the attribute was never set. *)
Definition log (i : nat) : LM nat :=
  x <- get_instance i ;;
  match logger_ x with
  | Some lg => pret lg
  | None => praise (AttributeError ("'" +:+ cls_name x +:+ "' object has no attribute 'logger_'"))
  end.

(** [cls()] for a class deriving from [Logger] that keeps its [__init__]. *)
Definition construct (cls : string) : LM nat :=
  i <- new_instance cls ;; logger_init i ;; pret i.

(** ** What [getLogger] guarantees *)

(** The name [getLogger] files a logger under: [""] for the root. *)
Definition canon (name : string) : string :=
  if decide (name = "" \/ name = "root") then "" else name.

(** The logger [getLogger name] returns in [s] without creating one. *)
Definition lookup_logger (s : lstate) (name : string) : option nat :=
  if decide (name = "" \/ name = "root") then Some 0 else logger_dict s !! name.

(** The manager's dictionary is injective, avoids the root's id [0] and
    the root's names, and stays below the id counter. *)
Definition lstate_ok (s : lstate) : Prop :=
  (forall n id, logger_dict s !! n = Some id -> 1 <= id < nloggers s /\ ~ (n = "" \/ n = "root")) /\
  (forall n1 n2 id, logger_dict s !! n1 = Some id -> logger_dict s !! n2 = Some id -> n1 = n2) /\
  1 <= nloggers s.

(** Two instances of classes named [c1] and [c2], constructed in turn,
    then asked for their loggers. *)
Definition two_loggers (c1 c2 : string) : LM (nat * nat) :=
  i1 <- construct c1 ;; i2 <- construct c2 ;;
  l1 <- log i1 ;; l2 <- log i2 ;; pret (l1, l2).

Lemma lstate_init_ok : lstate_ok lstate_init.
Proof. split_and!; [intros ? ? H|intros ? ? ? H|]; done. Qed.

Lemma getLogger_spec name s :
  lstate_ok s ->
  exists s' id, getLogger name s = (s', inr id) /\ lstate_ok s' /\
    lookup_logger s' name = Some id /\
    (forall n x, lookup_logger s n = Some x -> lookup_logger s' n = Some x) /\
    instances s' = instances s.
Proof.
  intros (Hb & Hi & Hn). unfold getLogger, lookup_logger. case_decide as Hr.
  - exists s, 0. split_and!; try done; by rewrite decide_True.
  - destruct (logger_dict s !! name) as [id|] eqn:E.
    + exists s, id. split_and!; try done; by rewrite decide_False.
    + eexists _, (nloggers s). split_and!; [reflexivity| |simpl; by rewrite lookup_insert_eq| |done].
      * split_and!; simpl.
        -- intros n id. rewrite lookup_insert_Some. intros [[<- <-]|[_ Hn']]; [split; [lia|done]|].
           apply Hb in Hn' as [? ?]. split; [lia|done].
        -- intros n1 n2 id. rewrite !lookup_insert_Some.
           intros [[<- <-]|[H1 E1]] [[<- E2]|[H2 E2]]; try done;
             [apply Hb in E2|apply Hb in E1|by eapply Hi]; lia.
        -- lia.
      * intros n x. simpl. case_decide; [done|]. intros Hx. rewrite lookup_insert_ne; [done|congruence].
Qed.

Lemma lookup_logger_inj s n1 n2 x :
  lstate_ok s -> lookup_logger s n1 = Some x -> lookup_logger s n2 = Some x -> canon n1 = canon n2.
Proof.
  intros (Hb & Hi & _). unfold lookup_logger, canon.
  case_decide as H1; case_decide as H2; try congruence.
  - intros [= <-] E. apply Hb in E. lia.
  - intros E [= <-]. apply Hb in E. lia.
  - intros E1 E2. by apply (Hi n1 n2 x).
Qed.

Lemma lookup_logger_canon s n1 n2 : canon n1 = canon n2 -> lookup_logger s n1 = lookup_logger s n2.
Proof. unfold canon, lookup_logger. intros E. repeat case_decide; subst; naive_solver. Qed.

Lemma lstate_ok_instances s xs :
  lstate_ok s -> lstate_ok (mk_lstate (logger_dict s) (nloggers s) xs).
Proof. done. Qed.

Lemma construct_spec c s :
  lstate_ok s ->
  exists s' i id, construct c s = (s', inr i) /\ lstate_ok s' /\
    instances s' !! i = Some (mk_instance c (Some id)) /\ lookup_logger s' c = Some id /\
    (forall n x, lookup_logger s n = Some x -> lookup_logger s' n = Some x) /\
    (forall j x, instances s !! j = Some x -> instances s' !! j = Some x).
Proof.
  intros Hok. set (s1 := mk_lstate (logger_dict s) (nloggers s) (instances s ++ [mk_instance c None])).
  destruct (getLogger_spec c s1 Hok) as (s2 & id & Hget & Hok2 & Hl2 & Hext & Hins).
  assert (Hi1 : instances s1 !! length (instances s) = Some (mk_instance c None))
    by (simpl; rewrite lookup_app_r, Nat.sub_diag by lia; done).
  eexists _, (length (instances s)), id.
  split_and!.
  - unfold construct, logger_init, get_instance, new_instance, pbind. fold s1. rewrite Hi1. simpl.
    rewrite Hget. reflexivity.
  - by apply lstate_ok_instances.
  - simpl. rewrite Hins. apply list_lookup_insert_eq. unfold s1. simpl. rewrite length_app. simpl. lia.
  - done.
  - intros n x Hx. apply Hext. done.
  - intros j x Hj. simpl. rewrite Hins. assert (j < length (instances s)) by (eapply lookup_lt_Some; eauto).
    rewrite list_lookup_insert_ne by lia. unfold s1. simpl. by rewrite lookup_app_l.
Qed.

(** ** The loggers of instances *)

(** C34: loggers are shared by class name.  Two instances constructed
    in turn get from [log] the same logger exactly when their classes
    have the same [__name__] (the names [""] and ["root"] both meaning
    the root logger), whatever module the classes come from; and [log]
    on an instance whose [__init__] never ran raises [AttributeError]. *)
Theorem log_per_class_name s c1 c2 :
  lstate_ok s ->
  (exists s' l1 l2, two_loggers c1 c2 s = (s', inr (l1, l2)) /\ (l1 = l2 <-> canon c1 = canon c2)) /\
  (forall c, snd ((i <- new_instance c ;; log i) s) =
             inl (AttributeError ("'" +:+ c +:+ "' object has no attribute 'logger_'"))).
Proof.
  intros Hok. split.
  - destruct (construct_spec c1 s Hok) as (s1 & i1 & id1 & Hc1 & Hok1 & Hi1 & Hl1 & _ & _).
    destruct (construct_spec c2 s1 Hok1) as (s2 & i2 & id2 & Hc2 & Hok2 & Hi2 & Hl2 & Hext & Hins).
    exists s2, id1, id2. split.
    + unfold two_loggers. rewrite (run_bind_ok _ _ _ _ _ Hc1), (run_bind_ok _ _ _ _ _ Hc2).
      unfold log, get_instance, pbind. rewrite (Hins _ _ Hi1). simpl.
      by rewrite Hi2.
    + apply Hext in Hl1. split.
      * intros <-. by eapply lookup_logger_inj.
      * intros Hcan. rewrite (lookup_logger_canon s2 c1 c2 Hcan), Hl2 in Hl1. congruence.
  - intros c. unfold new_instance, log, get_instance, pbind. simpl.
    by rewrite lookup_app_r, Nat.sub_diag by lia.
Qed.

Lemma log_per_class_name_witness :
  lstate_ok lstate_init /\
  exists s' l1 l2, two_loggers "Workflow" "Workflow" lstate_init = (s', inr (l1, l2)) /\
    (l1 = l2 <-> canon "Workflow" = canon "Workflow").
Proof.
  split; [apply lstate_init_ok|]. apply (log_per_class_name lstate_init), lstate_init_ok.
Defined.

End Logger.
