(* ===== verification/Frontend.v ===== *)
(** * The front-end generator [veles/scripts/generate_frontend.py]

    The script turns the [argparse] actions of the VELES command line
    into an HTML form.  Module [Frontend] models the parts that compute
    with the actions: [generate_opts] (lines 142-177), which collects
    option names, aliases, choices and defaults for the page's
    JavaScript, [convert_argument] (lines 180-231) with the converters
    it selects (lines 234-297), and the pipeline of [main] (lines 71-79),
    which converts every action, sorts the results and then runs
    [generate_opts] on the same action objects.

    Both functions mutate the actions they are given: [convert_argument]
    rewrites [arg.help], and [generate_opts] strips the dashes of
    [arg.option_strings] in place, through a local variable that keeps
    pointing at the list of the last action with option strings.  The
    actions are therefore a store that the functions thread, and that
    local variable is an index into it.  Python exceptions that the
    script does not catch are values of [fexn].

    The HTML text around the interpolated values is constant; a
    converted argument is the record of the values it interpolates
    ([template]) rather than the text.  Scanning the workflow files
    ([scan_workflows]) is modelled in [Workflows]; writing the page
    only touches the file system and is not modelled.  [sorted] compares two panels with equal
    importance and key by their HTML text; the model sorts with the
    stable [merge_sort] on importance and key alone, which orders every
    other pair as Python does.

    Theorems: [generate_opts_spec] gives the result of [generate_opts]
    on well-formed actions ([good_actions]), by the loop invariant
    [gen_inv] and the step lemma [gen_step_inv]; [generate_opts_errors]
    shows the two crashes of the loop; [convert_argument_help] the
    rewriting of the help text; [frontend_mandatory_first] that the
    sorted page lists mandatory arguments first. *)

From stdpp Require Import base list strings sorting.
From Stdlib Require Import Ascii QArith.
From S2P Require Import Prelude PyModel.

Set Warnings "-register-all -clear-no-such-hyp".
Local Close Scope Q_scope.

Module Frontend.

(** ** Data *)

(** The classes [generate_opts] and [convert_argument] test with
    [isinstance]. *)
Inductive action_kind := StoreTrueAction | StoreAction | OtherAction.

#[export] Instance action_kind_eq_dec : EqDecision action_kind.
Proof. solve_decision. Defined.

(** An [argparse.Action] as the script reads it.  [help = None] is
    argparse's default; [mode], [pretty_name] and [important] are the
    optional attributes read with [getattr]/[hasattr]. *)
Record action := mk_action {
  option_strings : list string;
  dest : string;
  choices : option (list string);
  default : atom;
  kind : action_kind;
  help : option string;
  nargs : option string;
  required : bool;
  mode : option (list string);
  pretty_name : option string;
  important : option Q
}.

(** Uncaught exceptions of the script. *)
Inductive fexn :=
| IndexError
| UnboundLocalError (name : string)
| FTypeError (msg : string).

(** Python code without state of its own: a result or an exception. *)
#[export] Instance fres_ret : MRet (sum fexn) := fun A a => inr a.
#[export] Instance fres_bind : MBind (sum fexn) :=
  fun A B f m => match m with inl e => inl e | inr a => f a end.

(** ** [generate_opts] (lines 142-177) *)

(** [while option[0] == "-": option = option[1:]] (lines 159-160 and
    168-171): indexing an empty string raises [IndexError]. *)
Fixpoint strip_dashes (s : string) : fexn + string :=
  match s with
  | EmptyString => inl IndexError
  | String c rest => if Ascii.eqb c "-"%char then strip_dashes rest else inr s
  end.

(** The string has a character other than ["-"]: stripping its dashes
    succeeds. *)
Definition strip_ok (s : string) : bool :=
  match strip_dashes s with inr _ => true | inl _ => false end.

(** The loop of lines 166-172 over the pairs of [option_strings]: each
    element is stripped in place, then [alias[os[i]] = os[i + 1]]; an
    odd element out makes [os[i + 1]] raise [IndexError].  The result
    is the mutated list and the alias dict. *)
Fixpoint alias_pairs (os : list string) (alias : list (string * string))
    : fexn + (list string * list (string * string)) :=
  match os with
  | [] => inr ([], alias)
  | [x] => _ ← strip_dashes x; inl IndexError
  | x :: y :: rest =>
      x' ← strip_dashes x;
      y' ← strip_dashes y;
      '(rest', alias') ← alias_pairs rest (assoc_set x' y' alias);
      inr (x' :: y' :: rest', alias')
  end.

(** The locals of [generate_opts] and the action store.  [optref] is the
    action whose [option_strings] list the local [option_strings] refers
    to ([None] while it is unbound). *)
Record gstate := mk_gstate {
  actions : list action;
  string_arguments : list string;
  boolean_arguments : list string;
  positional_opts : list string;
  alias : list (string * string);
  choices_of : list (string * list string);
  defaults_of : list (string * atom);
  optref : option nat
}.

Definition gstate_init (acts : list action) : gstate :=
  mk_gstate acts [] [] [] [] [] [] None.

Definition set_option_strings (os : list string) (a : action) : action :=
  mk_action os (dest a) (choices a) (default a) (kind a) (help a) (nargs a)
    (required a) (mode a) (pretty_name a) (important a).

(** [option_strings[:2][-1]] of a non-empty list. *)
Definition second_or_first (os : list string) : string :=
  match last (take 2 os) with Some o => o | None => "" end.

(** One iteration of the loop of lines 149-172, on the action at index
    [i] of the store. *)
Definition gen_step (g : gstate) (i : nat) : fexn + gstate :=
  match actions g !! i with
  | None => inr g
  | Some arg =>
      let '(oref, option, pos) :=
        match option_strings arg with
        | [] => (optref g, dest arg, positional_opts g ++ [dest arg])
        | os => (Some i, second_or_first os, positional_opts g)
        end in
      let ch := match choices arg with
                | Some c => assoc_set option c (choices_of g)
                | None => choices_of g
                end in
      let df := assoc_set option (default arg) (defaults_of g) in
      option' ← strip_dashes option;
      let bs := if decide (kind arg = StoreTrueAction)
                then boolean_arguments g ++ [option'] else boolean_arguments g in
      let ss := if decide (kind arg = StoreAction)
                then string_arguments g ++ [option'] else string_arguments g in
      match oref with
      | None => inl (UnboundLocalError "option_strings")
      | Some j =>
          match actions g !! j with
          | Some aj =>
              if decide (1 < length (option_strings aj)) then
                '(os', al) ← alias_pairs (option_strings aj) (alias g);
                inr (mk_gstate (<[j := set_option_strings os' aj]> (actions g)) ss bs pos al ch df
                       oref)
              else inr (mk_gstate (actions g) ss bs pos (alias g) ch df oref)
          | None => inr (mk_gstate (actions g) ss bs pos (alias g) ch df oref)
          end
      end
  end.

Fixpoint gen_loop (g : gstate) (idx : list nat) : fexn + gstate :=
  match idx with
  | [] => inr g
  | i :: rest => g' ← gen_step g i; gen_loop g' rest
  end.

(** [generate_opts(arguments)]: the final locals hold [opts] (lines
    173-176: [string_arguments], [alias], [boolean_arguments] and
    [stopEarly = True]), [positional_opts], [choices] and [defaults];
    the store holds the mutated actions. *)
Definition generate_opts (acts : list action) : fexn + gstate :=
  gen_loop (gstate_init acts) (seq 0 (length acts)).

(** ** What [generate_opts] computes on well-formed actions *)

(** [option.lstrip("-")] where stripping succeeds. *)
Definition strip_total (s : string) : string :=
  match strip_dashes s with inr s' => s' | inl _ => s end.

(** The local [option] before stripping (lines 150-155). *)
Definition raw_name (a : action) : string :=
  match option_strings a with [] => dest a | os => second_or_first os end.

(** The name under which an action appears in [opts]. *)
Definition opt_name (a : action) : string := strip_total (raw_name a).

(** An action after the loop: its option strings stripped in place when
    it has more than one. *)
Definition strip_action (a : action) : action :=
  if decide (1 < length (option_strings a)) then
    set_option_strings (map strip_total (option_strings a)) a
  else a.

(** The inputs the loop handles: the first action has option strings,
    every name and option string has a character other than ["-"], and
    no action has an odd number of option strings above one. *)
Definition good_actions (acts : list action) : bool :=
  match acts with a :: _ => negb (bool_decide (option_strings a = [])) | [] => true end &&
  forallb (fun a => strip_ok (raw_name a) &&
                    forallb strip_ok (option_strings a) &&
                    ((length (option_strings a) <=? 1) || Nat.even (length (option_strings a))))
    acts.

(** The state of the loop after [k] well-formed actions: the first [k]
    actions of the store are stripped, the lists hold their names, and
    the local [option_strings] refers to an earlier action with option
    strings. *)
Definition gen_inv (acts : list action) (k : nat) (g : gstate) : Prop :=
  actions g = map strip_action (take k acts) ++ drop k acts /\
  boolean_arguments g = map opt_name (filter (fun a => kind a = StoreTrueAction) (take k acts)) /\
  string_arguments g = map opt_name (filter (fun a => kind a = StoreAction) (take k acts)) /\
  positional_opts g = map dest (filter (fun a => option_strings a = []) (take k acts)) /\
  match optref g with
  | None => k = 0
  | Some j => j < k /\ exists aj, acts !! j = Some aj /\ option_strings aj <> []
  end.

(** ** [convert_argument] (lines 180-231) and its converters *)

(** [sep.join(xs)] *)
Fixpoint join (sep : string) (xs : list string) : string :=
  match xs with
  | [] => ""
  | [x] => x
  | x :: rest => x +:+ sep +:+ join sep rest
  end.

(** [c.capitalize()] on a one-character ASCII string. *)
Definition ascii_upper (c : ascii) : ascii :=
  let n := nat_of_ascii c in
  if (97 <=? n)%nat && (n <=? 122)%nat then ascii_of_nat (n - 32) else c.

(** [s.replace("%%", "%")]: non-overlapping occurrences, left to right. *)
Fixpoint replace_pct (s : string) : string :=
  match s with
  | String c rest =>
      if Ascii.eqb c "%" then
        match rest with
        | String c2 rest2 =>
            if Ascii.eqb c2 "%" then String "%" (replace_pct rest2)
            else String c (replace_pct rest)
        | EmptyString => s
        end
      else String c (replace_pct rest)
  | EmptyString => EmptyString
  end.

(** [s[-1] != '.'] on a non-empty string. *)
Definition ends_with_dot (s : string) : bool :=
  match String.get (String.length s - 1) s with
  | Some c => Ascii.eqb c "."
  | None => false
  end.

(** Lines 186-190 on a non-empty help text. *)
Definition normalize_help (h : string) : string :=
  let h1 := if ends_with_dot h then h else h +:+ "." in
  let h2 := match h1 with
            | String c rest => String (ascii_upper c) rest
            | EmptyString => EmptyString
            end in
  replace_pct h2.

(** The control a converter renders (lines 234-297): its interpolated
    values. *)
Inductive arg_line :=
| LineWorkflow (dest modes : string) (default : atom) (option_strings : string)
| LineString (dest modes : string) (default : atom) (option_strings : string)
| LineBoolean (modes : string) (checked : bool) (option_strings : string)
| LineChoices (modes option_strings : string) (default : atom) (choices : list string)
| LineEmpty.

(** The values the panel of lines 216-230 interpolates. *)
Record template := mk_template {
  t_modes : string;
  t_importance_class : string;
  t_importance : string;
  t_title : string;
  t_help : string;
  t_line : arg_line
}.

Definition set_help (h : string) (a : action) : action :=
  mk_action (option_strings a) (dest a) (choices a) (default a) (kind a) (Some h) (nargs a)
    (required a) (mode a) (pretty_name a) (important a).

(** The sort key and panel of one action, and the action with its
    rewritten [help] (the assignment of lines 187-190). *)
Definition convert_argument (index : nat) (arg : action)
    : fexn + (Q * string * template * action) :=
  let index := S index in
  let req := required arg && negb (bool_decide (nargs arg = Some "*")) in
  h ← match help arg with
      | None => inl (FTypeError "object of type 'NoneType' has no len()")
      | Some h => inr (if bool_decide (h = "") then h else normalize_help h)
      end;
  let modes := join " " (match mode arg with
                         | Some m => m
                         | None => ["standalone"; "master"; "slave"]
                         end) in
  let '(title, key, ostr) :=
    match option_strings arg with
    | [] => let t := match pretty_name arg with Some t => t | None => dest arg end in
            (t, t, dest arg)
    | os => (join ", " os, match last os with Some k => k | None => "" end,
             second_or_first os)
    end in
  let line :=
    if bool_decide (dest arg = "workflow") then LineWorkflow (dest arg) modes (default arg) ostr
    else match choices arg with
         | Some cs => LineChoices modes ostr (default arg) cs
         | None =>
             match kind arg with
             | StoreTrueAction => LineBoolean modes (truthy (VAtom (default arg))) ostr
             | StoreAction => LineString (dest arg) modes (default arg) ostr
             | OtherAction => LineEmpty
             end
         end in
  let imp := match important arg with
             | Some x => (- x) / inject_Z (Z.of_nat index)
             | None => (- (if req then 1 else 0)) / inject_Z (Z.of_nat index)
             end%Q in
  inr (imp, key, mk_template modes (if req then "danger" else "default")
                   (if req then "Mandatory" else "Optional") title h line,
       set_help h arg).

(** ** The pipeline of [main] (lines 71-79) *)

(** The order [sorted] uses on [(imp, key, template_line)]; panels whose
    importance and key are equal are compared by their HTML text, which
    is not modelled ([merge_sort] keeps them in input order). *)
Definition line_le (a b : Q * string * template) : Prop :=
  (a.1.1 < b.1.1)%Q \/ ((a.1.1 == b.1.1)%Q /\ String.leb a.1.2 b.1.2 = true).

#[export] Instance line_le_dec : RelDecision line_le.
Proof.
  intros a b. unfold line_le.
  destruct (Qlt_le_dec a.1.1 b.1.1); [left; by left|].
  destruct (Qeq_dec a.1.1 b.1.1); [|right; intros [?|[? _]]; [by apply (Qlt_not_le _ _ H)|done]].
  destruct (String.leb a.1.2 b.1.2) eqn:E; [left; by right|right; intros [?|[_ ?]]; [|congruence]].
  by apply (Qlt_not_le _ _ H).
Defined.

(** The list comprehension of lines 72-73: [convert_argument] on every
    action with its index, each call rewriting the help of its action in
    the store. *)
Fixpoint convert_all (index : nat) (acts : list action)
    : fexn + (list (Q * string * template) * list action) :=
  match acts with
  | [] => inr ([], [])
  | a :: rest =>
      '(imp, key, t, a') ← convert_argument index a;
      '(lines, rest') ← convert_all (S index) rest;
      inr ((imp, key, t) :: lines, a' :: rest')
  end.

(** Lines 71-79: the sorted panels, then [generate_opts] on the same
    (already converted) actions. *)
Definition frontend_main (acts : list action) : fexn + (list template * gstate) :=
  '(conv, acts') ← convert_all 0 acts;
  let lines := map (fun x => x.2) (merge_sort line_le conv) in
  g ← generate_opts acts';
  inr (lines, g).

(** The sign of an importance without an [important] attribute. *)
Definition imp_sign (x : Q * string * template) : Prop :=
  (t_importance x.2 = "Mandatory" /\ (x.1.1 < 0)%Q) \/
  (t_importance x.2 = "Optional" /\ (x.1.1 == 0)%Q).

(** Two actions that [generate_opts] cannot tell apart: the rewriting
    of [help] by [convert_argument] keeps an action in this relation. *)
Definition same_opts (a b : action) : Prop :=
  option_strings a = option_strings b /\ dest a = dest b /\ kind a = kind b.

(** ** Sample inputs *)

Definition sample_act (os : list string) (d : string) (k : action_kind) (r : bool)
    (h : option string) : action :=
  mk_action os d None ANone k h None r None None None.

(** A parser with [-h/--help], [-v/--verbose], a positional [workflow]
    and [--backend]. *)
Definition sample_actions : list action :=
  [sample_act ["-h"; "--help"] "help" OtherAction false (Some "show this help message and exit");
   sample_act ["-v"; "--verbose"] "verbose" StoreTrueAction false (Some "be verbose");
   sample_act [] "workflow" StoreAction true (Some "path to the workflow%%");
   sample_act ["--backend"] "backend" StoreAction false (Some "Backend.")].

Definition sample_run : list template * gstate :=
  Eval vm_compute in
    match frontend_main sample_actions with
    | inr r => r
    | inl _ => ([], gstate_init [])
    end.

(** ** [generate_opts]: error paths *)

Lemma generate_opts_cons a rest :
  generate_opts (a :: rest) =
    g ← gen_step (gstate_init (a :: rest)) 0; gen_loop g (seq 1 (length rest)).
Proof. reflexivity. Qed.

(** C29: two inputs [generate_opts] cannot handle.  If the first action
    is positional, the local [option_strings] is read before it is ever
    assigned ([UnboundLocalError]); an action with three option strings
    makes the pairwise alias loop read past the end of the list
    ([IndexError]).  Both escape the script. *)
Theorem generate_opts_errors a rest :
  (option_strings a = [] -> strip_ok (dest a) = true ->
   generate_opts (a :: rest) = inl (UnboundLocalError "option_strings")) /\
  (forall x y z, option_strings a = [x; y; z] ->
   forallb strip_ok [x; y; z] = true ->
   generate_opts (a :: rest) = inl IndexError).
Proof.
  rewrite generate_opts_cons. unfold gen_step. simpl. split.
  - intros Hos Hd. rewrite Hos. unfold strip_ok in Hd.
    destruct (strip_dashes (dest a)); [done|reflexivity].
  - intros x y z Hos Hs. rewrite Hos. simpl in Hs. unfold strip_ok in Hs.
    destruct (strip_dashes x) eqn:Ex; [done|]. destruct (strip_dashes y) eqn:Ey; [done|].
    destruct (strip_dashes z) eqn:Ez; [done|].
    unfold second_or_first. simpl. rewrite Ey. simpl. rewrite Hos, (decide_True (P := (1 < length [x; y; z])%nat)) by (simpl; lia).
    simpl. rewrite Ex, Ey, Ez. reflexivity.
Qed.

(** ** [convert_argument]: the help text *)

Lemma replace_pct_head c r : exists r', replace_pct (String c r) = String c r'.
Proof.
  simpl. destruct (Ascii.eqb_spec c "%") as [->|]; [|eauto].
  destruct r as [|c2 r2]; [eauto|]. destruct (Ascii.eqb c2 "%"); eauto.
Qed.

Lemma replace_pct_dot s : replace_pct (s +:+ ".") = replace_pct s +:+ ".".
Proof.
  induction s as [s IH] using (induction_ltof1 _ String.length). unfold ltof in IH.
  destruct s as [|c r]; [reflexivity|]. simpl.
  destruct (Ascii.eqb_spec c "%") as [->|]; [|simpl; rewrite IH by (simpl; lia); done].
  destruct r as [|c2 r2]; [reflexivity|]. simpl.
  destruct (Ascii.eqb c2 "%"); simpl; rewrite IH by (simpl; lia); done.
Qed.

Lemma get_append_dot s : String.get (String.length (s +:+ ".") - 1) (s +:+ ".") = Some "."%char.
Proof.
  induction s as [|c r IH]; [reflexivity|]. simpl in *.
  destruct (String.length (r +:+ ".")) eqn:E; [destruct r; discriminate|].
  simpl in *. rewrite Nat.sub_0_r in IH. done.
Qed.

Lemma ends_with_dot_append s : ends_with_dot (s +:+ ".") = true.
Proof. unfold ends_with_dot. by rewrite get_append_dot. Qed.

Lemma ends_with_dot_inv h : ends_with_dot h = true -> exists s, h = s +:+ ".".
Proof.
  unfold ends_with_dot. induction h as [|c r IH]; [done|].
  destruct r as [|c2 r2].
  - simpl. intros Hc. apply Ascii.eqb_eq in Hc as ->. by exists "".
  - intros H. destruct IH as [s' ->]; [|by exists (String c s')].
    revert H. cbn -[String.get]. rewrite !Nat.sub_0_r. done.
Qed.

Lemma normalize_help_shape h :
  h <> "" ->
  (exists s, normalize_help h = s +:+ ".") /\
  (forall c r, h = String c r -> exists r', normalize_help h = String (ascii_upper c) r').
Proof.
  intros Hne. unfold normalize_help.
  assert (exists s, (if ends_with_dot h then h else h +:+ ".") = s +:+ ".") as [s Hs].
  { destruct (ends_with_dot h) eqn:E; [by apply ends_with_dot_inv|by eexists]. }
  split.
  - rewrite Hs. destruct s as [|c r]; simpl.
    + by exists "".
    + exists (replace_pct (String (ascii_upper c) r)). by rewrite <- replace_pct_dot.
  - intros c r ->. destruct (ends_with_dot (String c r)); simpl; apply replace_pct_head.
Qed.

(** C28: [convert_argument] normalises the help text in place.  Without
    help text ([help=None], argparse's default) it raises [TypeError];
    with a non-empty text it stores and shows the text ending with a
    period, starting with its first character capitalised, and with
    [%%] turned into [%]. *)
Theorem convert_argument_help index arg :
  (help arg = None ->
   convert_argument index arg = inl (FTypeError "object of type 'NoneType' has no len()")) /\
  (forall h, help arg = Some h -> h <> "" ->
   exists imp key t,
     convert_argument index arg = inr (imp, key, t, set_help (normalize_help h) arg) /\
     t_help t = normalize_help h /\
     (exists s, normalize_help h = s +:+ ".") /\
     (forall c r, h = String c r -> exists r', normalize_help h = String (ascii_upper c) r')).
Proof.
  unfold convert_argument. split; [intros ->; reflexivity|].
  intros h Hh Hne. rewrite Hh. simpl. rewrite (bool_decide_false (h = "")) by done.
  destruct (normalize_help_shape h Hne) as [Hdot Hcap].
  destruct (option_strings arg); do 3 eexists; (split; [reflexivity|]); split_and!; done.
Qed.

(** ** The order of the panels *)

Lemma string_compare_lt_trans s1 s2 s3 :
  String.compare s1 s2 = Lt -> String.compare s2 s3 = Lt -> String.compare s1 s3 = Lt.
Proof.
  revert s2 s3. induction s1 as [|c1 r1 IH]; intros [|c2 r2] [|c3 r3]; simpl; try done.
  unfold Ascii.compare.
  destruct (N.compare_spec (N_of_ascii c1) (N_of_ascii c2)) as [E12|L12|];
  destruct (N.compare_spec (N_of_ascii c2) (N_of_ascii c3)) as [E23|L23|]; try done.
  - rewrite E12, E23, N.compare_refl. apply IH.
  - intros _ _. replace (N_of_ascii c1 ?= N_of_ascii c3)%N with Lt; [done|].
    symmetry. apply N.compare_lt_iff. lia.
  - intros _ _. replace (N_of_ascii c1 ?= N_of_ascii c3)%N with Lt; [done|].
    symmetry. apply N.compare_lt_iff. lia.
  - intros _ _. replace (N_of_ascii c1 ?= N_of_ascii c3)%N with Lt; [done|].
    symmetry. apply N.compare_lt_iff. lia.
Qed.

Lemma string_leb_trans s1 s2 s3 :
  String.leb s1 s2 = true -> String.leb s2 s3 = true -> String.leb s1 s3 = true.
Proof.
  unfold String.leb. intros H1 H2.
  destruct (String.compare s1 s2) eqn:E12; [apply String.compare_eq_iff in E12; by subst| |done].
  destruct (String.compare s2 s3) eqn:E23; [apply String.compare_eq_iff in E23; subst; by rewrite E12| |done].
  by rewrite (string_compare_lt_trans _ _ _ E12 E23).
Qed.

Lemma line_le_trans : Transitive line_le.
Proof.
  intros [[i1 k1] t1] [[i2 k2] t2] [[i3 k3] t3]; unfold line_le; simpl.
  intros [H12|[E12 L12]] [H23|[E23 L23]].
  - left. by apply (Qlt_trans _ i2).
  - left. by rewrite <- E23.
  - left. by rewrite E12.
  - right. split; [by apply (Qeq_trans _ i2)|]. by apply (string_leb_trans _ k2).
Qed.

Lemma line_le_total : Total line_le.
Proof.
  intros [[i1 k1] t1] [[i2 k2] t2]; unfold line_le; simpl.
  destruct (Q_dec i1 i2) as [[L|L]|E]; [left; by left|right; by left|].
  destruct (String.leb_total k1 k2); [left|right]; right; split; auto. by symmetry.
Qed.

#[export] Existing Instances line_le_trans line_le_total.

Lemma StronglySorted_lookup_lt {A} (R : relation A) l i j x y :
  StronglySorted R l -> l !! i = Some x -> l !! j = Some y -> i < j -> R x y.
Proof.
  intros Hs. revert i j. induction Hs as [|z l Hs IH Hz]; intros i j Hi Hj Hij; [done|].
  destruct i as [|i], j as [|j]; simpl in *; try lia.
  - injection Hi as <-. rewrite Forall_lookup in Hz. eauto.
  - eapply IH; eauto. lia.
Qed.

Lemma neg_inv_index_lt n : (- 1 / inject_Z (Z.of_nat (S n)) < 0)%Q.
Proof. unfold Qlt, Qdiv, Qmult, Qinv. simpl. destruct (Pos.of_succ_nat n); simpl; lia. Qed.

Lemma neg_zero_index n : (- 0 / inject_Z (Z.of_nat (S n)) == 0)%Q.
Proof. unfold Qeq, Qdiv, Qmult, Qinv. simpl. destruct (Pos.of_succ_nat n); simpl; lia. Qed.

Lemma convert_argument_sign index a imp key t a' :
  important a = None -> convert_argument index a = inr (imp, key, t, a') ->
  imp_sign (imp, key, t).
Proof.
  unfold convert_argument. intros Hi. destruct (help a); [|done]. simpl. rewrite Hi.
  destruct (option_strings a); intros [= <- _ <- _]; unfold imp_sign; simpl;
    destruct (required a && _); simpl; auto using neg_inv_index_lt, neg_zero_index.
Qed.

Lemma convert_all_sign index acts conv acts' :
  Forall (fun a => important a = None) acts -> convert_all index acts = inr (conv, acts') ->
  Forall imp_sign conv.
Proof.
  revert index conv acts'. induction acts as [|a rest IH]; intros index conv acts' Hi; simpl.
  - by intros [= <- _].
  - rewrite Forall_cons in Hi. destruct Hi as [Ha Hrest].
    destruct (convert_argument index a) as [e|[[[imp key] t] a']] eqn:Hc; [done|]. simpl.
    destruct (convert_all (S index) rest) as [e|[lines rest']] eqn:Hr; [done|].
    intros [= <- _]. constructor; [by eapply convert_argument_sign|]. by eapply IH.
Qed.

(** C27: mandatory arguments come first.  When no action has an
    [important] attribute, every panel of a mandatory argument precedes
    every panel of an optional one in the generated page: its sort key
    [-1.0 / index] is negative, an optional argument's is zero. *)
Theorem frontend_mandatory_first acts lines g :
  Forall (fun a => important a = None) acts ->
  frontend_main acts = inr (lines, g) ->
  forall p q tp tq, p < q -> lines !! p = Some tp -> lines !! q = Some tq ->
  t_importance tp = "Optional" -> t_importance tq <> "Mandatory".
Proof.
  intros Hi. unfold frontend_main.
  destruct (convert_all 0 acts) as [e|[conv acts']] eqn:Hc; [done|]. simpl.
  destruct (generate_opts acts') as [e|g']; [done|]. intros [= <- _].
  intros p q tp tq Hpq Hp Hq Htp Htq.
  rewrite list_lookup_fmap in Hp, Hq.
  destruct (merge_sort line_le conv !! p) as [xp|] eqn:Ep; [|done].
  destruct (merge_sort line_le conv !! q) as [xq|] eqn:Eq; [|done].
  injection Hp as <-. injection Hq as <-.
  pose proof (StronglySorted_lookup_lt _ _ _ _ _ _
    (StronglySorted_merge_sort line_le conv) Ep Eq Hpq) as Hle.
  assert (Hs : Forall imp_sign (merge_sort line_le conv)).
  { rewrite (merge_sort_Permutation line_le conv). by eapply convert_all_sign. }
  rewrite Forall_lookup in Hs. pose proof (Hs _ _ Ep) as Sp. pose proof (Hs _ _ Eq) as Sq.
  destruct Sp as [[Hm _]|[_ Hp0]]; [by rewrite Hm in Htp|].
  destruct Sq as [[_ Hq0]|[Ho _]]; [|by rewrite Ho in Htq].
  destruct Hle as [Hlt|[Heq _]].
  - rewrite Hp0 in Hlt. apply (Qlt_irrefl 0). by apply (Qlt_trans _ xq.1.1).
  - rewrite Hp0 in Heq. rewrite <- Heq in Hq0. by apply (Qlt_irrefl 0).
Qed.

(** ** [generate_opts] on well-formed actions *)

Lemma strip_dashes_fix s s' : strip_dashes s = inr s' -> strip_dashes s' = inr s'.
Proof.
  induction s as [|c r IH]; simpl; [done|].
  destruct (Ascii.eqb c "-") eqn:E; [done|]. intros [= <-]. simpl. by rewrite E.
Qed.

Lemma strip_ok_run s : strip_ok s = true -> strip_dashes s = inr (strip_total s).
Proof. unfold strip_ok, strip_total. by destruct (strip_dashes s). Qed.

Lemma strip_total_fix s :
  strip_ok s = true -> strip_ok (strip_total s) = true /\ strip_total (strip_total s) = strip_total s.
Proof.
  intros H. pose proof (strip_dashes_fix _ _ (strip_ok_run s H)) as Hf.
  split; [unfold strip_ok; by rewrite Hf|]. unfold strip_total at 1. by rewrite Hf.
Qed.

Lemma alias_pairs_even os al :
  forallb strip_ok os = true -> Nat.even (length os) = true ->
  exists al', alias_pairs os al = inr (map strip_total os, al').
Proof.
  revert al. induction os as [os IH] using (induction_ltof1 _ (@length string)).
  unfold ltof in IH. intros al Hok Hev.
  destruct os as [|x [|y rest]]; simpl in *; [by eexists|done|].
  apply andb_true_iff in Hok as [Hx Hok]. apply andb_true_iff in Hok as [Hy Hok].
  rewrite (strip_ok_run x Hx), (strip_ok_run y Hy). simpl.
  destruct (IH rest ltac:(simpl; lia) (assoc_set (strip_total x) (strip_total y) al) Hok Hev)
    as [al' ->].
  by eexists.
Qed.

Lemma strip_action_fix a :
  forallb strip_ok (option_strings a) = true -> 1 < length (option_strings a) ->
  set_option_strings (map strip_total (option_strings (strip_action a))) (strip_action a) =
  strip_action a.
Proof.
  intros Hok Hlen. unfold strip_action. rewrite decide_True by done.
  unfold set_option_strings. simpl. f_equal. rewrite map_map.
  apply list_eq_same_length with (length (option_strings a)); rewrite ?length_map; [done|done|].
  intros i x y _. rewrite !list_lookup_fmap.
  destruct (option_strings a !! i) as [s|] eqn:E; simpl; [|done]. intros [= <-] [= <-].
  apply strip_total_fix. rewrite forallb_forall in Hok. apply Hok.
  apply list_elem_of_In, list_elem_of_lookup_2 with i, E.
Qed.

Lemma good_actions_elem acts a :
  good_actions acts = true -> a ∈ acts ->
  strip_ok (raw_name a) = true /\ forallb strip_ok (option_strings a) = true /\
  ((length (option_strings a) <=? 1) || Nat.even (length (option_strings a))) = true.
Proof.
  unfold good_actions. intros [_ H]%andb_true_iff Hin. rewrite forallb_forall in H.
  apply list_elem_of_In in Hin. apply H in Hin. rewrite !andb_true_iff in Hin. naive_solver.
Qed.

Lemma good_actions_head a rest : good_actions (a :: rest) = true -> option_strings a <> [].
Proof. unfold good_actions. intros [H _]%andb_true_iff. by apply negb_true_iff, bool_decide_eq_false in H. Qed.

Lemma strip_action_strings a :
  forallb strip_ok (option_strings a) = true ->
  forallb strip_ok (option_strings (strip_action a)) = true /\
  length (option_strings (strip_action a)) = length (option_strings a).
Proof.
  intros Hok. unfold strip_action. case_decide; simpl; [|done].
  rewrite length_map. split; [|done]. rewrite forallb_forall in Hok |- *.
  intros x Hx. apply in_map_iff in Hx as (y & <- & Hy). by apply strip_total_fix, Hok.
Qed.

Lemma strip_action_short a : ~ 1 < length (option_strings a) -> strip_action a = a.
Proof. intros H. unfold strip_action. by rewrite decide_False. Qed.

Lemma lookup_map_list {A B} (f : A -> B) (l : list A) i : map f l !! i = f <$> l !! i.
Proof. revert i. induction l as [|x l IH]; intros [|i]; simpl; auto. Qed.

Lemma store_lookup_cur acts k a :
  acts !! k = Some a -> (map strip_action (take k acts) ++ drop k acts) !! k = Some a.
Proof.
  intros Hk. assert (k < length acts) by (eapply lookup_lt_Some; eauto).
  rewrite lookup_app_r; rewrite length_map, length_take; [|lia].
  rewrite lookup_drop. replace (k + (k - k `min` length acts)) with k by lia. done.
Qed.

Lemma store_lookup_prev acts k j aj :
  j < k -> acts !! j = Some aj ->
  (map strip_action (take k acts) ++ drop k acts) !! j = Some (strip_action aj).
Proof.
  intros Hjk Hj. assert (j < length acts) by (eapply lookup_lt_Some; eauto).
  rewrite lookup_app_l by (rewrite length_map, length_take; lia).
  rewrite lookup_map_list, lookup_take_lt by done. by rewrite Hj.
Qed.

Lemma store_step acts k a x :
  acts !! k = Some a -> x = strip_action a ->
  <[k := x]> (map strip_action (take k acts) ++ drop k acts) =
  map strip_action (take (S k) acts) ++ drop (S k) acts.
Proof.
  intros Hk ->. assert (k < length acts) by (eapply lookup_lt_Some; eauto).
  rewrite (take_S_r _ _ _ Hk), map_app, <- app_assoc, (drop_S _ _ _ Hk).
  rewrite insert_app_r_alt by (rewrite length_map, length_take; lia).
  rewrite length_map, length_take. replace (k - k `min` length acts) with 0 by lia. done.
Qed.

Lemma filter_snoc_if (P : action -> Prop) `{!forall x, Decision (P x)} l a :
  filter P (l ++ [a]) = if decide (P a) then filter P l ++ [a] else filter P l.
Proof. rewrite filter_app. simpl. unfold filter. simpl. case_decide; simpl; by rewrite ?app_nil_r. Qed.

Lemma strip_action_idem a :
  forallb strip_ok (option_strings a) = true -> strip_action (strip_action a) = strip_action a.
Proof.
  intros Hok. destruct (decide (1 < length (option_strings a))) as [Hl|Hl].
  - unfold strip_action at 1. rewrite decide_True by (by rewrite (proj2 (strip_action_strings a Hok))).
    by apply strip_action_fix.
  - by rewrite !(strip_action_short a Hl).
Qed.

(** The alias update at the end of an iteration (lines 166-172) leaves
    the action it reads stripped. *)
Lemma gen_tail g j aj ss bs pos ch df :
  actions g !! j = Some aj -> forallb strip_ok (option_strings aj) = true ->
  ((length (option_strings aj) <=? 1) || Nat.even (length (option_strings aj))) = true ->
  exists al',
    match actions g !! j with
    | Some aj =>
        if decide (1 < length (option_strings aj)) then
          '(os', al) ← alias_pairs (option_strings aj) (alias g);
          inr (mk_gstate (<[j := set_option_strings os' aj]> (actions g)) ss bs pos al ch df (Some j))
        else inr (mk_gstate (actions g) ss bs pos (alias g) ch df (Some j))
    | None => inr (mk_gstate (actions g) ss bs pos (alias g) ch df (Some j))
    end = inr (mk_gstate (<[j := strip_action aj]> (actions g)) ss bs pos al' ch df (Some j)).
Proof.
  intros Hj Hok Hev. rewrite Hj. case_decide as Hl.
  - assert (Nat.even (length (option_strings aj)) = true) as He
      by (apply orb_true_iff in Hev as [Hle%Nat.leb_le|]; [lia|done]).
    destruct (alias_pairs_even _ (alias g) Hok He) as [al' ->]. exists al'. simpl.
    unfold strip_action. by rewrite decide_True.
  - exists (alias g). by rewrite strip_action_short, list_insert_id.
Qed.

Lemma gen_inv_next acts k a g st ss bs pos al ch df r :
  acts !! k = Some a -> gen_inv acts k g ->
  st = map strip_action (take (S k) acts) ++ drop (S k) acts ->
  bs = (if decide (kind a = StoreTrueAction) then boolean_arguments g ++ [opt_name a]
        else boolean_arguments g) ->
  ss = (if decide (kind a = StoreAction) then string_arguments g ++ [opt_name a]
        else string_arguments g) ->
  pos = (if decide (option_strings a = []) then positional_opts g ++ [dest a]
         else positional_opts g) ->
  match r with
  | None => False
  | Some j => j < S k /\ exists aj, acts !! j = Some aj /\ option_strings aj <> []
  end ->
  gen_inv acts (S k) (mk_gstate st ss bs pos al ch df r).
Proof.
  intros Hk (_ & Hb & Hs & Hp & _) -> -> -> -> Hr. unfold gen_inv. simpl.
  rewrite (take_S_r _ _ _ Hk), !filter_snoc_if.
  split; [done|]. rewrite Hb, Hs, Hp.
  repeat split; [case_decide; by rewrite ?map_app..|by destruct r].
Qed.

Lemma gen_step_inv acts k g a :
  good_actions acts = true -> acts !! k = Some a -> gen_inv acts k g ->
  exists g', gen_step g k = inr g' /\ gen_inv acts (S k) g'.
Proof.
  intros Hgood Hk Hinv. pose proof Hinv as (Hst & Hb & Hs & Hp & Hr).
  destruct (good_actions_elem acts a Hgood) as (Hn & Hok & Hev);
    [by eapply list_elem_of_lookup_2|].
  assert (Hgk : actions g !! k = Some a) by (rewrite Hst; by apply store_lookup_cur).
  unfold gen_step. rewrite Hgk. unfold raw_name in Hn.
  destruct (option_strings a) as [|o os] eqn:Hos.
  - simpl. rewrite (strip_ok_run _ Hn). simpl.
    destruct (optref g) as [j|] eqn:Hj.
    + destruct Hr as (Hjk & aj & Haj & Hosj).
      destruct (good_actions_elem acts aj Hgood) as (_ & Hokj & Hevj);
        [by eapply list_elem_of_lookup_2|].
      destruct (strip_action_strings aj Hokj) as [Hok' Hlen'].
      assert (Hgj : actions g !! j = Some (strip_action aj))
        by (rewrite Hst; by apply store_lookup_prev).
      edestruct (gen_tail g j (strip_action aj)) as [al' ->];
        [exact Hgj | done | by rewrite Hlen' |].
      eexists; split; [reflexivity|].
      rewrite strip_action_idem, list_insert_id by done.
      apply (gen_inv_next acts k a g); [done|done|..].
      * assert (Ha : strip_action a = a) by (apply strip_action_short; rewrite Hos; simpl; lia).
        rewrite <- (store_step acts k a a Hk), <- Hst by done. by rewrite list_insert_id.
      * unfold opt_name, raw_name. by rewrite Hos.
      * unfold opt_name, raw_name. by rewrite Hos.
      * by rewrite decide_True.
      * split; [lia|eauto].
    + subst k. destruct acts as [|a0 rest]; [done|]. simpl in Hk. injection Hk as ->.
      by apply good_actions_head in Hgood.
  - change (strip_ok (second_or_first (o :: os)) = true) in Hn.
    simpl. rewrite (strip_ok_run _ Hn). simpl.
    edestruct (gen_tail g k a) as [al' ->]; [exact Hgk | by rewrite Hos | by rewrite Hos |].
    eexists; split; [reflexivity|].
    apply (gen_inv_next acts k a g); [done|done|..].
    + rewrite Hst. by apply (store_step acts k a).
    + unfold opt_name, raw_name. by rewrite Hos.
    + unfold opt_name, raw_name. by rewrite Hos.
    + by rewrite Hos, decide_False.
    + split; [lia|]. exists a. by rewrite Hos.
Qed.

Lemma gen_loop_inv acts k m g :
  good_actions acts = true -> gen_inv acts k g -> k + m = length acts ->
  exists g', gen_loop g (seq k m) = inr g' /\ gen_inv acts (length acts) g'.
Proof.
  intros Hgood. revert k g. induction m as [|m IH]; intros k g Hinv Hlen.
  - exists g. split; [done|]. by replace (length acts) with k by lia.
  - destruct (lookup_lt_is_Some_2 acts k) as [a Hk]; [lia|].
    destruct (gen_step_inv acts k g a Hgood Hk Hinv) as (g1 & Hstep & Hinv1).
    destruct (IH (S k) g1 Hinv1) as (g' & Hloop & Hinv'); [lia|].
    exists g'. simpl. by rewrite Hstep.
Qed.

Lemma generate_opts_run acts :
  good_actions acts = true -> exists g, generate_opts acts = inr g /\ gen_inv acts (length acts) g.
Proof. intros Hgood. apply (gen_loop_inv acts 0 (length acts) (gstate_init acts)); by repeat split. Qed.

Lemma raw_name_same a b : same_opts a b -> raw_name a = raw_name b.
Proof. intros (Ho & Hd & _). unfold raw_name. by rewrite Ho, Hd. Qed.

Lemma good_actions_same acts acts' :
  Forall2 same_opts acts acts' -> good_actions acts = good_actions acts'.
Proof.
  intros H. unfold good_actions. f_equal.
  - destruct H as [|a b ?? (Ho & _)]; [done|]. by rewrite Ho.
  - apply (forallb_Forall2 same_opts); [done|]. intros a b Hab.
    rewrite (raw_name_same a b Hab). destruct Hab as (-> & _). done.
Qed.

(** On actions with a help text, [convert_argument] on each of them
    returns one panel per action and leaves actions [generate_opts]
    cannot tell from the originals. *)
Lemma convert_all_run index acts :
  Forall (fun a => is_Some (help a)) acts ->
  exists conv acts', convert_all index acts = inr (conv, acts') /\
    length conv = length acts /\ Forall2 same_opts acts acts'.
Proof.
  revert index. induction acts as [|a rest IH]; intros index Hh; [by do 2 eexists|].
  apply Forall_cons in Hh as [[h Ha] Hrest]. destruct (IH (S index) Hrest) as (conv & acts' & Hc & Hl & HF).
  simpl. unfold convert_argument at 1. rewrite Ha. simpl. rewrite Hc. simpl.
  destruct (option_strings a); do 2 eexists; (split; [reflexivity|]); simpl; (split; [lia|]);
    (constructor; [by repeat split|done]).
Qed.

(** C26: on actions whose first entry has option strings, whose names
    all keep a character other than ["-"] and whose option strings come
    in pairs when there are more than one, [generate_opts] returns
    normally; the parser's actions are left with their paired option
    strings stripped of dashes, ["boolean"] and ["string"] list the
    stripped names of the [store_true] and [store] actions in parser
    order, and [positional_opts] the dests of the positional actions. *)
Theorem generate_opts_spec acts :
  good_actions acts = true ->
  exists g, generate_opts acts = inr g /\
    actions g = map strip_action acts /\
    boolean_arguments g = map opt_name (filter (fun a => kind a = StoreTrueAction) acts) /\
    string_arguments g = map opt_name (filter (fun a => kind a = StoreAction) acts) /\
    positional_opts g = map dest (filter (fun a => option_strings a = []) acts).
Proof.
  intros Hgood. destruct (generate_opts_run acts Hgood) as (g & Hrun & Hinv).
  destruct Hinv as (Hst & Hb & Hs & Hp & _). rewrite firstn_all, drop_all, app_nil_r in *.
  by exists g.
Qed.

(** ** Witnesses on the sample parser *)

Lemma generate_opts_errors_witness :
  generate_opts (sample_act [] "workflow" StoreAction true None :: sample_actions) =
    inl (UnboundLocalError "option_strings") /\
  generate_opts [sample_act ["-a"; "-b"; "-c"] "a" OtherAction false None] = inl IndexError.
Proof.
  split.
  - apply (proj1 (generate_opts_errors (sample_act [] "workflow" StoreAction true None) _));
      reflexivity.
  - apply (proj2 (generate_opts_errors (sample_act ["-a"; "-b"; "-c"] "a" OtherAction false None) [])
             "-a" "-b" "-c"); reflexivity.
Defined.

Lemma convert_argument_help_witness :
  convert_argument 0 (sample_act ["--x"] "x" StoreAction false None) =
    inl (FTypeError "object of type 'NoneType' has no len()") /\
  exists imp key t,
    convert_argument 1 (sample_act ["-v"] "v" StoreTrueAction false (Some "be verbose")) =
      inr (imp, key, t, set_help (normalize_help "be verbose")
                          (sample_act ["-v"] "v" StoreTrueAction false (Some "be verbose"))) /\
    t_help t = normalize_help "be verbose".
Proof.
  split.
  - apply (proj1 (convert_argument_help 0 (sample_act ["--x"] "x" StoreAction false None)));
      reflexivity.
  - destruct (proj2 (convert_argument_help 1
                       (sample_act ["-v"] "v" StoreTrueAction false (Some "be verbose")))
                "be verbose") as (imp & key & t & Hc & Ht & _); [reflexivity|discriminate|].
    exists imp, key, t. by split.
Defined.

Lemma frontend_mandatory_first_witness :
  Forall (fun a => important a = None) sample_actions /\
  frontend_main sample_actions = inr sample_run /\
  forall p q tp tq, p < q -> sample_run.1 !! p = Some tp -> sample_run.1 !! q = Some tq ->
    t_importance tp = "Optional" -> t_importance tq <> "Mandatory".
Proof.
  split; [repeat constructor|]. split; [vm_compute; reflexivity|].
  apply (frontend_mandatory_first sample_actions sample_run.1 sample_run.2);
    [repeat constructor|vm_compute; reflexivity].
Defined.

Lemma generate_opts_spec_witness :
  good_actions sample_actions = true /\
  exists g, generate_opts sample_actions = inr g /\
    actions g = map strip_action sample_actions /\
    boolean_arguments g = map opt_name (filter (fun a => kind a = StoreTrueAction) sample_actions) /\
    string_arguments g = map opt_name (filter (fun a => kind a = StoreAction) sample_actions) /\
    positional_opts g = map dest (filter (fun a => option_strings a = []) sample_actions).
Proof.
  split; [vm_compute; reflexivity|]. apply generate_opts_spec. vm_compute. reflexivity.
Defined.

End Frontend.
