(* ===== verification/Workflows.v ===== *)
(** * Finding the workflows: [scan_workflows] of [generate_frontend.py]

    [scan_workflows] (lines 94-139) walks the directory tree under
    [root.common.dirs.veles], skips the directories whose path relative
    to the root starts with one of [BLACKLISTED_DIRS] (lines 58-59), and
    for every other directory imports each file of
    [set(files) - BLACKLISTED_FILES] (lines 61-62) whose extension is
    [.py]; a module that defines [run] with the arguments [load, main]
    is a workflow.  Its result is the list of their paths.

    Module [Workflows] takes the effects as parameters: the walk is the
    list of [os.walk]'s directories, each given by its path relative to
    the root (["."] for the root itself) with its file names;
    [try_to_import_file] followed by [is_module] is a function from a
    path to an optional module, described by the names [dir(mod)] lists
    and the argument names of [mod.run] ([None] when [run] is not a
    function, on which [getargspec] raises [TypeError]); and the
    iteration order of a Python [set] is a function [set_iter] that the
    theorem only assumes to permute its argument.  Printing, [warnings],
    [gc] and the thread check only produce output; the import of
    [IPython.utils.io] after the loops (lines 134-135), which raises
    [ImportError] when IPython is missing, is not modelled.

    The theorem [scan_workflows_spec] characterises the result up to
    order: a path is listed exactly when it is the path of a [.py] file,
    not blacklisted, in a directory whose relative path has no
    blacklisted prefix, whose module has [run(load, main)]. *)

From stdpp Require Import base list strings sets.
From Stdlib Require Import Ascii Permutation.
From S2P Require Import Prelude PyModel Bootstrap Frontend.

Set Warnings "-register-all -clear-no-such-hyp".

Module Workflows.
Import Frontend Bootstrap.

(** ** Data *)

(** What the code reads of an imported module. *)
Record wmodule := mk_wmodule {
  mod_names : list string;          (** [dir(mod)] *)
  run_args : option (list string)   (** [getargspec(mod.run).args] *)
}.

Definition blacklisted_dirs : list string :=
  ["external"; "znicz/external"; "tests"; "znicz/tests/unit"; "znicz/tests/functional"].

Definition blacklisted_files : list string :=
  ["boxer.py"; "bbox_detection.py"; "generate_frontend.py"; "__init__.py"].

(** ** The tests of the loop *)

(** Lines 101-107: [relpath.startswith(bdir)] for some [bdir]. *)
Definition skip_dir (relpath : string) : bool :=
  existsb (fun b => String.prefix b relpath) blacklisted_dirs.

(** The position of the last ["."] of a string. *)
Fixpoint rindex_dot (s : string) : option nat :=
  match s with
  | EmptyString => None
  | String c r =>
      match rindex_dot r with
      | Some i => Some (S i)
      | None => if Ascii.eqb c "." then Some 0 else None
      end
  end.

(** [os.path.splitext(f)[1]] on a file name: from the last dot, unless
    only dots precede it (a leading-dot name has no extension). *)
Definition splitext_ext (f : string) : string :=
  match rindex_dot f with
  | None => ""
  | Some i =>
      if existsb (fun c => negb (Ascii.eqb c ".")) (String.list_ascii_of_string (String.substring 0 i f))
      then String.substring i (String.length f - i) f
      else ""
  end.

(** The directory [os.walk] yields for a relative path. *)
Definition dir_path (root_dir rel : string) : string :=
  if String.eqb rel "." then root_dir else path_join root_dir rel.

(** Lines 120-128: [for func in dir(mod): if func == "run" and
    getargspec(mod.run).args == ["load", "main"]]. *)
Definition has_run (m : wmodule) : fexn + bool :=
  if bool_decide ("run" ∈ mod_names m) then
    match run_args m with
    | Some args => inr (bool_decide (args = ["load"; "main"]))
    | None => inl (FTypeError "unsupported callable")
    end
  else inr false.

(** ** The loop *)

Section Scan.
Variable import_file : string -> option wmodule.
Variable set_iter : list string -> list string.
Variable root_dir : string.

(** Lines 109-129 on one file of a directory at [path]. *)
Definition scan_file (path : string) (acc : list string) (f : string) : fexn + list string :=
  let f_path := path_join path f in
  if negb (String.eqb (splitext_ext f) ".py") then inr acc
  else match import_file f_path with
       | None => inr acc
       | Some m =>
           match has_run m with
           | inl e => inl e
           | inr ok => inr (if ok then acc ++ [f_path] else acc)
           end
       end.

(** A [for] loop in the exception monad. *)
Fixpoint fold_sum {A B} (f : A -> B -> fexn + A) (acc : A) (l : list B) : fexn + A :=
  match l with
  | [] => inr acc
  | x :: r => match f acc x with inl e => inl e | inr a => fold_sum f a r end
  end.

(** Lines 100-129 on one directory of the walk. *)
Definition scan_dir (acc : list string) (entry : string * list string) : fexn + list string :=
  let '(rel, files) := entry in
  if skip_dir rel then inr acc
  else fold_sum (scan_file (dir_path root_dir rel)) acc
         (set_iter (list_difference (remove_dups files) blacklisted_files)).

(** [scan_workflows] (lines 94-139). *)
Definition scan_workflows (walk : list (string * list string)) : fexn + list string :=
  fold_sum scan_dir [] walk.

(** ** What the loop computes *)

(** [mod.run] is a function with the arguments [load, main]. *)
Definition is_workflow (m : option wmodule) : Prop :=
  exists md, m = Some md /\ "run" ∈ mod_names md /\ run_args md = Some ["load"; "main"].

Definition workflow_b (m : option wmodule) : bool :=
  match m with
  | Some md => bool_decide ("run" ∈ mod_names md) && bool_decide (run_args md = Some ["load"; "main"])
  | None => false
  end.

(** No module the walk imports has a [run] that is not a function. *)
Definition runs_are_functions : Prop :=
  forall p md, import_file p = Some md -> "run" ∈ mod_names md -> is_Some (run_args md).

(** The paths one file contributes. *)
Definition file_hits (path f : string) : list string :=
  if String.eqb (splitext_ext f) ".py" && workflow_b (import_file (path_join path f))
  then [path_join path f] else [].

(** The paths one directory contributes. *)
Definition dir_hits (entry : string * list string) : list string :=
  let '(rel, files) := entry in
  if skip_dir rel then []
  else flat_map (file_hits (dir_path root_dir rel))
         (set_iter (list_difference (remove_dups files) blacklisted_files)).

End Scan.

(** A tree in which every module is a workflow: [a.py], a blacklisted
    [__init__.py], a file that is not Python, and a workflow in a
    directory whose name only starts with [tests]. *)
Definition demo_walk : list (string * list string) :=
  [(".", ["a.py"; "__init__.py"; "b.txt"]); ("testsuite", ["t.py"])].

Definition demo_import (p : string) : option wmodule :=
  Some (mk_wmodule ["run"] (Some ["load"; "main"])).

Lemma fold_sum_append {B} (f : list string -> B -> fexn + list string) (g : B -> list string) :
  (forall acc x, f acc x = inr (acc ++ g x)) ->
  forall l acc, fold_sum f acc l = inr (acc ++ flat_map g l).
Proof.
  intros Hf l. induction l as [|x l IH]; intros acc; simpl; [by rewrite app_nil_r|].
  rewrite Hf, IH. by rewrite app_assoc.
Qed.

Lemma workflow_b_spec m : workflow_b m = true <-> is_workflow m.
Proof.
  unfold workflow_b, is_workflow. destruct m as [md|]; [|naive_solver].
  rewrite andb_true_iff, !bool_decide_eq_true. naive_solver.
Qed.

Lemma elem_of_flat_map_iff {A B} (g : A -> list B) (l : list A) x :
  x ∈ flat_map g l <-> exists y, y ∈ l /\ x ∈ g y.
Proof.
  induction l as [|y l IH]; simpl; [set_solver|].
  rewrite elem_of_app, IH. setoid_rewrite elem_of_cons. naive_solver.
Qed.

Section ScanLemmas.
Variable import_file : string -> option wmodule.
Variable set_iter : list string -> list string.
Variable root_dir : string.
Hypothesis Hruns : runs_are_functions import_file.

Lemma scan_file_run path acc f :
  scan_file import_file path acc f = inr (acc ++ file_hits import_file path f).
Proof.
  unfold scan_file, file_hits. destruct (String.eqb (splitext_ext f) ".py"); simpl; [|by rewrite app_nil_r].
  destruct (import_file (path_join path f)) as [md|] eqn:E; simpl; [|by rewrite app_nil_r].
  unfold has_run. destruct (bool_decide ("run" ∈ mod_names md)) eqn:Hr; simpl; [|by rewrite app_nil_r].
  destruct (run_args md) as [args|] eqn:Ha.
  - simpl. destruct (bool_decide (args = ["load"; "main"])) eqn:Hl;
      repeat case_bool_decide; simplify_eq; by rewrite ?app_nil_r.
  - apply bool_decide_eq_true in Hr. destruct (Hruns _ _ E Hr). congruence.
Qed.

Lemma scan_dir_run acc e :
  scan_dir import_file set_iter root_dir acc e = inr (acc ++ dir_hits import_file set_iter root_dir e).
Proof.
  destruct e as [rel files]. unfold scan_dir, dir_hits. destruct (skip_dir rel); [by rewrite app_nil_r|].
  apply fold_sum_append, scan_file_run.
Qed.

Lemma scan_workflows_hits walk :
  scan_workflows import_file set_iter root_dir walk =
  inr (flat_map (dir_hits import_file set_iter root_dir) walk).
Proof.
  unfold scan_workflows. by rewrite (fold_sum_append _ (dir_hits import_file set_iter root_dir));
    [|apply scan_dir_run].
Qed.

Lemma elem_of_file_hits path f x :
  x ∈ file_hits import_file path f <->
  splitext_ext f = ".py" /\ x = path_join path f /\ is_workflow (import_file x).
Proof.
  unfold file_hits. destruct (String.eqb_spec (splitext_ext f) ".py") as [He|He]; simpl.
  - destruct (workflow_b (import_file (path_join path f))) eqn:Hw.
    + apply workflow_b_spec in Hw. rewrite list_elem_of_singleton. naive_solver.
    + rewrite elem_of_nil. split; [done|]. intros (_ & -> & Hx).
      apply workflow_b_spec in Hx. congruence.
  - rewrite elem_of_nil. naive_solver.
Qed.

End ScanLemmas.

Lemma flat_map_Permutation_pointwise {A B} (f g : A -> list B) l :
  (forall x, f x ≡ₚ g x) -> flat_map f l ≡ₚ flat_map g l.
Proof. intros Hfg. induction l as [|x l IH]; simpl; [done|]. by rewrite (Hfg x), IH. Qed.

(** The set iteration order changes the order of the workflows only. *)
Lemma dir_hits_set_order import_file set_iter root_dir e :
  (forall xs, set_iter xs ≡ₚ xs) ->
  dir_hits import_file set_iter root_dir e ≡ₚ dir_hits import_file (fun l => l) root_dir e.
Proof.
  intros Hperm. destruct e as [rel files]. simpl. destruct (skip_dir rel); [done|].
  apply Permutation_flat_map, Hperm.
Qed.

(** The paths the directories of the walk contribute, when sets iterate
    in any order. *)
Lemma elem_of_scan_hits import_file set_iter root_dir walk x :
  (forall xs, set_iter xs ≡ₚ xs) ->
  x ∈ flat_map (dir_hits import_file set_iter root_dir) walk <->
  exists rel files f, (rel, files) ∈ walk /\ skip_dir rel = false /\
    f ∈ files /\ (f ∉ blacklisted_files) /\ splitext_ext f = ".py" /\
    x = path_join (dir_path root_dir rel) f /\ is_workflow (import_file x).
Proof.
  intros Hperm. rewrite elem_of_flat_map_iff. split.
  - intros ([rel files] & Hin & Hx). simpl in Hx. destruct (skip_dir rel) eqn:Hs; [set_solver|].
    apply elem_of_flat_map_iff in Hx as (f & Hf & Hx).
    rewrite (Hperm _), list_elem_of_difference, elem_of_remove_dups in Hf.
    apply elem_of_file_hits in Hx. exists rel, files, f. naive_solver.
  - intros (rel & files & f & Hin & Hs & Hf & Hb & He & -> & Hw). exists (rel, files).
    split; [done|]. simpl. rewrite Hs. apply elem_of_flat_map_iff. exists f.
    rewrite (Hperm _), list_elem_of_difference, elem_of_remove_dups, elem_of_file_hits.
    naive_solver.
Qed.

(** The inputs of the witnesses: every [run] of [demo_import] is a
    function, and [a.py] of the root is a workflow of [demo_walk]. *)
Lemma demo_runs : runs_are_functions demo_import.
Proof. intros p md [= <-] _. by eexists. Qed.

Lemma demo_a_py :
  exists rel files f, (rel, files) ∈ demo_walk /\ skip_dir rel = false /\
    f ∈ files /\ (f ∉ blacklisted_files) /\ splitext_ext f = ".py" /\
    path_join "r" "a.py" = path_join (dir_path "r" rel) f /\
    is_workflow (demo_import (path_join "r" "a.py")).
Proof.
  exists ".", ["a.py"; "__init__.py"; "b.txt"], "a.py".
  split_and!; [by left|reflexivity|by left|vm_compute; set_solver|reflexivity|reflexivity|].
  eexists. split; [reflexivity|]. split; [by left|reflexivity].
Qed.

(** C35: the workflows [scan_workflows] finds.  Whatever order Python
    iterates sets in, when no imported module has a [run] that is not a
    function, [scan_workflows] returns normally, and a path is in its
    result exactly when it is [os.path.join(path, f)] for a directory
    [path] of the walk whose relative path starts with none of
    [BLACKLISTED_DIRS], a file [f] of it that is not in
    [BLACKLISTED_FILES] and has the extension [.py], and the module
    imported from that path has [run(load, main)]. *)
Theorem scan_workflows_spec import_file set_iter root_dir walk :
  (forall xs, set_iter xs ≡ₚ xs) -> runs_are_functions import_file ->
  exists ws, scan_workflows import_file set_iter root_dir walk = inr ws /\
    forall x, x ∈ ws <->
      exists rel files f, (rel, files) ∈ walk /\ skip_dir rel = false /\
        f ∈ files /\ (f ∉ blacklisted_files) /\ splitext_ext f = ".py" /\
        x = path_join (dir_path root_dir rel) f /\ is_workflow (import_file x).
Proof.
  intros Hperm Hruns. eexists. split; [by apply scan_workflows_hits|].
  intros x. by apply elem_of_scan_hits.
Qed.

Lemma scan_workflows_spec_witness :
  (forall xs, (fun l : list string => l) xs ≡ₚ xs) /\ runs_are_functions demo_import /\
  exists ws, scan_workflows demo_import (fun l => l) "r" demo_walk = inr ws /\
    path_join "r" "a.py" ∈ ws /\ path_join (path_join "r" "testsuite") "t.py" ∉ ws.
Proof.
  assert (Hp : forall xs, (fun l : list string => l) xs ≡ₚ xs) by reflexivity.
  split; [exact Hp|]. split; [exact demo_runs|].
  destruct (scan_workflows_spec demo_import (fun l => l) "r" demo_walk Hp demo_runs) as (ws & Hws & Hx).
  exists ws. split; [exact Hws|]. split.
  - apply Hx, demo_a_py.
  - vm_compute in Hws. injection Hws as <-. vm_compute. set_solver.
Defined.

End Workflows.
