(* ===== verification/FrontendMain.v ===== *)
(** * [main] of [generate_frontend.py]: the scan and the form together

    [main] (lines 63-91) composes the two parts of the generator: it
    scans the tree for workflows ([Workflows.scan_workflows]), converts
    the parser's actions into panels and collects their options
    ([Frontend.frontend_main], which runs [convert_argument] on every
    action, sorts the panels and runs [generate_opts] on the actions the
    conversion rewrote), and renders [frontend.html] under
    [root.common.web.root] from a template given the values below.

    The page is the record of the keyword arguments of
    [loader.load("frontend.html").generate(...)], before [json.dumps];
    the HTML the template produces and the writing of the file are
    not modelled.  The parser ([CommandLineBase.init_parser]), its
    [SPECIAL_OPTS], [root.common.dirs.veles] and
    [root.common.web.root] are parameters.

    The theorem [main_page] shows how the parts compose: when both run
    on inputs they handle, [main] returns 0, the page lists the
    workflows of the scan (in an order that depends only on Python's
    set iteration), its option lists are those of the parser's
    original actions (the help rewriting of the conversion does not
    reach them), there is one panel per action, and the command-line
    states passed to the page are always empty. *)

From stdpp Require Import base list strings sorting.
From Stdlib Require Import Permutation.
From S2P Require Import Prelude PyModel Bootstrap Frontend Workflows.

Set Warnings "-register-all -clear-no-such-hyp".

Module FrontendMain.
Import Frontend Bootstrap Workflows.

(** ** The page *)

(** The dict [opts] of lines 173-176. *)
Record opts_dict := mk_opts {
  opts_string : list string;
  opts_alias : list (string * string);
  opts_boolean : list string;
  opts_stop_early : bool
}.

(** The keyword arguments of [generate] (lines 81-87) and the path the
    page is written to (line 79). *)
Record page := mk_page {
  page_out : string;                          (** [path_to_out] *)
  page_arguments : list template;             (** [html]: the sorted panels *)
  page_workflows : list string;               (** [workflows] *)
  page_cmdline_states : list (string * atom); (** [cmdline_states]: [defaults] *)
  page_opts : opts_dict;                      (** [opts] *)
  page_positional : list string;              (** [positional_opts] *)
  page_choices : list (string * list string); (** [choices] *)
  page_defaults_opt : list (string * atom);   (** [defaults_opt] *)
  page_special : list string                  (** [special_opts] *)
}.

(** Line 64: [bool(sys.argv[1]) if len(sys.argv) > 1 else False]; the
    flag only selects the debug output of [scan_workflows]. *)
Definition debug_imports (argv : list string) : bool :=
  match argv with
  | _ :: a :: _ => negb (String.eqb a "")
  | _ => false
  end.

(** Lines 173-177: the [opts] dict [generate_opts] returns. *)
Definition opts_of (g : gstate) : opts_dict :=
  mk_opts (string_arguments g) (alias g) (boolean_arguments g) true.

Section Main.
Variable import_file : string -> option wmodule.
Variable set_iter : list string -> list string.
Variable root_dir : string.      (** [root.common.dirs.veles] *)
Variable web_folder : string.    (** [WEB_FOLDER = root.common.web.root] *)
Variable special_opts : list string.  (** [CommandLineBase.SPECIAL_OPTS] *)

(** [main] (lines 63-91) on the walk of [root_dir] and the parser's
    actions: the scan (line 66) runs before the actions are converted
    (lines 69-77); [defaults] (line 74) stays empty. *)
Definition main (walk : list (string * list string)) (acts : list action)
    : fexn + (page * Z) :=
  ws ← scan_workflows import_file set_iter root_dir walk;
  '(lines, g) ← frontend_main acts;
  let defaults := [] in
  inr (mk_page (path_join web_folder "frontend.html") lines ws defaults (opts_of g)
         (positional_opts g) (choices_of g) (defaults_of g) special_opts, 0%Z).

End Main.

(** ** Composition *)

Lemma same_opts_kind_names acts acts' k :
  Forall2 same_opts acts acts' ->
  map opt_name (filter (fun a => kind a = k) acts) = map opt_name (filter (fun a => kind a = k) acts').
Proof.
  intros HF. apply (map_filter_Forall2 same_opts); [done|]. intros a b Hab.
  unfold opt_name. rewrite (raw_name_same a b Hab). destruct Hab as (_ & _ & ->). done.
Qed.

Lemma same_opts_positional acts acts' :
  Forall2 same_opts acts acts' ->
  map dest (filter (fun a => option_strings a = []) acts) =
  map dest (filter (fun a => option_strings a = []) acts').
Proof.
  intros HF. apply (map_filter_Forall2 same_opts); [done|]. intros a b (-> & -> & _). done.
Qed.

(** C23: [main] composes the scan and the form.  Whatever order Python
    iterates sets in, when every imported module's [run] is a function,
    every action has a help text and the actions are ones
    [generate_opts] handles, [main] returns 0 and renders
    [frontend.html] in the web root with the workflows the scan finds
    (the same, up to order, as with sets iterated in list order), one
    panel per action, the [boolean], [string] and positional options of
    the parser's actions as they were before [convert_argument]
    rewrote their help, and no command-line states. *)
Theorem main_page import_file set_iter root_dir web_folder special walk acts :
  (forall xs, set_iter xs ≡ₚ xs) -> runs_are_functions import_file ->
  Forall (fun a => is_Some (help a)) acts -> good_actions acts = true ->
  exists p, main import_file set_iter root_dir web_folder special walk acts = inr (p, 0%Z) /\
    page_out p = path_join web_folder "frontend.html" /\
    page_workflows p ≡ₚ flat_map (dir_hits import_file (fun l => l) root_dir) walk /\
    page_cmdline_states p = [] /\
    length (page_arguments p) = length acts /\
    opts_boolean (page_opts p) = map opt_name (filter (fun a => kind a = StoreTrueAction) acts) /\
    opts_string (page_opts p) = map opt_name (filter (fun a => kind a = StoreAction) acts) /\
    page_positional p = map dest (filter (fun a => option_strings a = []) acts).
Proof.
  intros Hperm Hruns Hh Hgood.
  destruct (convert_all_run 0 acts Hh) as (conv & acts' & Hc & Hl & HF).
  rewrite (good_actions_same _ _ HF) in Hgood.
  destruct (generate_opts_run acts' Hgood) as (g & Hg & _ & Hb & Hs & Hp & _).
  rewrite firstn_all in Hb, Hs, Hp.
  eexists. split.
  { unfold main, frontend_main. rewrite scan_workflows_hits by done. simpl.
    rewrite Hc. simpl. rewrite Hg. reflexivity. }
  simpl. split_and!; [done| |done| | | |].
  - apply flat_map_Permutation_pointwise. intros e. by apply dir_hits_set_order.
  - by rewrite length_map, <- Hl, (merge_sort_Permutation line_le conv).
  - by rewrite Hb, (same_opts_kind_names _ _ _ HF).
  - by rewrite Hs, (same_opts_kind_names _ _ _ HF).
  - by rewrite Hp, (same_opts_positional _ _ HF).
Qed.

(** [main] on the sample parser and the tree of [Workflows.demo_walk]. *)
Lemma main_page_witness :
  exists p, main demo_import (fun l => l) "r" "w" [] demo_walk sample_actions = inr (p, 0%Z) /\
    page_out p = path_join "w" "frontend.html" /\
    page_workflows p ≡ₚ flat_map (dir_hits demo_import (fun l => l) "r") demo_walk /\
    page_cmdline_states p = [] /\
    length (page_arguments p) = length sample_actions /\
    opts_boolean (page_opts p) = map opt_name (filter (fun a => kind a = StoreTrueAction) sample_actions) /\
    opts_string (page_opts p) = map opt_name (filter (fun a => kind a = StoreAction) sample_actions) /\
    page_positional p = map dest (filter (fun a => option_strings a = []) sample_actions).
Proof.
  apply main_page.
  - reflexivity.
  - exact demo_runs.
  - repeat constructor; eexists; reflexivity.
  - reflexivity.
Defined.

End FrontendMain.
